(** * LLMcodeEval: the evaluation pipeline, embedded and verified

    Shallow embedding of the five evaluator modules under
    [src/backend/evaluators]: the correctness evaluator (weighted test
    cases run in a subprocess), the complexity, style and security
    analysers (walks over the Python syntax tree plus regular expressions
    over the raw text) and the report generator (weighted overall score
    and letter grade).

    Python's own machinery is not part of the repository.  What a function
    of the repository obtains from it (the parser, the subprocess, the JSON
    decoder, ...) enters the development as a variable of the section that
    embeds the function; what can be computed (double-precision arithmetic,
    the regular expressions, string splitting) is defined here. *)

From Stdlib Require Import ZArith List String Ascii Bool Lia DecimalString.
From Stdlib Require PrimFloat FloatOps Uint63.

#[local] Set Warnings "-register-all".
#[local] Set Warnings "-automation".

Import ListNotations.

Local Open Scope string_scope.
Local Open Scope Z_scope.

(* ================================================================== *)
(** * Python results: a value or a raised exception *)
(* ================================================================== *)

Inductive PyExn : Type :=
| TypeError
| ValueError
| KeyError
| OverflowError
| ZeroDivisionError.

Inductive PyResult (A : Type) : Type :=
| Ok (a : A)
| Raise (e : PyExn).

Arguments Ok {A} a.
Arguments Raise {A} e.

Definition bind {A B : Type} (m : PyResult A) (k : A -> PyResult B) : PyResult B :=
  match m with
  | Ok a => k a
  | Raise e => Raise e
  end.

Notation "x <- m ;; k" := (bind m (fun x => k))
  (at level 61, m at next level, right associativity).

(** Split a conjunction into its parts, and nothing else. *)
Ltac conjuncts := repeat match goal with |- _ /\ _ => split end.

(* ================================================================== *)
(** * Double precision arithmetic

    Every finite IEEE 754 binary64 number is an integer multiple of
    2^-1074, so a finite double is represented by that integer (its value
    in units of 2^-1074): [unit] stands for 1.0.  A number is
    representable when it is m * 2^j with |m| <= 2^53, and rounding is to
    nearest, ties to even.  The sign of zero is not represented: no
    operation used by the evaluators observes it. *)
(* ================================================================== *)

Module Binary64.

Definition unit : Z := 2 ^ 1074.

(** 2^1024, the first magnitude that is no longer finite. *)
Definition huge : Z := 2 ^ 2098.

(** Nearest integer to n/d (d > 0), ties to the even neighbour. *)
Definition rne_div (n d : Z) : Z :=
  let q := n / d in
  let r := n mod d in
  if 2 * r <? d then q
  else if d <? 2 * r then q + 1
  else if Z.even q then q else q + 1.

(** The double nearest to n/d, for n >= 0 and d > 0.  Numbers below 2^53
    units have spacing 1; a number in [2^e, 2^(e+1)) with e >= 53 has
    spacing 2^(e-52). *)
Definition round_pos (n d : Z) : Z :=
  let j := Z.max 0 (Z.log2 (n / d) - 52) in
  rne_div n (d * 2 ^ j) * 2 ^ j.

Definition round_ratio (n d : Z) : Z :=
  if n <? 0 then - round_pos (- n) d else round_pos n d.

Inductive float : Type :=
| Fin (u : Z)
| Inf (negative : bool)
| NaN.

(** Result of an arithmetic operation whose rounded value is u units. *)
Definition pack (u : Z) : float :=
  if huge <=? Z.abs u then Inf (u <? 0) else Fin u.

(** A decimal literal n/d of the source text, e.g. 0.15 is [lit 15 100]. *)
Definition lit (n d : Z) : float := pack (round_ratio (n * unit) d).

Definition fneg (x : float) : float :=
  match x with
  | Fin u => Fin (- u)
  | Inf s => Inf (negb s)
  | NaN => NaN
  end.

Definition fadd (x y : float) : float :=
  match x, y with
  | NaN, _ | _, NaN => NaN
  | Inf s, Inf s' => if Bool.eqb s s' then Inf s else NaN
  | Inf s, Fin _ | Fin _, Inf s => Inf s
  | Fin a, Fin b => pack (round_ratio (a + b) 1)
  end.

Definition fsub (x y : float) : float := fadd x (fneg y).

Definition fmul (x y : float) : float :=
  match x, y with
  | NaN, _ | _, NaN => NaN
  | Inf s, Inf s' => Inf (xorb s s')
  | Inf s, Fin b => if b =? 0 then NaN else Inf (xorb s (b <? 0))
  | Fin a, Inf s => if a =? 0 then NaN else Inf (xorb s (a <? 0))
  | Fin a, Fin b => pack (round_ratio (a * b) unit)
  end.

Definition fabs (x : float) : float :=
  match x with
  | Fin u => Fin (Z.abs u)
  | Inf _ => Inf false
  | NaN => NaN
  end.

Definition flt (x y : float) : bool :=
  match x, y with
  | NaN, _ | _, NaN => false
  | Fin a, Fin b => a <? b
  | Fin _, Inf s => negb s
  | Inf s, Fin _ => s
  | Inf s, Inf s' => s && negb s'
  end.

(** [float(z)] for a Python int. *)
Definition of_int (z : Z) : PyResult float :=
  match pack (round_ratio (z * unit) 1) with
  | Fin u => Ok (Fin u)
  | _ => Raise OverflowError
  end.

(** [a / b] for two Python ints: the correctly rounded quotient. *)
Definition int_truediv (a b : Z) : PyResult float :=
  if b =? 0 then Raise ZeroDivisionError
  else
    let n := if b <? 0 then - a else a in
    match pack (round_ratio (n * unit) (Z.abs b)) with
    | Fin u => Ok (Fin u)
    | _ => Raise OverflowError
    end.

(** [int(x)]: truncation toward zero. *)
Definition to_int (x : float) : PyResult Z :=
  match x with
  | Fin u => Ok (Z.quot u unit)
  | Inf _ => Raise OverflowError
  | NaN => Raise ValueError
  end.

(** [round(x)] with no digits argument: the nearest int, ties to even. *)
Definition py_round (x : float) : PyResult Z :=
  match x with
  | Fin u => Ok (rne_div u unit)
  | Inf _ => Raise OverflowError
  | NaN => Raise ValueError
  end.

End Binary64.

(* ================================================================== *)
(** * Text

    Source text and process output are strings of code points below 256.
    [is_space] is [str.isspace], [is_linebreak] the line boundaries of
    [str.splitlines], [lower] and [isupper] the methods of the same
    names, all on that range. *)
(* ================================================================== *)

Definition nl : string := String "010"%char EmptyString.
Definition dq : string := String "034"%char EmptyString.
Definition sq : string := String "039"%char EmptyString.

Definition code (c : ascii) : N := N_of_ascii c.

Definition between (lo hi : N) (c : ascii) : bool :=
  ((lo <=? code c) && (code c <=? hi))%N.

Definition is_space (c : ascii) : bool :=
  between 9 13 c || between 28 32 c || (code c =? 133)%N || (code c =? 160)%N.

Definition is_linebreak (c : ascii) : bool :=
  between 10 13 c || between 28 30 c || (code c =? 133)%N.

Definition is_upper_char (c : ascii) : bool :=
  between 65 90 c || between 192 214 c || between 216 222 c.

Definition is_lower_char (c : ascii) : bool :=
  between 97 122 c || between 223 246 c || between 248 255 c
  || (code c =? 170)%N || (code c =? 181)%N || (code c =? 186)%N.

Definition lower_char (c : ascii) : ascii :=
  if is_upper_char c then ascii_of_N (code c + 32) else c.

Fixpoint lower (s : string) : string :=
  match s with
  | String c s' => String (lower_char c) (lower s')
  | EmptyString => EmptyString
  end.

Fixpoint forall_chars (p : ascii -> bool) (s : string) : bool :=
  match s with
  | String c s' => p c && forall_chars p s'
  | EmptyString => true
  end.

Fixpoint exists_char (p : ascii -> bool) (s : string) : bool :=
  match s with
  | String c s' => p c || exists_char p s'
  | EmptyString => false
  end.

(** [s.isupper()]: some cased character, and no lower-case one. *)
Definition isupper (s : string) : bool :=
  exists_char is_upper_char s && negb (exists_char is_lower_char s).

Fixpoint lstrip (s : string) : string :=
  match s with
  | String c s' => if is_space c then lstrip s' else s
  | EmptyString => EmptyString
  end.

Fixpoint rstrip (s : string) : string :=
  match s with
  | String c s' =>
      match rstrip s' with
      | EmptyString => if is_space c then EmptyString else String c EmptyString
      | t => String c t
      end
  | EmptyString => EmptyString
  end.

Definition strip (s : string) : string := rstrip (lstrip s).

Definition nonempty (s : string) : bool :=
  match s with EmptyString => false | _ => true end.

(** [s[:n]] *)
Definition take (n : nat) (s : string) : string := substring 0 n s.

Fixpoint splitlines_from (s cur : string) : list string :=
  match s with
  | EmptyString => if nonempty cur then [cur] else []
  | String c s' =>
      if is_linebreak c then
        match s' with
        | String c' s'' =>
            if ((code c =? 13) && (code c' =? 10))%N
            then cur :: splitlines_from s'' EmptyString
            else cur :: splitlines_from s' EmptyString
        | EmptyString => [cur]
        end
      else splitlines_from s' (cur ++ String c EmptyString)
  end.

Definition splitlines (s : string) : list string := splitlines_from s EmptyString.

(** [s.startswith(p)] *)
Definition startswith (p s : string) : bool := prefix p s.

(** Remainder of s after the prefix p, when s starts with p. *)
Fixpoint after_prefix (p s : string) : option string :=
  match p, s with
  | EmptyString, _ => Some s
  | String a p', String b s' => if Ascii.eqb a b then after_prefix p' s' else None
  | String _ _, EmptyString => None
  end.

(** [s.count(sub)] for a non-empty sub: occurrences that do not overlap,
    found from the left. *)
Fixpoint count_from (fuel : nat) (sub s : string) : Z :=
  match fuel with
  | O => 0
  | S fuel' =>
      match after_prefix sub s with
      | Some rest => 1 + count_from fuel' sub rest
      | None =>
          match s with
          | String _ s' => count_from fuel' sub s'
          | EmptyString => 0
          end
      end
  end.

Definition count (sub s : string) : Z :=
  match sub with
  | EmptyString => Z.of_nat (String.length s) + 1
  | _ => count_from (S (String.length s)) sub s
  end.

(** [sub in s] *)
Fixpoint contains (sub s : string) : bool :=
  prefix sub s ||
  match s with
  | String _ s' => contains sub s'
  | EmptyString => false
  end.

(** [s.split(".")[0]] *)
Fixpoint before_dot (s : string) : string :=
  match s with
  | String c s' => if (code c =? 46)%N then EmptyString else String c (before_dot s')
  | EmptyString => EmptyString
  end.

(** Decimal text of an int, as [str] and f-strings print it. *)
Definition show_Z (z : Z) : string := NilZero.string_of_int (Z.to_int z).

Definition len (s : string) : Z := Z.of_nat (String.length s).
(* ================================================================== *)
(** * Python values carried by JSON *)
(* ================================================================== *)

Inductive PyValue : Type :=
| PyNone
| PyBool (b : bool)
| PyInt (z : Z)
| PyFloat (f : Binary64.float)
| PyStr (s : string)
| PyList (items : list PyValue)
| PyDict (entries : list (string * PyValue)).

Fixpoint lookup {A : Type} (k : string) (d : list (string * A)) : option A :=
  match d with
  | [] => None
  | (k', v) :: d' => if String.eqb k k' then Some v else lookup k d'
  end.

(** [v[k]] for a string key: only a dict holding the key answers. *)
Definition subscript (v : PyValue) (k : string) : PyResult PyValue :=
  match v with
  | PyDict d => match lookup k d with Some x => Ok x | None => Raise KeyError end
  | _ => Raise TypeError
  end.

(** [d.get(k)] on a dict. *)
Definition dict_get (v : PyValue) (k : string) : PyValue :=
  match v with
  | PyDict d => match lookup k d with Some x => x | None => PyNone end
  | _ => PyNone
  end.

Definition is_none (v : PyValue) : bool :=
  match v with PyNone => true | _ => false end.

Definition isinstance_float (v : PyValue) : bool :=
  match v with PyFloat _ => true | _ => false end.

(** Numbers compare by value across bool, int and float. *)
Definition num_eq_int_float (z : Z) (f : Binary64.float) : bool :=
  match f with
  | Binary64.Fin u => u =? z * Binary64.unit
  | _ => false
  end.

Definition float_eq (f g : Binary64.float) : bool :=
  match f, g with
  | Binary64.Fin u, Binary64.Fin v => u =? v
  | Binary64.Inf s, Binary64.Inf s' => Bool.eqb s s'
  | _, _ => false
  end.

Definition int_of_bool (b : bool) : Z := if b then 1 else 0.

(** [a == b] *)
Fixpoint py_eq (a b : PyValue) {struct a} : bool :=
  match a, b with
  | PyNone, PyNone => true
  | PyBool x, PyBool y => Bool.eqb x y
  | PyBool x, PyInt z | PyInt z, PyBool x => int_of_bool x =? z
  | PyBool x, PyFloat f | PyFloat f, PyBool x => num_eq_int_float (int_of_bool x) f
  | PyInt x, PyInt y => x =? y
  | PyInt z, PyFloat f | PyFloat f, PyInt z => num_eq_int_float z f
  | PyFloat f, PyFloat g => float_eq f g
  | PyStr s, PyStr t => String.eqb s t
  | PyList l, PyList m =>
      (fix all2 (l m : list PyValue) {struct l} : bool :=
         match l, m with
         | [], [] => true
         | x :: l', y :: m' => py_eq x y && all2 l' m'
         | _, _ => false
         end) l m
  | PyDict d, PyDict e =>
      (Nat.eqb (List.length d) (List.length e)) &&
      (fix each (d : list (string * PyValue)) : bool :=
         match d with
         | [] => true
         | (k, v) :: d' =>
             match lookup k e with
             | Some w => py_eq v w
             | None => false
             end && each d'
         end) d
  | _, _ => false
  end.

(** Truth value of a constant, as [if v:] and [or] take it. *)
Definition truthy (v : PyValue) : bool :=
  match v with
  | PyNone => false
  | PyBool b => b
  | PyInt z => negb (z =? 0)
  | PyFloat (Binary64.Fin u) => negb (u =? 0)
  | PyFloat _ => true
  | PyStr s => nonempty s
  | PyList l => match l with [] => false | _ => true end
  | PyDict d => match d with [] => false | _ => true end
  end.

(* ================================================================== *)
(** * The syntax tree of the [ast] module

    A node carries its class with the attributes of that class that the
    evaluators read, the name of the field of its parent that holds it,
    its line span, and its child nodes in the order of
    [ast.iter_child_nodes].  [node.body] is then the children held in field
    body, and an absent optional field has no child.  A constant that is
    bytes, a complex number or the ellipsis is [ConstantOther] with its
    truth value. *)
(* ================================================================== *)

Inductive NodeClass : Type :=
| Module_
| FunctionDef (name : string)
| AsyncFunctionDef (name : string)
| ClassDef (name : string)
| If
| For
| While
| Try
| ExceptHandler
| With
| Assert
| BoolOp
| comprehension
| Call
| Name (id : string)
| Attribute (attr : string)
| Constant (value : PyValue)
| ConstantOther (truth : bool)
| keyword (arg : option string)
| arguments
| Import
| ImportFrom (module : option string)
| alias (name : string) (asname : option string)
| Pass
| Expr
| List_
| Dict_
| Set_
| Store
| Load
| OtherNode (class_name : string).

Inductive node : Type :=
  Node { cls : NodeClass;
         field : string;
         lineno : Z;
         end_lineno : Z;
         children : list node }.

(** [node.f] for a field f holding a list of nodes (or one, or none). *)
Definition attr (f : string) (n : node) : list node :=
  filter (fun c => String.eqb (field c) f) (children n).

Fixpoint height (n : node) : nat :=
  S (fold_right (fun c h => Nat.max (height c) h) O (children n)).

(** Breadth-first levels below a front of nodes. *)
Fixpoint levels (depth : nat) (front : list node) : list node :=
  match depth with
  | O => []
  | S depth' =>
      match front with
      | [] => []
      | _ => List.app front (levels depth' (flat_map children front))
      end
  end.

(** [ast.walk(tree)]: the node and its descendants, breadth first. *)
Definition walk (tree : node) : list node := levels (height tree) [tree].

Definition isFunctionDef (n : node) : bool :=
  match cls n with FunctionDef _ | AsyncFunctionDef _ => true | _ => false end.

Definition def_name (n : node) : string :=
  match cls n with
  | FunctionDef name | AsyncFunctionDef name | ClassDef name => name
  | _ => EmptyString
  end.

(** What [ast.parse] did with the submission. *)
Inductive ParseResult : Type :=
| Parsed (tree : node)
| SyntaxError (exc : string).

(* ================================================================== *)
(** * What the evaluators take from Python *)
(* ================================================================== *)

(** What [subprocess.run] did: the child ended and its streams were
    captured, the deadline passed, or the call itself failed. *)
Inductive ProcResult : Type :=
| Completed (stdout stderr : string)
| TimeoutExpired
| RunFailed (msg : string).

(** What [json.loads] did with a line. *)
Inductive JsonResult : Type :=
| Loaded (v : PyValue)
| JSONDecodeError
| LoadFailed (msg : string).

Class Sandbox : Type := {
  (** [subprocess.run] at its i-th call, on the script it is given *)
  subprocess_run : nat -> string -> ProcResult;
  json_loads : string -> JsonResult;
  textwrap_dedent : string -> string
}.

Class Builtins : Type := {
  (** [float(s)] on a string; [None] is ValueError *)
  float_of_str : string -> option Binary64.float;
  (** [sorted] on a list of values; [None] is TypeError *)
  py_sorted : list PyValue -> option (list PyValue);
  sorted_str : list string -> list string;
  py_str : PyValue -> string;
  (** the format [:.1f] *)
  format_1f : Binary64.float -> string
}.

Class Parser : Type := {
  ast_parse : string -> ParseResult;
  (** [ast.unparse]; [None] when it raises *)
  ast_unparse : node -> option string
}.

(* ================================================================== *)
(** * correctnessEvaluator.py *)
(* ================================================================== *)

Definition str_error (msg : string) : PyValue :=
  PyDict [("status", PyStr "error"); ("error", PyStr msg)].

Record TestCase : Type := {
tc_label : option string;
tc_args : option string;
tc_expected : option PyValue;
tc_ordered : option bool;
tc_weight : option Z
}.

Record Problem : Type := {
preamble : option string;
testCases : list TestCase;
hiddenTestCases : list TestCase
}.

Record TestResult : Type := {
tr_label : string;
tr_status : PyValue;
tr_expected : PyValue;
tr_actual : PyValue;
tr_error : PyValue;
tr_hidden : bool;
tr_weight : Z
}.

Record CorrectnessReport : Type := {
cr_score : Z;
cr_passed : Z;
cr_total : Z;
cr_testResults : list TestResult
}.

Definition get {A : Type} (o : option A) (default : A) : A :=
match o with Some a => a | None => default end.

Definition SANDBOX_TIMEOUT_SECONDS : Z := 5.
Definition MAX_OUTPUT_CHARS : nat := 500.

(** The weighted score of the last lines of [runCorrectnessEvaluation]:
  [int((earnedWeight / totalWeight) * 100) if totalWeight > 0 else 0]. *)
Definition weightedScore (earnedWeight totalWeight : Z) : PyResult Z :=
if 0 <? totalWeight then
  q <- Binary64.int_truediv earnedWeight totalWeight ;;
  h <- Binary64.of_int 100 ;;
  Binary64.to_int (Binary64.fmul q h)
else Ok 0.

Definition status_is (s : string) (r : TestResult) : bool :=
py_eq (tr_status r) (PyStr s).

Section Correctness.

Context `{Sandbox} `{Builtins}.

Definition _buildRunnerScript (submittedCode functionCall preamble : string) : string :=
  let dedentedCode := textwrap_dedent submittedCode in
  let parts := ["import json, sys" ++ nl] in
  let parts :=
    if nonempty preamble
    then List.app parts
           ["# ---- Problem preamble ----" ++ nl; textwrap_dedent preamble; nl]
    else parts in
  let parts := List.app parts
    [ "# ---- Submitted solution ----" ++ nl;
      dedentedCode;
      nl ++ nl ++ "# ---- Test driver ----" ++ nl;
      "try:" ++ nl;
      "    result = " ++ functionCall ++ nl;
      "    print(json.dumps({" ++ dq ++ "status" ++ dq ++ ": " ++ dq ++ "ok" ++ dq
        ++ ", " ++ dq ++ "result" ++ dq ++ ": result}))" ++ nl;
      "except Exception as exc:" ++ nl;
      "    print(json.dumps({" ++ dq ++ "status" ++ dq ++ ": " ++ dq ++ "error" ++ dq
        ++ ", " ++ dq ++ "error" ++ dq ++ ": str(exc)}))" ++ nl ] in
  String.concat EmptyString parts.

Definition _runInSandbox (call : nat) (script : string) : PyValue :=
  match subprocess_run call script with
  | Completed stdout stderr =>
      let rawOutput := strip stdout in
      if negb (nonempty rawOutput) then
        let stderrSnippet := strip (take MAX_OUTPUT_CHARS stderr) in
        str_error (if nonempty stderrSnippet then stderrSnippet else "No output produced.")
      else
        match rev (filter (fun l => nonempty (strip l)) (splitlines rawOutput)) with
        | lastLine :: _ =>
            match json_loads lastLine with
            | Loaded v => v
            | JSONDecodeError =>
                str_error ("Could not parse output: " ++ take MAX_OUTPUT_CHARS rawOutput)
            | LoadFailed msg => str_error msg
            end
        | [] => str_error "list index out of range"
        end
  | TimeoutExpired =>
      PyDict [("status", PyStr "timeout");
              ("error", PyStr ("Exceeded " ++ show_Z SANDBOX_TIMEOUT_SECONDS ++ "s time limit."))]
  | RunFailed msg => str_error msg
  end.

(** [float(v)] *)
Definition py_float (v : PyValue) : PyResult Binary64.float :=
  match v with
  | PyFloat f => Ok f
  | PyInt z => Binary64.of_int z
  | PyBool b => Binary64.of_int (int_of_bool b)
  | PyStr s =>
      match float_of_str s with
      | Some f => Ok f
      | None => Raise ValueError
      end
  | PyNone | PyList _ | PyDict _ => Raise TypeError
  end.

Definition _valuesMatch (actual expected : PyValue) (ordered : bool) : PyResult bool :=
  if is_none expected then Ok (is_none actual)
  else if isinstance_float expected || isinstance_float actual then
    match (a <- py_float actual ;;
           e <- py_float expected ;;
           Ok (Binary64.flt (Binary64.fabs (Binary64.fsub a e)) (Binary64.lit 1 1000000))) with
    | Raise TypeError | Raise ValueError => Ok false
    | r => r
    end
  else
    match expected, actual with
    | PyList e, PyList a =>
        if negb ordered then
          match py_sorted a with
          | Some sa =>
              match py_sorted e with
              | Some se => Ok (py_eq (PyList sa) (PyList se))
              | None =>
                  Ok (py_eq (PyList (map PyStr (sorted_str (map py_str a))))
                            (PyList (map PyStr (sorted_str (map py_str e)))))
              end
          | None =>
              Ok (py_eq (PyList (map PyStr (sorted_str (map py_str a))))
                        (PyList (map PyStr (sorted_str (map py_str e)))))
          end
        else Ok (py_eq actual expected)
    | _, _ => Ok (py_eq actual expected)
    end.

(** The local variables of the loop of [runCorrectnessEvaluation]. *)
Record LoopState : Type := {
  testResults : list TestResult;
  totalWeight : Z;
  earnedWeight : Z
}.

(** One iteration of [for tc in allTestCases], the [call]-th. *)
Definition evalCase (submittedCode preamble : string) (call : nat)
           (tc : TestCase * bool) (st : LoopState) : PyResult LoopState :=
  let label := get (tc_label (fst tc)) "Unnamed test" in
  let functionCall := get (tc_args (fst tc)) EmptyString in
  let expected := get (tc_expected (fst tc)) PyNone in
  let ordered := get (tc_ordered (fst tc)) true in
  let weight := get (tc_weight (fst tc)) 1 in
  let totalWeight := totalWeight st + weight in
  let script := _buildRunnerScript submittedCode functionCall preamble in
  let outcome := _runInSandbox call script in
  status0 <- subscript outcome "status" ;;
  if py_eq status0 (PyStr "ok") then
    actual <- subscript outcome "result" ;;
    passed <- _valuesMatch actual expected ordered ;;
    Ok {| testResults := List.app (testResults st)
            [ {| tr_label := label;
                 tr_status := PyStr (if passed then "pass" else "fail");
                 tr_expected := expected;
                 tr_actual := actual;
                 tr_error := PyNone;
                 tr_hidden := snd tc;
                 tr_weight := weight |} ];
          totalWeight := totalWeight;
          earnedWeight := if passed then earnedWeight st + weight else earnedWeight st |}
  else
    Ok {| testResults := List.app (testResults st)
            [ {| tr_label := label;
                 tr_status := status0;
                 tr_expected := expected;
                 tr_actual := PyNone;
                 tr_error := dict_get outcome "error";
                 tr_hidden := snd tc;
                 tr_weight := weight |} ];
          totalWeight := totalWeight;
          earnedWeight := earnedWeight st |}.

Fixpoint evalCases (submittedCode preamble : string) (call : nat)
         (cases : list (TestCase * bool)) (st : LoopState) : PyResult LoopState :=
  match cases with
  | [] => Ok st
  | tc :: rest =>
      st' <- evalCase submittedCode preamble call tc st ;;
      evalCases submittedCode preamble (S call) rest st'
  end.

Definition allTestCases (problem : Problem) : list (TestCase * bool) :=
  List.app (map (fun tc => (tc, false)) (testCases problem))
           (map (fun tc => (tc, true)) (hiddenTestCases problem)).

Definition runLoop (submittedCode : string) (problem : Problem) : PyResult LoopState :=
  evalCases submittedCode (get (preamble problem) EmptyString) 0
            (allTestCases problem)
            {| testResults := []; totalWeight := 0; earnedWeight := 0 |}.

Definition runCorrectnessEvaluation (submittedCode : string) (problem : Problem)
  : PyResult CorrectnessReport :=
  st <- runLoop submittedCode problem ;;
  score <- weightedScore (earnedWeight st) (totalWeight st) ;;
  Ok {| cr_score := score;
        cr_passed := Z.of_nat (List.length (filter (status_is "pass") (testResults st)));
        cr_total := Z.of_nat (List.length (allTestCases problem));
        cr_testResults := testResults st |}.

End Correctness.

(* ================================================================== *)
(** * complexityEvaluator.py *)
(* ================================================================== *)

Record FunctionMetrics : Type := {
  fm_name : string;
  cyclomaticScore : Z;
  maxNestDepth : Z;
  isRecursive : bool;
  lineCount : Z
}.

Record ComplexityReport : Type := {
  cx_score : Z;
  cx_functions : list FunctionMetrics;
  cx_builtinHints : list string;
  cx_summary : string;
  cx_warnings : list string
}.

Definition count_nodes (l : list node) : Z := Z.of_nat (List.length l).

(** The class attribute [_CyclomaticVisitor.DECISION_NODE_TYPES]; no
    method of the visitor reads it. *)
Definition DECISION_NODE_TYPES : list NodeClass :=
  [If; For; While; ExceptHandler; With; Assert; comprehension].

(** What the [visit_X] method of [_CyclomaticVisitor] chosen for the class
    of the node adds to [self.count]; a class with no method of its own
    gets [generic_visit], which adds nothing. *)
Definition cyclomatic_increment (n : node) : Z :=
  match cls n with
  | If | For | While | ExceptHandler => 1
  | BoolOp => count_nodes (attr "values" n) - 1
  | comprehension => count_nodes (attr "ifs" n)
  | _ => 0
  end.

(** [_CyclomaticVisitor.visit(node)] on the running [self.count]. *)
Fixpoint cyclomatic_visit (n : node) (count : Z) : Z :=
  fold_left (fun c child => cyclomatic_visit child c) (children n)
            (count + cyclomatic_increment n).

(** [v = _CyclomaticVisitor(); v.visit(node); v.count] *)
Definition cyclomatic (n : node) : Z := cyclomatic_visit n 1.

Record NestingDepthVisitor : Type := {
  maxDepth : Z;
  _currentDepth : Z
}.

Definition is_nesting_node (n : node) : bool :=
  match cls n with For | While | If => true | _ => false end.

(** [_NestingDepthVisitor.visit(node)] *)
Fixpoint nesting_visit (n : node) (v : NestingDepthVisitor) : NestingDepthVisitor :=
  if is_nesting_node n then
    let v1 := {| maxDepth := Z.max (maxDepth v) (_currentDepth v + 1);
                 _currentDepth := _currentDepth v + 1 |} in
    let v2 := fold_left (fun w child => nesting_visit child w) (children n) v1 in
    {| maxDepth := maxDepth v2; _currentDepth := _currentDepth v2 - 1 |}
  else fold_left (fun w child => nesting_visit child w) (children n) v.

Definition nesting_depth (n : node) : Z :=
  maxDepth (nesting_visit n {| maxDepth := 0; _currentDepth := 0 |}).

Definition calls_name (funcName : string) (n : node) : bool :=
  match cls n with
  | Call =>
      match attr "func" n with
      | f :: _ => match cls f with Name id => String.eqb id funcName | _ => false end
      | [] => false
      end
  | _ => false
  end.

Definition _detectRecursion (funcNode : node) : bool :=
  existsb (calls_name (def_name funcNode)) (walk funcNode).

Definition HINTS : list (string * string) :=
  [ ("sorted", "Uses sorted() — O(n log n) time.");
    ("sort", "Uses list.sort() — O(n log n) in-place.");
    ("set", "Uses set() — O(n) construction, O(1) average lookup.");
    ("dict", "Uses dict() — O(n) construction, O(1) average lookup.");
    ("reversed", "Uses reversed() — O(n) traversal.") ].

Definition mem_str (x : string) (l : list string) : bool := existsb (String.eqb x) l.

Definition called_name (n : node) : option string :=
  match cls n with
  | Call =>
      match attr "func" n with
      | f :: _ =>
          match cls f with
          | Name id => Some id
          | Attribute a => Some a
          | _ => None
          end
      | [] => None
      end
  | _ => None
  end.

Definition _detectBuiltinHints (tree : node) : list string :=
  fold_left
    (fun found n =>
       match called_name n with
       | Some funcName =>
           match lookup funcName HINTS with
           | Some hint =>
               if nonempty funcName && negb (mem_str hint found)
               then List.app found [hint] else found
           | None => found
           end
       | None => found
       end)
    (walk tree) [].

Definition sumZ (l : list Z) : Z := fold_right Z.add 0 l.

Definition functionScore (m : FunctionMetrics) : Z :=
  let score := 100 in
  let score :=
    if 10 <? cyclomaticScore m then
      score - Z.min 30 ((cyclomaticScore m - 10) * 5)
            - Z.min 20 ((cyclomaticScore m - 5) * 3)
    else if 5 <? cyclomaticScore m then
      score - Z.min 20 ((cyclomaticScore m - 5) * 4)
    else score in
  let score :=
    if 2 <? maxNestDepth m then score - Z.min 30 ((maxNestDepth m - 2) * 10)
    else score in
  Z.max 0 score.

Definition _scoreFromMetrics (metrics : list FunctionMetrics) : PyResult Z :=
  match metrics with
  | [] => Ok 50
  | _ =>
      let functionScores := map functionScore metrics in
      q <- Binary64.int_truediv (sumZ functionScores) (Z.of_nat (List.length functionScores)) ;;
      Binary64.to_int q
  end.

Definition metricsOf (n : node) : FunctionMetrics :=
  {| fm_name := def_name n;
     cyclomaticScore := cyclomatic n;
     maxNestDepth := nesting_depth n;
     isRecursive := _detectRecursion n;
     lineCount := end_lineno n - lineno n + 1 |}.

Definition warningsOf (m : FunctionMetrics) : list string :=
  List.app
    (if 10 <? cyclomaticScore m then
       [sq ++ fm_name m ++ sq ++ " has high cyclomatic complexity ("
           ++ show_Z (cyclomaticScore m) ++ "). "
           ++ "Consider breaking it into smaller functions."]
     else [])
    (List.app
       (if 3 <? maxNestDepth m then
          [sq ++ fm_name m ++ sq ++ " has deep nesting (depth="
              ++ show_Z (maxNestDepth m) ++ "). "
              ++ "This often indicates O(n^k) time complexity."]
        else [])
       (if isRecursive m then
          [sq ++ fm_name m ++ sq ++ " is recursive. Ensure base cases are correct "
              ++ "and consider memoisation for overlapping subproblems."]
        else [])).

Section Complexity.

Context `{Parser} `{Builtins}.

Definition runComplexityEvaluation (submittedCode : string) : PyResult ComplexityReport :=
  match ast_parse submittedCode with
  | SyntaxError exc =>
      Ok {| cx_score := 0;
            cx_functions := [];
            cx_builtinHints := [];
            cx_summary := "Syntax error — could not parse: " ++ exc;
            cx_warnings := [exc] |}
  | Parsed tree =>
      let functionMetrics := map metricsOf (filter isFunctionDef (walk tree)) in
      let builtinHints := _detectBuiltinHints tree in
      score <- _scoreFromMetrics functionMetrics ;;
      let warnings := flat_map warningsOf functionMetrics in
      summary <-
        match functionMetrics with
        | [] => Ok "No top-level functions detected."
        | _ =>
            avgCyclomatic <-
              Binary64.int_truediv (sumZ (map cyclomaticScore functionMetrics))
                                   (Z.of_nat (List.length functionMetrics)) ;;
            Ok ("Analysed " ++ show_Z (Z.of_nat (List.length functionMetrics))
                  ++ " function(s). "
                  ++ "Average cyclomatic complexity: " ++ format_1f avgCyclomatic ++ ". "
                  ++ (if 80 <=? score then "No major complexity issues detected."
                      else "Complexity issues found — see warnings."))
        end ;;
      Ok {| cx_score := score;
            cx_functions := functionMetrics;
            cx_builtinHints := builtinHints;
            cx_summary := summary;
            cx_warnings := warnings |}
  end.

End Complexity.

(* ================================================================== *)
(** * styleEvaluator.py *)
(* ================================================================== *)

Definition MAX_LINE_LENGTH : Z := 100.

Definition VIOLATION_WEIGHTS : list (string * Z) :=
  [ ("namingConvention", 3);
    ("magicNumber", 2);
    ("missingDocstring", 4);
    ("lineTooLong", 1);
    ("emptyExcept", 8);
    ("bareExcept", 6);
    ("mutableDefault", 7);
    ("unusedImport", 3);
    ("multipleReturnTypes", 2) ].

(** [SNAKE_CASE_PATTERN.match(name)], the pattern ^[a-z_][a-z0-9_]*$ on a
    name, which holds no line break. *)
Definition snake_start (c : ascii) : bool := between 97 122 c || (code c =? 95)%N.
Definition snake_rest (c : ascii) : bool := snake_start c || between 48 57 c.

Definition snake_case (name : string) : bool :=
  match name with
  | String c rest => snake_start c && forall_chars snake_rest rest
  | EmptyString => false
  end.

Definition ALLOWED_MAGIC_NUMBERS : list Z := [0; 1; -1; 2; 10; 100].

Definition line_of (n : node) : string := show_Z (lineno n).

Definition naming_violation (n : node) : list string :=
  let named :=
    match cls n with
    | FunctionDef name | AsyncFunctionDef name => Some (name, "Function")
    | Name id =>
        match attr "ctx" n with
        | c :: _ => match cls c with Store => Some (id, "Variable") | _ => None end
        | [] => None
        end
    | _ => None
    end in
  match named with
  | Some (name, kind) =>
      if nonempty name && negb (startswith "_" name) && negb (snake_case name)
         && negb (isupper name)
      then [kind ++ " " ++ sq ++ name ++ sq ++ " at line " ++ line_of n ++ " "
              ++ "should use snake_case (PEP 8)."]
      else []
  | None => []
  end.

Definition _checkNaming (tree : node) : list string :=
  flat_map naming_violation (walk tree).

Definition has_docstring (n : node) : bool :=
  match attr "body" n with
  | first :: _ =>
      match cls first with
      | Expr =>
          match attr "value" first with
          | v :: _ => match cls v with Constant (PyStr _) => true | _ => false end
          | [] => false
          end
      | _ => false
      end
  | [] => false
  end.

Definition docstring_violation (n : node) : list string :=
  match cls n with
  | FunctionDef name | AsyncFunctionDef name | ClassDef name =>
      if has_docstring n then []
      else [sq ++ name ++ sq ++ " at line " ++ line_of n ++ " is missing a docstring."]
  | _ => []
  end.

Definition _checkDocstrings (tree : node) : list string :=
  flat_map docstring_violation (walk tree).

Definition allowed_magic (v : PyValue) : bool :=
  match v with
  | PyBool b => existsb (Z.eqb (int_of_bool b)) ALLOWED_MAGIC_NUMBERS
  | PyInt z => existsb (Z.eqb z) ALLOWED_MAGIC_NUMBERS
  | PyFloat f => existsb (fun z => num_eq_int_float z f) ALLOWED_MAGIC_NUMBERS
  | _ => true
  end.

Definition is_number (v : PyValue) : bool :=
  match v with PyBool _ | PyInt _ | PyFloat _ => true | _ => false end.

Fixpoint lineLengthViolations (i : Z) (sourceLines : list string) : list string :=
  match sourceLines with
  | [] => []
  | line :: rest =>
      List.app
        (if MAX_LINE_LENGTH <? len (rstrip line) then
           ["Line " ++ show_Z i ++ " is " ++ show_Z (len (rstrip line)) ++ " characters "
              ++ "(limit: " ++ show_Z MAX_LINE_LENGTH ++ ")."]
         else [])
        (lineLengthViolations (i + 1) rest)
  end.

Definition _checkLineLengths (sourceLines : list string) : list string :=
  lineLengthViolations 1 sourceLines.

Definition isBodyJustPass (n : node) : bool :=
  match attr "body" n with
  | [only] => match cls only with Pass => true | _ => false end
  | _ => false
  end.

Definition except_violation (n : node) : list string :=
  match cls n with
  | ExceptHandler =>
      match attr "type" n with
      | [] =>
          ["Bare `except:` at line " ++ line_of n ++ " catches ALL exceptions "
             ++ "including SystemExit and KeyboardInterrupt. Be specific."]
      | _ =>
          if isBodyJustPass n then
            ["`except` at line " ++ line_of n ++ " has an empty body (`pass`). "
               ++ "Silently swallowing exceptions hides bugs."]
          else []
      end
  | _ => []
  end.

Definition _checkEmptyAndBareExcept (tree : node) : list string :=
  flat_map except_violation (walk tree).

Definition mutable_type_name (n : node) : option string :=
  match cls n with
  | List_ => Some "list"
  | Dict_ => Some "dict"
  | Set_ => Some "set"
  | _ => None
  end.

Definition mutable_default_violations (n : node) : list string :=
  match cls n with
  | FunctionDef name | AsyncFunctionDef name =>
      flat_map
        (fun args =>
           flat_map
             (fun default =>
                match mutable_type_name default with
                | Some typeName =>
                    [sq ++ name ++ sq ++ " at line " ++ line_of n ++ " uses a mutable default "
                       ++ "argument (" ++ typeName ++ " literal). "
                       ++ "Use `None` and initialise inside."]
                | None => []
                end)
             (List.app (attr "defaults" args) (attr "kw_defaults" args)))
        (attr "args" n)
  | _ => []
  end.

Definition _checkMutableDefaults (tree : node) : list string :=
  flat_map mutable_default_violations (walk tree).

Definition or_name (asname : option string) (name : string) : string :=
  match asname with
  | Some a => if nonempty a then a else name
  | None => name
  end.

Definition module_text (module : option string) : string :=
  match module with Some m => m | None => "None" end.

Definition import_violations (sourceCode : string) (n : node) : list string :=
  match cls n with
  | Import =>
      flat_map
        (fun a =>
           match cls a with
           | alias name asname =>
               let usedName := or_name asname (before_dot name) in
               if count usedName sourceCode <=? 1 then
                 ["Import " ++ sq ++ name ++ sq ++ " at line " ++ line_of n
                    ++ " appears unused."]
               else []
           | _ => []
           end)
        (attr "names" n)
  | ImportFrom module =>
      flat_map
        (fun a =>
           match cls a with
           | alias name asname =>
               let usedName := or_name asname name in
               if negb (String.eqb usedName "*") && (count usedName sourceCode <=? 1) then
                 ["Import " ++ sq ++ name ++ sq ++ " from " ++ sq ++ module_text module ++ sq
                    ++ " at line " ++ line_of n ++ " appears unused."]
               else []
           | _ => []
           end)
        (attr "names" n)
  | _ => []
  end.

Definition _checkUnusedImports (tree : node) (sourceCode : string) : list string :=
  flat_map (import_violations sourceCode) (walk tree).

(** [_computeScore] of styleEvaluator.py *)
Definition style_computeScore (violationsByType : list (string * list string)) : Z :=
  let totalDeduction :=
    fold_left
      (fun total item =>
         let weight := get (lookup (fst item) VIOLATION_WEIGHTS) 2 in
         total + Z.of_nat (List.length (snd item)) * weight)
      violationsByType 0 in
  Z.max 0 (100 - totalDeduction).

Record StyleReport : Type := {
  st_score : Z;
  st_violations : list (string * list string);
  st_totalViolations : Z;
  st_summary : string
}.

Definition nonempty_list {A : Type} (l : list A) : bool :=
  match l with [] => false | _ => true end.

Section Style.

Context `{Parser} `{Builtins}.

Definition magic_violation (n : node) : list string :=
  match cls n with
  | Constant v =>
      if is_number v && negb (allowed_magic v) then
        ["Magic number " ++ sq ++ py_str v ++ sq ++ " at line " ++ line_of n ++ ". "
           ++ "Consider extracting to a named constant."]
      else []
  | _ => []
  end.

Definition _checkMagicNumbers (tree : node) : list string :=
  flat_map magic_violation (walk tree).

Definition runStyleEvaluation (submittedCode : string) : StyleReport :=
  let sourceLines := splitlines submittedCode in
  match ast_parse submittedCode with
  | SyntaxError exc =>
      {| st_score := 0;
         st_violations := [];
         st_totalViolations := 0;
         st_summary := "Syntax error — style checks skipped: " ++ exc |}
  | Parsed tree =>
      let violations :=
        [ ("namingConvention", _checkNaming tree);
          ("missingDocstring", _checkDocstrings tree);
          ("magicNumber", _checkMagicNumbers tree);
          ("lineTooLong", _checkLineLengths sourceLines);
          ("emptyExcept", _checkEmptyAndBareExcept tree);
          ("mutableDefault", _checkMutableDefaults tree);
          ("unusedImport", _checkUnusedImports tree submittedCode) ] in
      let violations := filter (fun kv => nonempty_list (snd kv)) violations in
      let totalViolations :=
        sumZ (map (fun kv => Z.of_nat (List.length (snd kv))) violations) in
      let score := style_computeScore violations in
      let summary :=
        if 0 <? totalViolations then
          "Found " ++ show_Z totalViolations ++ " style violation(s) across "
            ++ show_Z (Z.of_nat (List.length violations)) ++ " category/categories."
        else "No style violations detected. Clean code!" in
      {| st_score := score;
         st_violations := violations;
         st_totalViolations := totalViolations;
         st_summary := summary |}
  end.

End Style.

(* ================================================================== *)
(** * Regular expressions

    The fragment of [re] that the patterns of securityEvaluator.py use:
    character classes, sequence, alternation with the left branch tried
    first, and the greedy star of a character class, matched by
    backtracking as [re] does. *)
(* ================================================================== *)

Inductive regex : Type :=
| Eps
| Chr (p : ascii -> bool)
| Star (p : ascii -> bool)
| Seq (r1 r2 : regex)
| Alt (r1 r2 : regex).

(** Greedy star: take a character when the class allows and the rest of
    the pattern then matches, otherwise stop here. *)
Fixpoint star_match (p : ascii -> bool) (s : string) (k : string -> option string)
  : option string :=
  match s with
  | String c s' =>
      if p c then
        match star_match p s' k with
        | Some rest => Some rest
        | None => k s
        end
      else k s
  | EmptyString => k s
  end.

(** Match r at the start of s and continue with k on what is left; the
    answer is the text left after the whole match. *)
Fixpoint rmatch (r : regex) (s : string) (k : string -> option string) : option string :=
  match r with
  | Eps => k s
  | Chr p =>
      match s with
      | String c s' => if p c then k s' else None
      | EmptyString => None
      end
  | Star p => star_match p s k
  | Seq r1 r2 => rmatch r1 s (fun s' => rmatch r2 s' k)
  | Alt r1 r2 =>
      match rmatch r1 s k with
      | Some rest => Some rest
      | None => rmatch r2 s k
      end
  end.

Fixpoint drop (n : nat) (s : string) : string :=
  match n, s with
  | S n', String _ s' => drop n' s'
  | _, _ => s
  end.

(** [pattern.finditer(s)]: the start offsets of the matches, found from
    the left, each search resuming where the previous match ended. *)
Fixpoint finditer_from (fuel : nat) (r : regex) (pos : nat) (s : string) : list nat :=
  match fuel with
  | O => []
  | S fuel' =>
      match rmatch r s Some with
      | Some rest =>
          let width := (String.length s - String.length rest)%nat in
          match width, s with
          | O, String _ s' => pos :: finditer_from fuel' r (S pos) s'
          | O, EmptyString => [pos]
          | _, _ => pos :: finditer_from fuel' r (pos + width) (drop width s)
          end
      | None =>
          match s with
          | String _ s' => finditer_from fuel' r (S pos) s'
          | EmptyString => []
          end
      end
  end.

Definition finditer (r : regex) (s : string) : list nat :=
  finditer_from (S (String.length s)) r O s.

(** Pattern syntax. *)
Definition any_char (c : ascii) : bool := negb (code c =? 10)%N.
Definition one_of (chars : string) (c : ascii) : bool := exists_char (Ascii.eqb c) chars.
Definition ci (a c : ascii) : bool := Ascii.eqb (lower_char c) (lower_char a).

(** A literal word; with [ignorecase] each letter matches in either case. *)
Fixpoint word (ignorecase : bool) (w : string) : regex :=
  match w with
  | String a w' => Seq (Chr (if ignorecase then ci a else Ascii.eqb a)) (word ignorecase w')
  | EmptyString => Eps
  end.

Fixpoint alts (rs : list regex) : regex :=
  match rs with
  | [] => Chr (fun _ => false)
  | [r] => r
  | r :: rs' => Alt r (alts rs')
  end.

Fixpoint seqs (rs : list regex) : regex :=
  match rs with
  | [] => Eps
  | r :: rs' => Seq r (seqs rs')
  end.

(** p{n,} *)
Fixpoint at_least (n : nat) (p : ascii -> bool) : regex :=
  match n with
  | O => Star p
  | S n' => Seq (Chr p) (at_least n' p)
  end.

Definition quote : regex := Chr (one_of (sq ++ dq)).
Definition spaces : regex := Star is_space.

(* ================================================================== *)
(** * securityEvaluator.py *)
(* ================================================================== *)

Inductive Severity : Type := critical | high | medium | low.

Definition severity_name (s : Severity) : string :=
  match s with
  | critical => "critical"
  | high => "high"
  | medium => "medium"
  | low => "low"
  end.

Record SecurityFinding : Type := {
  severity : Severity;
  category : string;
  description : string;
  line : Z
}.

Definition SEVERITY_DEDUCTIONS (s : Severity) : Z :=
  match s with
  | critical => 30
  | high => 15
  | medium => 8
  | low => 3
  end.

Definition assignment_of (names : list string) (secret : regex) : regex :=
  seqs [ alts (map (word true) names); spaces; Chr (one_of "="); spaces;
         quote; secret; quote ].

Definition base64_char (c : ascii) : bool :=
  between 97 122 c || between 65 90 c || between 48 57 c || one_of "+/=" c.

Definition SECRET_PATTERNS : list (regex * string) :=
  [ (assignment_of ["password"; "passwd"; "pwd"] (at_least 3 any_char), "Hardcoded password");
    (assignment_of ["api_key"; "apikey"; "secret_key"] (at_least 8 any_char), "Hardcoded API key");
    (assignment_of ["token"] (at_least 16 base64_char), "Hardcoded token");
    (assignment_of ["aws_secret_access_key"] (at_least 1 any_char), "Hardcoded AWS secret") ].

Definition SQL_INJECTION_PATTERN : regex :=
  seqs [ alts (map (word true) ["execute"; "executemany"; "raw"; "cursor.execute"]);
         spaces; Chr (one_of "("); spaces;
         Chr (fun c => ci "f" c || one_of (dq ++ sq) c);
         Star any_char;
         alts [ word true "%s"; word true "{"; word true "}"; word true "format";
                seqs [Chr (one_of "%"); spaces; Chr (one_of "(")] ] ].

Definition DANGEROUS : list (string * (Severity * string)) :=
  [ ("eval", (critical, "eval() executes arbitrary code. Never use on untrusted input."));
    ("exec", (critical, "exec() executes arbitrary code. Never use on untrusted input."));
    ("__import__", (high, "__import__() bypasses normal import controls.")) ].

Definition DANGEROUS_ATTRS : list (string * string * (Severity * string)) :=
  [ ("os", "system",
     (high, "os.system() is vulnerable to shell injection. Use subprocess with a list."));
    ("os", "popen", (high, "os.popen() is vulnerable to shell injection."));
    ("subprocess", "call",
     (medium, "subprocess.call() with shell=True is vulnerable to injection."));
    ("subprocess", "Popen",
     (medium, "subprocess.Popen — ensure shell=False and avoid string commands."));
    ("pickle", "loads",
     (high, "pickle.loads() on untrusted data enables arbitrary code execution."));
    ("pickle", "load",
     (high, "pickle.load() on untrusted data enables arbitrary code execution."));
    ("marshal", "loads",
     (high, "marshal.loads() deserialises bytecode — never use on untrusted data."));
    ("yaml", "load",
     (medium, "yaml.load() without Loader= is unsafe. Use yaml.safe_load().")) ].

Fixpoint lookup_attr (moduleName : option string) (attrName : string)
         (table : list (string * string * (Severity * string))) : option (Severity * string) :=
  match table with
  | [] => None
  | (m, a, v) :: table' =>
      match moduleName with
      | Some m' =>
          if String.eqb m m' && String.eqb a attrName then Some v
          else lookup_attr moduleName attrName table'
      | None => None
      end
  end.

Definition shell_true (kw : node) : bool :=
  match cls kw with
  | keyword (Some "shell") =>
      match attr "value" kw with
      | v :: _ =>
          match cls v with
          | Constant c => truthy c
          | ConstantOther t => t
          | _ => false
          end
      | [] => false
      end
  | _ => false
  end.

Definition dangerous_call (n : node) : list SecurityFinding :=
  match cls n with
  | Call =>
      match attr "func" n with
      | func :: _ =>
          List.app
            match cls func with
            | Name id =>
                match lookup id DANGEROUS with
                | Some (sev, desc) =>
                    [ {| severity := sev; category := "DangerousBuiltin";
                         description := desc; line := lineno n |} ]
                | None => []
                end
            | _ => []
            end
            match cls func with
            | Attribute attrName =>
                let moduleName :=
                  match attr "value" func with
                  | v :: _ => match cls v with Name id => Some id | _ => None end
                  | [] => None
                  end in
                match lookup_attr moduleName attrName DANGEROUS_ATTRS with
                | Some (sev, desc) =>
                    {| severity := sev; category := "DangerousAPI";
                       description := desc; line := lineno n |}
                    :: (if match moduleName with
                           | Some m => String.eqb m "subprocess"
                           | None => false
                           end
                        then
                          map (fun _ =>
                                 {| severity := high; category := "ShellInjection";
                                    description :=
                                      "subprocess called with shell=True — vulnerable to shell "
                                        ++ "injection if input is user-controlled.";
                                    line := lineno n |})
                              (filter shell_true (attr "keywords" n))
                        else [])
                | None => []
                end
            | _ => []
            end
      | [] => []
      end
  | _ => []
  end.

Definition _checkDangerousCalls (tree : node) : list SecurityFinding :=
  flat_map dangerous_call (walk tree).

Definition SECURITY_KEYWORDS : list string :=
  ["auth"; "admin"; "permission"; "valid"; "token"; "role"; "access"].

(** Line of the offset: [sourceCode[:start].count(newline) + 1]. *)
Definition line_at (sourceCode : string) (start : nat) : Z :=
  count nl (take start sourceCode) + 1.

Definition _checkHardcodedSecrets (sourceCode : string) : list SecurityFinding :=
  flat_map
    (fun entry =>
       map (fun start =>
              let lineNo := line_at sourceCode start in
              {| severity := critical; category := "HardcodedSecret";
                 description :=
                   snd entry ++ " detected at line " ++ show_Z lineNo ++ ". "
                     ++ "Store secrets in environment variables or a secrets manager.";
                 line := lineNo |})
           (finditer (fst entry) sourceCode))
    SECRET_PATTERNS.

Definition _checkSqlInjection (sourceCode : string) : list SecurityFinding :=
  map (fun start =>
         let lineNo := line_at sourceCode start in
         {| severity := high; category := "SQLInjection";
            description :=
              "Possible SQL injection at line " ++ show_Z lineNo ++ ". "
                ++ "Use parameterised queries instead of string formatting.";
            line := lineNo |})
      (finditer SQL_INJECTION_PATTERN sourceCode).

(** [_computeScore] of securityEvaluator.py *)
Definition security_computeScore (findings : list SecurityFinding) : Z :=
  let totalDeduction := sumZ (map (fun f => SEVERITY_DEDUCTIONS (severity f)) findings) in
  Z.max 0 (100 - totalDeduction).

Record SecurityReport : Type := {
  se_score : Z;
  se_findings : list SecurityFinding;
  se_summary : string
}.

Definition severity_eqb (a b : Severity) : bool :=
  match a, b with
  | critical, critical | high, high | medium, medium | low, low => true
  | _, _ => false
  end.

Definition severityCount (s : Severity) (findings : list SecurityFinding) : Z :=
  Z.of_nat (List.length (filter (fun f => severity_eqb (severity f) s) findings)).

Section Security.

Context `{Parser}.

Definition assert_finding (n : node) : list SecurityFinding :=
  match cls n with
  | Assert =>
      match attr "test" n with
      | test :: _ =>
          match ast_unparse test with
          | Some text =>
              let testSource := lower text in
              if existsb (fun kw => contains kw testSource) SECURITY_KEYWORDS then
                [ {| severity := high; category := "AssertForSecurity";
                     description :=
                       "assert used for security check at line " ++ line_of n ++ ". "
                         ++ "Assertions are stripped with `python -O`. Use explicit if/raise.";
                     line := lineno n |} ]
              else []
          | None => []
          end
      | [] => []
      end
  | _ => []
  end.

Definition _checkAssertForSecurity (tree : node) : list SecurityFinding :=
  flat_map assert_finding (walk tree).

Definition runSecurityEvaluation (submittedCode : string) : SecurityReport :=
  match ast_parse submittedCode with
  | SyntaxError exc =>
      {| se_score := 100;
         se_findings := [];
         se_summary := "Syntax error — security checks skipped: " ++ exc |}
  | Parsed tree =>
      let allFindings :=
        List.app (_checkDangerousCalls tree)
          (List.app (_checkAssertForSecurity tree)
             (List.app (_checkHardcodedSecrets submittedCode)
                       (_checkSqlInjection submittedCode))) in
      let score := security_computeScore allFindings in
      let summary :=
        match allFindings with
        | [] => "No security issues detected."
        | _ =>
            let parts :=
              flat_map
                (fun s =>
                   let v := severityCount s allFindings in
                   if 0 <? v then [show_Z v ++ " " ++ severity_name s] else [])
                [critical; high; medium; low] in
            "Found " ++ show_Z (Z.of_nat (List.length allFindings))
              ++ " security finding(s): " ++ String.concat ", " parts ++ "."
        end in
      {| se_score := score;
         se_findings := allFindings;
         se_summary := summary |}
  end.

End Security.

(* ================================================================== *)
(** * reportGenerator.py *)
(* ================================================================== *)

(** [SCORE_WEIGHTS]: the decimal literals 0.50, 0.20, 0.15 and 0.15. *)
Definition SCORE_WEIGHTS : list (string * Binary64.float) :=
  [ ("correctness", Binary64.lit 50 100);
    ("complexity", Binary64.lit 20 100);
    ("style", Binary64.lit 15 100);
    ("security", Binary64.lit 15 100) ].

Definition score_weight (dimension : string) : Binary64.float :=
  get (lookup dimension SCORE_WEIGHTS) Binary64.NaN.

Definition GRADE_THRESHOLDS : list (Z * string * string) :=
  [ (90, "A", "Excellent — production-ready quality.");
    (80, "B", "Good — minor improvements suggested.");
    (70, "C", "Acceptable — several areas need attention.");
    (60, "D", "Below average — significant issues present.");
    (0, "F", "Failing — fundamental problems detected.") ].

(** [score * weight] for an int score and a float weight. *)
Definition int_times (score : Z) (weight : Binary64.float) : PyResult Binary64.float :=
  s <- Binary64.of_int score ;;
  Ok (Binary64.fmul s weight).

Definition _computeOverallScore
           (correctnessScore complexityScore styleScore securityScore : Z) : PyResult Z :=
  a <- int_times correctnessScore (score_weight "correctness") ;;
  b <- int_times complexityScore (score_weight "complexity") ;;
  c <- int_times styleScore (score_weight "style") ;;
  d <- int_times securityScore (score_weight "security") ;;
  let weighted := Binary64.fadd (Binary64.fadd (Binary64.fadd a b) c) d in
  Binary64.py_round weighted.

Fixpoint firstGrade (overallScore : Z) (thresholds : list (Z * string * string))
  : string * string :=
  match thresholds with
  | [] => ("F", "Failing")
  | (threshold, grade, label) :: rest =>
      if threshold <=? overallScore then (grade, label)
      else firstGrade overallScore rest
  end.

Definition _assignGrade (overallScore : Z) : string * string :=
  firstGrade overallScore GRADE_THRESHOLDS.

Record EvaluationReport : Type := {
  overallScore : Z;
  grade : string;
  gradeLabel : string;
  correctnessDimension : CorrectnessReport;
  complexityDimension : ComplexityReport;
  styleDimension : StyleReport;
  securityDimension : SecurityReport
}.

(** [buildReport]: the overall score, the grade and the four dimensions. *)
Definition buildReport (correctness : CorrectnessReport) (complexity : ComplexityReport)
           (style : StyleReport) (security : SecurityReport) : PyResult EvaluationReport :=
  overallScore <- _computeOverallScore (cr_score correctness) (cx_score complexity)
                                       (st_score style) (se_score security) ;;
  let '(grade, gradeLabel) := _assignGrade overallScore in
  Ok {| overallScore := overallScore;
        grade := grade;
        gradeLabel := gradeLabel;
        correctnessDimension := correctness;
        complexityDimension := complexity;
        styleDimension := style;
        securityDimension := security |}.

(* ================================================================== *)
(** * app.py: the route /api/evaluate *)
(* ================================================================== *)

(** [loadProblem]: the problem that the file of an id holds, [None] when
    there is no such file. *)
Class ProblemStore : Type := {
  loadProblem : string -> option Problem
}.

(** What the view returns: [jsonify({}), 200], an error with status 400
    or 404, or [jsonify(report)]. *)
Inductive Response : Type :=
| Preflight
| BadRequest (error : string)
| NotFound (error : string)
| Evaluated (report : EvaluationReport).

(** The view returns a response, or raises: AttributeError on a body or a
    field of the wrong type, or what an evaluator raises. *)
Inductive ViewResult : Type :=
| Returns (response : Response)
| RaisesAttributeError
| RaisesFrom (e : PyExn).

(** [body.get(key, <empty string>).strip()]; [None] is the AttributeError
    of a body that is no dict or of a value that is no string. *)
Definition stripped_field (body : PyValue) (key : string) : option string :=
  match body with
  | PyDict d =>
      match get (lookup key d) (PyStr EmptyString) with
      | PyStr s => Some (strip s)
      | _ => None
      end
  | _ => None
  end.

Section Pipeline.

Context `{Sandbox} `{Builtins} `{Parser} `{ProblemStore}.

(** [evaluateCode], for the method of the request and for [body], the
    result of [request.get_json(silent=True)] ([PyNone] when the request
    holds no JSON). *)
Definition evaluateCode (method : string) (body : PyValue) : ViewResult :=
  if String.eqb method "OPTIONS" then Returns Preflight
  else if negb (truthy body) then Returns (BadRequest "Request body must be JSON.")
  else
    match stripped_field body "problemId" with
    | None => RaisesAttributeError
    | Some problemId =>
        match stripped_field body "code" with
        | None => RaisesAttributeError
        | Some submittedCode =>
            if negb (nonempty problemId) then
              Returns (BadRequest "Field 'problemId' is required.")
            else if negb (nonempty submittedCode) then
              Returns (BadRequest "Field 'code' is required.")
            else
              match loadProblem problemId with
              | None =>
                  Returns (NotFound ("Problem " ++ sq ++ problemId ++ sq ++ " not found."))
              | Some problem =>
                  match
                    (correctnessResult <- runCorrectnessEvaluation submittedCode problem ;;
                     complexityResult <- runComplexityEvaluation submittedCode ;;
                     let styleResult := runStyleEvaluation submittedCode in
                     let securityResult := runSecurityEvaluation submittedCode in
                     buildReport correctnessResult complexityResult
                                 styleResult securityResult)
                  with
                  | Ok report => Returns (Evaluated report)
                  | Raise e => RaisesFrom e
                  end
              end
        end
    end.

End Pipeline.

(* ================================================================== *)
(** * Properties of rounding *)
(* ================================================================== *)

Module Rounding.

Import Binary64.



Lemma div_le_cross (n1 d1 n2 d2 : Z) :
  0 < d1 -> 0 < d2 -> n1 * d2 <= n2 * d1 -> n1 / d1 <= n2 / d2.
Proof.
  intros H1 H2 H.
  apply Z.div_le_lower_bound; [lia|].
  pose proof (Z.mul_div_le n1 d1 H1) as Hq.
  assert (Hc : d1 * (d2 * (n1 / d1)) <= d1 * n2) by nia.
  apply Z.mul_le_mono_pos_l in Hc; lia.
Qed.

Lemma rne_div_bounds (n d : Z) :
  0 < d -> n / d <= rne_div n d <= n / d + 1.
Proof.
  intros Hd. unfold rne_div.
  destruct (2 * (n mod d) <? d); [lia|].
  destruct (d <? 2 * (n mod d)); [lia|].
  destruct (Z.even (n / d)); lia.
Qed.

Lemma rne_div_exact (k d : Z) : 0 < d -> rne_div (k * d) d = k.
Proof.
  intros Hd. unfold rne_div.
  rewrite Z.div_mul by lia. rewrite Z.mod_mul by lia.
  destruct (Z.ltb_spec (2 * 0) d); lia.
Qed.

Lemma rne_div_mono (n1 d1 n2 d2 : Z) :
  0 < d1 -> 0 < d2 -> n1 * d2 <= n2 * d1 -> rne_div n1 d1 <= rne_div n2 d2.
Proof.
  intros H1 H2 H.
  pose proof (div_le_cross _ _ _ _ H1 H2 H) as Hq.
  pose proof (rne_div_bounds n1 d1 H1) as B1.
  pose proof (rne_div_bounds n2 d2 H2) as B2.
  destruct (Z.eq_dec (n1 / d1) (n2 / d2)) as [E|NE]; [|lia].
  pose proof (Z.div_mod n1 d1 ltac:(lia)) as M1.
  pose proof (Z.div_mod n2 d2 ltac:(lia)) as M2.
  pose proof (Z.mod_pos_bound n1 d1 H1) as R1.
  pose proof (Z.mod_pos_bound n2 d2 H2) as R2.
  assert (Hr : (n1 mod d1) * d2 <= (n2 mod d2) * d1) by (rewrite E in M1; nia).
  unfold rne_div. rewrite E.
  destruct (Z.ltb_spec (2 * (n1 mod d1)) d1) as [A|A].
  - destruct (2 * (n2 mod d2) <? d2); [lia|].
    destruct (d2 <? 2 * (n2 mod d2)); [lia|].
    destruct (Z.even (n2 / d2)); lia.
  - assert (HA : d2 <= 2 * (n2 mod d2)) by nia.
    destruct (Z.ltb_spec (2 * (n2 mod d2)) d2) as [B|B]; [lia|].
    destruct (Z.ltb_spec d1 (2 * (n1 mod d1))) as [C|C].
    + assert (HC : d2 < 2 * (n2 mod d2)) by nia.
      destruct (Z.ltb_spec d2 (2 * (n2 mod d2))); lia.
    + destruct (Z.ltb_spec d2 (2 * (n2 mod d2))); [|lia].
      destruct (Z.even (n2 / d2)); lia.
Qed.

Lemma rne_div_le (n d k : Z) : 0 < d -> n <= k * d -> rne_div n d <= k.
Proof.
  intros Hd H. rewrite <- (rne_div_exact k d Hd).
  apply rne_div_mono; nia.
Qed.

Lemma rne_div_ge (n d k : Z) : 0 < d -> k * d <= n -> k <= rne_div n d.
Proof.
  intros Hd H. rewrite <- (rne_div_exact k d Hd).
  apply rne_div_mono; nia.
Qed.

(** The exponent chosen by [round_pos]. *)
Definition shift_of (n d : Z) : Z := Z.max 0 (Z.log2 (n / d) - 52).

Lemma shift_of_mono (n1 d1 n2 d2 : Z) :
  0 < d1 -> 0 < d2 -> n1 * d2 <= n2 * d1 -> shift_of n1 d1 <= shift_of n2 d2.
Proof.
  intros H1 H2 H. unfold shift_of.
  pose proof (div_le_cross _ _ _ _ H1 H2 H) as Hq.
  pose proof (Z.log2_le_mono _ _ Hq). lia.
Qed.

Lemma round_pos_upper (n d : Z) :
  0 <= n -> 0 < d -> round_pos n d <= 2 ^ (53 + shift_of n d).
Proof.
  intros Hn Hd. unfold round_pos. fold (shift_of n d).
  set (j := shift_of n d).
  assert (Hj : 0 <= j) by (unfold j, shift_of; lia).
  assert (Hp : 0 < 2 ^ j) by (apply Z.pow_pos_nonneg; lia).
  rewrite Z.pow_add_r by lia.
  apply Z.mul_le_mono_nonneg_r; [lia|].
  apply rne_div_le; [nia|].
  (* n < d * 2^(53+j) *)
  assert (Hq : 0 <= n / d) by (apply Z.div_pos; lia).
  assert (Hlt : n / d < 2 ^ (53 + j)).
  { destruct (Z.eq_dec (n / d) 0) as [E|NE].
    - rewrite E. apply Z.pow_pos_nonneg; lia.
    - pose proof (Z.log2_spec (n / d) ltac:(lia)) as [_ Hs].
      eapply Z.lt_le_trans; [exact Hs|].
      apply Z.pow_le_mono_r; [lia|]. unfold j, shift_of. lia. }
  rewrite Z.pow_add_r in Hlt by lia.
  pose proof (Z.div_mod n d ltac:(lia)) as M.
  pose proof (Z.mod_pos_bound n d Hd) as R.
  nia.
Qed.

Lemma round_pos_lower (n d : Z) :
  0 <= n -> 0 < d -> 0 < shift_of n d -> 2 ^ (52 + shift_of n d) <= round_pos n d.
Proof.
  intros Hn Hd Hj. unfold round_pos. fold (shift_of n d).
  set (j := shift_of n d) in *.
  assert (Hp : 0 < 2 ^ j) by (apply Z.pow_pos_nonneg; lia).
  rewrite Z.pow_add_r by lia.
  apply Z.mul_le_mono_nonneg_r; [lia|].
  apply rne_div_ge; [nia|].
  assert (Hq : 0 < n / d).
  { destruct (Z.eq_dec (n / d) 0) as [E|NE].
    - unfold j, shift_of in Hj. rewrite E in Hj. simpl in Hj. lia.
    - pose proof (Z.div_pos n d Hn Hd). lia. }
  pose proof (Z.log2_spec (n / d) Hq) as [Hs _].
  assert (Hje : Z.log2 (n / d) = 52 + j) by (unfold j, shift_of in *; lia).
  rewrite Hje, Z.pow_add_r in Hs by lia.
  pose proof (Z.mul_div_le n d Hd). nia.
Qed.

Lemma round_pos_mono (n1 d1 n2 d2 : Z) :
  0 <= n1 -> 0 < d1 -> 0 < d2 -> n1 * d2 <= n2 * d1 ->
  round_pos n1 d1 <= round_pos n2 d2.
Proof.
  intros Hn H1 H2 H.
  assert (Hn2 : 0 <= n2) by nia.
  pose proof (shift_of_mono _ _ _ _ H1 H2 H) as Hj.
  destruct (Z.eq_dec (shift_of n1 d1) (shift_of n2 d2)) as [E|NE].
  - unfold round_pos. fold (shift_of n1 d1) (shift_of n2 d2). rewrite E.
    set (j := shift_of n2 d2).
    assert (Hp : 0 < 2 ^ j) by (apply Z.pow_pos_nonneg; unfold j, shift_of; lia).
    apply Z.mul_le_mono_nonneg_r; [lia|].
    apply rne_div_mono; nia.
  - pose proof (round_pos_upper n1 d1 Hn H1) as U.
    assert (0 <= shift_of n1 d1) by (unfold shift_of; lia).
    pose proof (round_pos_lower n2 d2 Hn2 H2 ltac:(lia)) as L.
    assert (2 ^ (53 + shift_of n1 d1) <= 2 ^ (52 + shift_of n2 d2))
      by (apply Z.pow_le_mono_r; lia).
    lia.
Qed.

Lemma round_pos_nonneg (n d : Z) : 0 <= n -> 0 < d -> 0 <= round_pos n d.
Proof.
  intros Hn Hd. unfold round_pos.
  assert (Hp : 0 < 2 ^ Z.max 0 (Z.log2 (n / d) - 52)) by (apply Z.pow_pos_nonneg; lia).
  apply Z.mul_nonneg_nonneg; [|lia].
  apply rne_div_ge; nia.
Qed.

Lemma round_ratio_mono (n1 d1 n2 d2 : Z) :
  0 <= n1 -> 0 < d1 -> 0 < d2 -> n1 * d2 <= n2 * d1 ->
  round_ratio n1 d1 <= round_ratio n2 d2.
Proof.
  intros Hn H1 H2 H. assert (0 <= n2) by nia. unfold round_ratio.
  destruct (Z.ltb_spec n1 0); [lia|].
  destruct (Z.ltb_spec n2 0); [lia|].
  now apply round_pos_mono.
Qed.

Lemma round_ratio_nonneg (n d : Z) : 0 <= n -> 0 < d -> 0 <= round_ratio n d.
Proof.
  intros Hn Hd. unfold round_ratio.
  destruct (Z.ltb_spec n 0); [lia|]. now apply round_pos_nonneg.
Qed.


(** An integer multiple of a power of two below 2^53 multiples is
    representable: rounding returns it. *)
Lemma round_pos_exact (m k : Z) :
  0 <= m < 2 ^ 53 -> 0 <= k -> round_pos (m * 2 ^ k) 1 = m * 2 ^ k.
Proof.
  intros [Hm Hlt] Hk. unfold round_pos. rewrite Z.div_1_r, Z.mul_1_l.
  destruct (Z.eq_dec m 0) as [->|Hnz].
  - rewrite Z.mul_0_l. reflexivity.
  - assert (Hpos : 0 < m) by lia.
    rewrite Z.log2_mul_pow2 by lia.
    assert (Hl : Z.log2 m < 53) by (apply Z.log2_lt_pow2; lia).
    pose proof (Z.log2_nonneg m) as Hl0.
    set (j := Z.max 0 (k + Z.log2 m - 52)).
    assert (Hj : 0 <= j <= k) by lia.
    assert (Hsplit : m * 2 ^ k = (m * 2 ^ (k - j)) * 2 ^ j).
    { rewrite <- Z.mul_assoc, <- Z.pow_add_r by lia. f_equal. f_equal. lia. }
    rewrite Hsplit at 1.
    rewrite rne_div_exact by (apply Z.pow_pos_nonneg; lia).
    symmetry. exact Hsplit.
Qed.

Lemma round_ratio_exact (m k : Z) :
  0 <= m < 2 ^ 53 -> 0 <= k -> round_ratio (m * 2 ^ k) 1 = m * 2 ^ k.
Proof.
  intros Hm Hk. unfold round_ratio.
  assert (0 < 2 ^ k) by (apply Z.pow_pos_nonneg; lia).
  destruct (Z.ltb_spec (m * 2 ^ k) 0); [nia|].
  now apply round_pos_exact.
Qed.

Lemma unit_pos : 0 < unit.
Proof. unfold unit. apply Z.pow_pos_nonneg; lia. Qed.

Lemma unit_lt_huge : 1024 * unit < huge.
Proof.
  unfold unit, huge. change 1024 with (2 ^ 10). rewrite <- Z.pow_add_r by lia.
  apply Z.pow_lt_mono_r; lia.
Qed.

Lemma pack_fin (u : Z) : 0 <= u <= 1024 * unit -> pack u = Fin u.
Proof.
  intros Hu. unfold pack. pose proof unit_lt_huge.
  destruct (Z.leb_spec huge (Z.abs u)); [lia|reflexivity].
Qed.

(** [float(z)] is exact on small ints. *)
Lemma of_int_small (z : Z) : 0 <= z <= 1024 -> of_int z = Ok (Fin (z * unit)).
Proof.
  intros Hz. unfold of_int.
  assert (E : round_ratio (z * unit) 1 = z * unit).
  { unfold unit. apply round_ratio_exact; [|lia].
    split; [lia|]. apply Z.le_lt_trans with 1024; [lia|]. reflexivity. }
  rewrite E, pack_fin; [reflexivity|].
  pose proof unit_pos. nia.
Qed.

End Rounding.

(* ================================================================== *)
(** * Properties of the correctness score *)
(* ================================================================== *)

Module ScoreFacts.

Import Binary64 Rounding.

(** The double just below 1.0. *)
Definition below_one : Z := (2 ^ 53 - 1) * 2 ^ 1021.

Lemma unit_split : unit = 2 ^ 53 * 2 ^ 1021.
Proof. unfold unit. rewrite <- Z.pow_add_r by lia. reflexivity. Qed.

Lemma round_unit : round_ratio unit 1 = unit.
Proof.
  rewrite <- (Z.mul_1_l unit). unfold unit.
  apply round_ratio_exact; [split; [lia|reflexivity]|lia].
Qed.

Lemma round_hundred : round_ratio (100 * unit) 1 = 100 * unit.
Proof. unfold unit. apply round_ratio_exact; [split; [lia|reflexivity]|lia]. Qed.

Lemma round_below_one : round_ratio below_one 1 = below_one.
Proof.
  unfold below_one. apply round_ratio_exact; [|lia].
  split; [|lia]. apply Z.lt_le_pred. reflexivity.
Qed.

Lemma below_one_scaled :
  (round_ratio (below_one * (100 * unit)) unit <? 100 * unit) = true.
Proof. vm_compute. reflexivity. Qed.

Lemma hundredth_scaled :
  (unit <=? round_ratio (round_ratio unit 100 * (100 * unit)) unit) = true.
Proof. vm_compute. reflexivity. Qed.

(** The quotient and the product computed by [weightedScore]. *)
Definition quotient (e t : Z) : Z := round_ratio (e * unit) t.
Definition scaled (e t : Z) : Z := round_ratio (quotient e t * (100 * unit)) unit.

Lemma quotient_range (e t : Z) :
  0 <= e <= t -> 0 < t -> 0 <= quotient e t <= unit.
Proof.
  intros He Ht. pose proof unit_pos as U. unfold quotient. split.
  - apply round_ratio_nonneg; nia.
  - rewrite <- round_unit at 2. apply round_ratio_mono; nia.
Qed.

Lemma scaled_range (e t : Z) :
  0 <= e <= t -> 0 < t -> 0 <= scaled e t <= 100 * unit.
Proof.
  intros He Ht. pose proof unit_pos as U.
  pose proof (quotient_range e t He Ht) as Q. unfold scaled. split.
  - apply round_ratio_nonneg; nia.
  - rewrite <- round_hundred at 2. apply round_ratio_mono; nia.
Qed.

Lemma weightedScore_eq (e t : Z) :
  0 <= e <= t -> 0 < t -> weightedScore e t = Ok (Z.quot (scaled e t) unit).
Proof.
  intros He Ht. pose proof unit_pos as U.
  pose proof (quotient_range e t He Ht) as Q.
  pose proof (scaled_range e t He Ht) as S.
  unfold weightedScore.
  destruct (Z.ltb_spec 0 t); [|lia].
  unfold int_truediv.
  destruct (Z.eqb_spec t 0); [lia|].
  destruct (Z.ltb_spec t 0); [lia|].
  rewrite Z.abs_eq by lia. fold (quotient e t).
  rewrite pack_fin by lia. cbn [bind].
  rewrite of_int_small by lia. cbn [bind fmul].
  fold (scaled e t). rewrite pack_fin by lia. reflexivity.
Qed.

Lemma weightedScore_range (e t : Z) :
  0 <= e <= t -> exists s, weightedScore e t = Ok s /\ 0 <= s <= 100.
Proof.
  intros He. destruct (Z.ltb_spec 0 t) as [Ht|Ht].
  - exists (Z.quot (scaled e t) unit). split; [now apply weightedScore_eq|].
    pose proof unit_pos as U. pose proof (scaled_range e t He Ht) as S.
    split.
    + apply Z.quot_pos; lia.
    + apply Z.quot_le_upper_bound; lia.
  - exists 0. unfold weightedScore.
    destruct (Z.ltb_spec 0 t); [lia|]. split; [reflexivity|lia].
Qed.

(** Below a total of 2^53 the score is 100 only when everything was earned. *)
Lemma weightedScore_full (e t s : Z) :
  0 <= e <= t -> t <= 2 ^ 53 -> weightedScore e t = Ok s -> 100 <= s -> e = t.
Proof.
  intros He Hb Hs H100. pose proof unit_pos as U.
  destruct (Z.ltb_spec 0 t) as [Ht|Ht].
  2:{ unfold weightedScore in Hs. destruct (Z.ltb_spec 0 t); [lia|].
      injection Hs as <-. lia. }
  rewrite weightedScore_eq in Hs by assumption. injection Hs as <-.
  destruct (Z.eq_dec e t) as [|Hne]; [assumption|exfalso].
  assert (Hq : quotient e t <= below_one).
  { rewrite <- round_below_one. unfold quotient. apply round_ratio_mono; try nia.
    unfold below_one. rewrite unit_split.
    assert (0 < 2 ^ 1021) by (apply Z.pow_pos_nonneg; lia).
    assert (e * 2 ^ 53 <= (2 ^ 53 - 1) * t) by nia.
    nia. }
  pose proof (quotient_range e t He Ht) as Q.
  assert (Hp : scaled e t <= round_ratio (below_one * (100 * unit)) unit).
  { unfold scaled. apply round_ratio_mono; nia. }
  pose proof below_one_scaled as B. apply Z.ltb_lt in B.
  assert (Z.quot (scaled e t) unit < 100); [|lia].
  apply Z.quot_lt_upper_bound; try lia.
  pose proof (scaled_range e t He Ht). lia.
Qed.

(** A score of 0 means that less than a hundredth was earned. *)
Lemma weightedScore_zero (e t s : Z) :
  0 <= e <= t -> 0 < t -> weightedScore e t = Ok s -> s <= 0 -> 100 * e < t.
Proof.
  intros He Ht Hs H0. pose proof unit_pos as U.
  rewrite weightedScore_eq in Hs by assumption. injection Hs as <-.
  destruct (Z.lt_ge_cases (100 * e) t) as [|Hge]; [assumption|exfalso].
  assert (Hq : round_ratio unit 100 <= quotient e t).
  { unfold quotient. apply round_ratio_mono; nia. }
  assert (Hc : 0 <= round_ratio unit 100) by (apply round_ratio_nonneg; lia).
  assert (Hp : round_ratio (round_ratio unit 100 * (100 * unit)) unit <= scaled e t).
  { unfold scaled. apply round_ratio_mono; nia. }
  pose proof hundredth_scaled as B. apply Z.leb_le in B.
  assert (1 <= Z.quot (scaled e t) unit); [|lia].
  apply Z.quot_le_lower_bound; lia.
Qed.

End ScoreFacts.

(* ================================================================== *)
(** * Rounding error below 2^22

    Multiples of 2^-30 are representable up to 2^23, so a number below
    2^22 and its rounding lie between the same two neighbouring multiples:
    rounding moves it by at most [grid] = 2^-30. *)
(* ================================================================== *)

Module RoundingError.

Import Binary64 Rounding.

Definition grid : Z := 2 ^ 1044.

Lemma grid_pos : 0 < grid.
Proof. unfold grid. apply Z.pow_pos_nonneg; lia. Qed.

Lemma unit_grid : unit = 2 ^ 30 * grid.
Proof. unfold unit, grid. rewrite <- Z.pow_add_r by lia. reflexivity. Qed.

Lemma round_grid (g : Z) : 0 <= g < 2 ^ 53 -> round_ratio (g * grid) 1 = g * grid.
Proof. intros Hg. unfold grid. apply round_ratio_exact; lia. Qed.

Lemma round_near (n d : Z) :
  0 <= n -> 0 < d -> n < 2 ^ 52 * grid * d ->
  Z.abs (round_ratio n d * d - n) <= grid * d.
Proof.
  intros Hn Hd Hlt. pose proof grid_pos as G.
  set (g := n / (grid * d)).
  assert (Hgd : 0 < grid * d) by nia.
  assert (Hg0 : 0 <= g) by (apply Z.div_pos; lia).
  pose proof (Z.mul_div_le n (grid * d) Hgd) as Hlo. fold g in Hlo.
  pose proof (Z.mul_succ_div_gt n (grid * d) Hgd) as Hhi. fold g in Hhi.
  assert (Hg : g < 2 ^ 52).
  { apply Z.div_lt_upper_bound; [lia|]. lia. }
  assert (L : g * grid <= round_ratio n d).
  { rewrite <- round_grid by lia. apply round_ratio_mono; nia. }
  assert (R : round_ratio n d <= (g + 1) * grid).
  { rewrite <- (round_grid (g + 1)) by lia. apply round_ratio_mono; nia. }
  apply Z.abs_le. split; nia.
Qed.

End RoundingError.

Module ScoreError.

Import Binary64 Rounding RoundingError ScoreFacts.

Lemma cancel_grid (a b : Z) : a * grid <= b * grid -> a <= b.
Proof. pose proof grid_pos. intros. nia. Qed.

(** The score is 100 e / t cut to an integer, or one less when the
    quotient is a whole number. *)
Lemma weightedScore_trunc (e t s : Z) :
  0 <= e <= t -> 0 < t <= 2 ^ 22 -> weightedScore e t = Ok s ->
  s * t <= 100 * e <= (s + 1) * t.
Proof.
  intros He [Ht Hb] Hs. pose proof unit_pos as U. pose proof grid_pos as G.
  rewrite weightedScore_eq in Hs by assumption. injection Hs as <-.
  pose proof (quotient_range e t He Ht) as Q.
  pose proof (scaled_range e t He Ht) as S.
  change (2 ^ 22) with 4194304 in Hb.
  assert (E1 : Z.abs (quotient e t * t - e * unit) <= grid * t).
  { unfold quotient. apply round_near; try nia.
    rewrite unit_grid. change (2 ^ 30) with 1073741824. change (2 ^ 52) with 4503599627370496.
    nia. }
  assert (E2 : Z.abs (scaled e t * unit - quotient e t * (100 * unit)) <= grid * unit).
  { unfold scaled. apply round_near.
    - nia.
    - lia.
    - assert (quotient e t * 100 < 2 ^ 52 * grid).
      { rewrite unit_grid in Q. change (2 ^ 30) with 1073741824 in Q.
        change (2 ^ 52) with 4503599627370496. nia. }
      nia. }
  assert (E3 : Z.abs (scaled e t - quotient e t * 100) <= grid).
  { apply Z.abs_le. apply Z.abs_le in E2. split; nia. }
  set (p := scaled e t) in *. set (r := quotient e t) in *.
  set (s := Z.quot p unit).
  assert (Hq : s * unit <= p < (s + 1) * unit).
  { unfold s. rewrite Z.quot_div_nonneg by lia.
    pose proof (Z.mul_div_le p unit U). pose proof (Z.mul_succ_div_gt p unit U). nia. }
  apply Z.abs_le in E1. apply Z.abs_le in E3.
  assert (Hs0 : 0 <= s) by (unfold s; apply Z.quot_pos; lia).
  assert (Hs1 : s <= 100).
  { unfold s. apply Z.quot_le_upper_bound; lia. }
  assert (A : p * t <= 100 * e * unit + 101 * grid * t) by nia.
  assert (B : 100 * e * unit - 101 * grid * t <= p * t) by nia.
  rewrite unit_grid in A, B, Hq. change (2 ^ 30) with 1073741824 in A, B, Hq.
  split.
  - assert (C : (s * t * 1073741824) * grid <= (100 * e * 1073741824 + 101 * t) * grid) by nia.
    apply cancel_grid in C. lia.
  - assert (C : (100 * e * 1073741824 - 101 * t) * grid
                <= ((s + 1) * t * 1073741824) * grid) by nia.
    apply cancel_grid in C. lia.
Qed.

End ScoreError.

(* ================================================================== *)
(** * The loop of runCorrectnessEvaluation *)
(* ================================================================== *)

Definition weightOf (tc : TestCase * bool) : Z := get (tc_weight (fst tc)) 1.

Definition totalOf (cases : list (TestCase * bool)) : Z := sumZ (map weightOf cases).

Definition passed (r : TestResult) : Prop := tr_status r = PyStr "pass".

(** An integer s nearest to num / den (den > 0): at most one half away. *)
Definition nearest (s num den : Z) : Prop := 2 * Z.abs (s * den - num) <= den.

Section CorrectnessFacts.

Context `{Sandbox} `{Builtins}.

(** One iteration adds the weight to the total and one record to the
    results; the weight is earned only by a record with status pass. *)
Lemma evalCase_step (code pre : string) (call : nat) (tc : TestCase * bool)
      (st st' : LoopState) :
  evalCase code pre call tc st = Ok st' ->
  totalWeight st' = totalWeight st + weightOf tc /\
  exists r, testResults st' = List.app (testResults st) [r] /\
            tr_weight r = weightOf tc /\
            ((earnedWeight st' = earnedWeight st + weightOf tc /\ passed r) \/
             (earnedWeight st' = earnedWeight st)).
Proof.
  unfold evalCase, weightOf.
  destruct (subscript _ "status") as [status0|]; cbn [bind]; [|discriminate].
  destruct (py_eq status0 (PyStr "ok")).
  - destruct (subscript _ "result") as [actual|]; cbn [bind]; [|discriminate].
    destruct (_valuesMatch _ _ _) as [[|]|]; cbn [bind]; [| |discriminate];
      intros E; injection E as <-; cbn; (split; [reflexivity|]);
      eexists; (split; [reflexivity|]); (split; [reflexivity|]).
    + left. split; reflexivity.
    + right. reflexivity.
  - intros E; injection E as <-; cbn. split; [reflexivity|].
    eexists. split; [reflexivity|]. split; [reflexivity|]. right. reflexivity.
Qed.

(** What the loop maintains when every weight is positive. *)
Definition loop_inv (st : LoopState) : Prop :=
  0 <= earnedWeight st <= totalWeight st /\
  (earnedWeight st = totalWeight st -> Forall passed (testResults st)).

Lemma evalCases_inv (code pre : string) (cases : list (TestCase * bool)) :
  Forall (fun tc => 0 < weightOf tc) cases ->
  forall (call : nat) (st st' : LoopState),
    loop_inv st ->
    evalCases code pre call cases st = Ok st' ->
    loop_inv st' /\
    totalWeight st' = totalWeight st + totalOf cases /\
    List.length (testResults st') = (List.length (testResults st) + List.length cases)%nat.
Proof.
  induction 1 as [|tc rest Hw _ IH]; intros call st st' Inv Run; cbn in Run.
  - injection Run as <-. unfold totalOf. cbn. repeat split; try apply Inv; lia.
  - destruct (evalCase code pre call tc st) as [st1|] eqn:E; cbn [bind] in Run;
      [|discriminate].
    apply evalCase_step in E. destruct E as (Ht & r & Hr & _ & He).
    assert (Inv1 : loop_inv st1).
    { destruct Inv as [Hb Hall]. unfold loop_inv. rewrite Ht, Hr.
      destruct He as [[He Hp]|He]; rewrite He.
      - split; [lia|]. intros Eq. apply Forall_app. split.
        + apply Hall. lia.
        + constructor; [exact Hp|constructor].
      - split; [lia|]. intros Eq. lia. }
    destruct (IH _ _ _ Inv1 Run) as (Inv' & Ht' & Hl').
    split; [exact Inv'|]. split.
    + rewrite Ht', Ht. unfold totalOf, sumZ. cbn [map fold_right]. lia.
    + rewrite Hl', Hr, length_app. cbn. lia.
Qed.

Lemma runLoop_inv (code : string) (problem : Problem) (st : LoopState) :
  Forall (fun tc => 0 < weightOf tc) (allTestCases problem) ->
  runLoop code problem = Ok st ->
  loop_inv st /\
  totalWeight st = totalOf (allTestCases problem) /\
  List.length (testResults st) = List.length (allTestCases problem).
Proof.
  intros Hw Run. unfold runLoop in Run.
  eapply evalCases_inv in Run; [|exact Hw|].
  - cbn in Run. exact Run.
  - unfold loop_inv. cbn. split; [lia|]. intros _. constructor.
Qed.

End CorrectnessFacts.

(* ================================================================== *)
(** * Scripted runs

    A sandbox whose child processes print given texts, with the JSON
    decoding of the lines that occur, and built-ins for runs that compare
    neither strings with floats nor unordered lists. *)
(* ================================================================== *)

Definition scripted (outputs : list string) (decoded : list (string * PyValue)) : Sandbox :=
  {| subprocess_run := fun call _ => Completed (nth call outputs EmptyString) EmptyString;
     json_loads := fun l =>
       match lookup l decoded with
       | Some v => Loaded v
       | None => JSONDecodeError
       end;
     textwrap_dedent := fun s => s |}.

(** Children that print nothing and report an error on their error stream. *)
Definition failing_runs (stderr : string) : Sandbox :=
  {| subprocess_run := fun _ _ => Completed EmptyString stderr;
     json_loads := fun _ => JSONDecodeError;
     textwrap_dedent := fun s => s |}.

Definition syntax_error_runs : Sandbox :=
  failing_runs ("  File " ++ dq ++ "<string>" ++ dq ++ ", line 3" ++ nl
                  ++ "SyntaxError: invalid syntax" ++ nl).

Definition plain_builtins : Builtins :=
  {| float_of_str := fun _ => None;
     py_sorted := fun _ => None;
     sorted_str := fun l => l;
     py_str := fun _ => EmptyString;
     format_1f := fun _ => EmptyString |}.

(** The line the test driver prints for a returned int. *)
Definition ok_line (result : Z) : string :=
  "{" ++ dq ++ "status" ++ dq ++ ": " ++ dq ++ "ok" ++ dq ++ ", "
      ++ dq ++ "result" ++ dq ++ ": " ++ show_Z result ++ "}".

Definition ok_value (result : Z) : PyValue :=
  PyDict [("status", PyStr "ok"); ("result", PyInt result)].

Definition case (args : string) (expected : PyValue) (weight : option Z) : TestCase :=
  {| tc_label := None; tc_args := Some args; tc_expected := Some expected;
     tc_ordered := None; tc_weight := weight |}.

Definition solution : string := "def f(x):" ++ nl ++ "    return min(x, 1)" ++ nl.

(** Three cases of weight 1; f returns 1, 1 and 0 where 1 is expected. *)
Definition three_cases : Problem :=
  {| preamble := None;
     testCases := [case "f(1)" (PyInt 1) None; case "f(2)" (PyInt 1) None;
                   case "f(0)" (PyInt 1) None];
     hiddenTestCases := [] |}.

Definition three_runs : Sandbox :=
  scripted [ok_line 1; ok_line 1; ok_line 0]
           [(ok_line 1, ok_value 1); (ok_line 0, ok_value 0)].

(** A light case that passes and a heavy one that fails. *)
Definition light_and_heavy : Problem :=
  {| preamble := None;
     testCases := [case "f(1)" (PyInt 1) (Some 1)];
     hiddenTestCases := [case "f(0)" (PyInt 1) (Some 200)] |}.

Definition two_runs : Sandbox :=
  scripted [ok_line 1; ok_line 0] [(ok_line 1, ok_value 1); (ok_line 0, ok_value 0)].

(** A submission that prints 42, flushed to the pipe, and leaves before
    the driver reports: the output of each child is the line 42.  (An
    unflushed print would be lost with the buffer at [os._exit], and the
    child would have printed nothing.) *)
Definition leaves_early : string :=
  "import os" ++ nl ++ "print(42, flush=True)" ++ nl ++ "os._exit(0)" ++ nl.

Definition prints_42 : Sandbox :=
  scripted ["42" ++ nl; "42" ++ nl; "42" ++ nl] [("42", PyInt 42)].

(* ================================================================== *)
(** * The correctness score *)
(* ================================================================== *)

Lemma totalOf_zero (cases : list (TestCase * bool)) :
  Forall (fun tc => 0 < weightOf tc) cases -> totalOf cases <= 0 -> cases = [].
Proof.
  intros Hw. assert (Hs : 0 <= totalOf cases).
  { induction Hw as [|tc rest Hp _ IH]; unfold totalOf, sumZ in *; cbn [map fold_right] in *; lia. }
  destruct Hw as [|tc rest Hp Hr]; [reflexivity|].
  assert (0 <= totalOf rest).
  { clear Hs. induction Hr as [|tc' rest' Hp' _ IH];
      unfold totalOf, sumZ in *; cbn [map fold_right] in *; lia. }
  unfold totalOf, sumZ in *. cbn [map fold_right] in *. lia.
Qed.

Section CorrectnessScore.

Context `{Sandbox} `{Builtins}.

(** C2, amended.  With positive weights and a total weight of at most
    2^22, a run whose loop completes returns as score
    int((earnedWeight / totalWeight) * 100): 100 * earnedWeight /
    totalWeight cut to an integer rather than rounded to the nearest one,
    score * totalWeight <= 100 * earnedWeight <= (score + 1) * totalWeight
    (the score is one less than the quotient only when the quotient is a
    whole number); with no weight at all the score is 0. *)
Theorem C2_score_truncates (code : string) (problem : Problem) (st : LoopState) :
  Forall (fun tc => 0 < weightOf tc) (allTestCases problem) ->
  totalOf (allTestCases problem) <= 2 ^ 22 ->
  runLoop code problem = Ok st ->
  exists r,
    runCorrectnessEvaluation code problem = Ok r /\
    cr_testResults r = testResults st /\
    totalWeight st = totalOf (allTestCases problem) /\
    weightedScore (earnedWeight st) (totalWeight st) = Ok (cr_score r) /\
    cr_score r * totalWeight st <= 100 * earnedWeight st <= (cr_score r + 1) * totalWeight st /\
    (totalWeight st = 0 -> cr_score r = 0).
Proof.
  intros Hw Hb Run.
  destruct (runLoop_inv code problem st Hw Run) as ([He _] & Ht & _).
  destruct (ScoreFacts.weightedScore_range _ _ He) as (s & Hs & Hr).
  unfold runCorrectnessEvaluation. rewrite Run. cbn [bind]. rewrite Hs. cbn [bind].
  eexists. split; [reflexivity|]. cbn [cr_score cr_testResults].
  split; [reflexivity|]. split; [exact Ht|]. split; [reflexivity|]. split.
  - destruct (Z.eq_dec (totalWeight st) 0) as [E|NE].
    + rewrite E in *. lia.
    + apply ScoreError.weightedScore_trunc; [exact He| |exact Hs]. lia.
  - intros E. unfold weightedScore in Hs. rewrite E in Hs.
    change (0 <? 0) with false in Hs. congruence.
Qed.

(** C3, amended.  With positive weights and a total weight of at most
    2^53, a score of 100 implies that every outcome has status pass, and a
    score of 0 implies that less than a hundredth of the total weight was
    earned (100 * earnedWeight < totalWeight) or that there is no test
    case; it does not imply that earnedWeight is 0. *)
Theorem C3_extreme_scores (code : string) (problem : Problem) (st : LoopState) :
  Forall (fun tc => 0 < weightOf tc) (allTestCases problem) ->
  totalOf (allTestCases problem) <= 2 ^ 53 ->
  runLoop code problem = Ok st ->
  exists r,
    runCorrectnessEvaluation code problem = Ok r /\
    cr_testResults r = testResults st /\
    (cr_score r = 100 -> Forall passed (cr_testResults r)) /\
    (cr_score r = 0 ->
     100 * earnedWeight st < totalWeight st \/ allTestCases problem = []).
Proof.
  intros Hw Hb Run.
  destruct (runLoop_inv code problem st Hw Run) as ([He Hall] & Ht & _).
  destruct (ScoreFacts.weightedScore_range _ _ He) as (s & Hs & Hr).
  unfold runCorrectnessEvaluation. rewrite Run. cbn [bind]. rewrite Hs. cbn [bind].
  eexists. split; [reflexivity|]. cbn [cr_score cr_testResults].
  split; [reflexivity|]. split.
  - intros ->. apply Hall.
    apply (ScoreFacts.weightedScore_full _ _ 100 He); [lia|exact Hs|lia].
  - intros ->. destruct (Z.ltb_spec 0 (totalWeight st)) as [Hp|Hz].
    + left. apply (ScoreFacts.weightedScore_zero _ _ 0 He Hp Hs). lia.
    + right. apply totalOf_zero; [exact Hw|lia].
Qed.

(** C7, as the code has it.  When the first child process ends with a
    last output line that is valid JSON but not an object, the lookup of
    its status raises TypeError out of the loop: the evaluation returns no
    report, neither for this test case nor for those after it. *)
Theorem C7_malformed_output_aborts
        (code : string) (problem : Problem) (tc : TestCase * bool)
        (rest : list (TestCase * bool)) (v : PyValue) :
  allTestCases problem = tc :: rest ->
  _runInSandbox 0 (_buildRunnerScript code (get (tc_args (fst tc)) EmptyString)
                                      (get (preamble problem) EmptyString)) = v ->
  (forall d, v <> PyDict d) ->
  runCorrectnessEvaluation code problem = Raise TypeError.
Proof.
  intros Hc Hv Hd. unfold runCorrectnessEvaluation, runLoop. rewrite Hc.
  cbn [evalCases]. unfold evalCase. rewrite Hv.
  destruct v; try reflexivity. exfalso. eapply Hd. reflexivity.
Qed.

(** C10, as the code has it.  With a float expected, an int result too
    large for a double is not counted as a fail: [float] raises
    OverflowError, which the handler for TypeError and ValueError lets
    through. *)
Theorem C10_overflow_escapes (ordered : bool) :
  _valuesMatch (PyInt (10 ^ 400)) (PyFloat (Binary64.lit 15 10)) ordered
  = Raise OverflowError.
Proof. vm_compute. reflexivity. Qed.

(** A result that [float] rejects with TypeError or ValueError is a fail. *)
Lemma valuesMatch_unconvertible (actual : PyValue) (f : Binary64.float) (ordered : bool) :
  py_float actual = Raise TypeError \/ py_float actual = Raise ValueError ->
  _valuesMatch actual (PyFloat f) ordered = Ok false.
Proof.
  intros [E|E]; unfold _valuesMatch; cbn [is_none isinstance_float orb];
    rewrite E; reflexivity.
Qed.

(** Within the tolerance is a pass, whatever the types converted from. *)
Lemma valuesMatch_tolerance (actual expected : PyValue) (a e : Binary64.float)
      (ordered : bool) :
  is_none expected = false ->
  isinstance_float expected || isinstance_float actual = true ->
  py_float actual = Ok a -> py_float expected = Ok e ->
  _valuesMatch actual expected ordered
  = Ok (Binary64.flt (Binary64.fabs (Binary64.fsub a e)) (Binary64.lit 1 1000000)).
Proof.
  intros Hn Hf Ha He. unfold _valuesMatch. rewrite Hn, Hf, Ha, He. reflexivity.
Qed.

End CorrectnessScore.

(* ================================================================== *)
(** * The correctness score on the scripted runs *)
(* ================================================================== *)

Definition no_results : LoopState :=
  {| testResults := []; totalWeight := 0; earnedWeight := 0 |}.

Definition final_state (r : PyResult LoopState) : LoopState :=
  match r with Ok st => st | Raise _ => no_results end.

Definition three_final : LoopState :=
  Eval vm_compute in final_state (@runLoop three_runs plain_builtins solution three_cases).

Definition two_final : LoopState :=
  Eval vm_compute in final_state (@runLoop two_runs plain_builtins solution light_and_heavy).

(** C2 fails as stated: two of three cases of weight 1 pass, 100 * 2 / 3 is
    nearest to 67, and the score is 66. *)
Lemma C2_counterexample :
  @runLoop three_runs plain_builtins solution three_cases = Ok three_final /\
  earnedWeight three_final = 2 /\
  totalWeight three_final = 3 /\
  nearest 67 (100 * 2) 3 /\
  exists r,
    @runCorrectnessEvaluation three_runs plain_builtins solution three_cases = Ok r /\
    cr_score r = 66 /\
    (nearest (cr_score r) (100 * earnedWeight three_final) (totalWeight three_final)
     -> False).
Proof.
  split; [vm_compute; reflexivity|].
  split; [reflexivity|]. split; [reflexivity|].
  split; [unfold nearest; cbn; lia|].
  eexists. split; [vm_compute; reflexivity|].
  split; [reflexivity|]. unfold nearest. cbn. lia.
Qed.

Lemma C2_witness :
  Forall (fun tc => 0 < weightOf tc) (allTestCases three_cases) /\
  totalOf (allTestCases three_cases) <= 2 ^ 22 /\
  @runLoop three_runs plain_builtins solution three_cases = Ok three_final /\
  exists r,
    @runCorrectnessEvaluation three_runs plain_builtins solution three_cases = Ok r /\
    cr_testResults r = testResults three_final /\
    totalWeight three_final = totalOf (allTestCases three_cases) /\
    weightedScore (earnedWeight three_final) (totalWeight three_final) = Ok (cr_score r) /\
    cr_score r * totalWeight three_final <= 100 * earnedWeight three_final
      <= (cr_score r + 1) * totalWeight three_final /\
    (totalWeight three_final = 0 -> cr_score r = 0).
Proof.
  assert (Hw : Forall (fun tc => 0 < weightOf tc) (allTestCases three_cases))
    by (repeat constructor).
  assert (Hb : totalOf (allTestCases three_cases) <= 2 ^ 22)
    by (vm_compute; discriminate).
  assert (Hr : @runLoop three_runs plain_builtins solution three_cases = Ok three_final)
    by (vm_compute; reflexivity).
  split; [exact Hw|]. split; [exact Hb|]. split; [exact Hr|].
  exact (@C2_score_truncates three_runs plain_builtins solution three_cases three_final
                             Hw Hb Hr).
Defined.

(** C3 fails as stated: with weights 1 and 200, the light case passes, the
    heavy one fails, and the score is 0 although earnedWeight is 1. *)
Lemma C3_counterexample :
  Forall (fun tc => 0 < weightOf tc) (allTestCases light_and_heavy) /\
  @runLoop two_runs plain_builtins solution light_and_heavy = Ok two_final /\
  earnedWeight two_final = 1 /\
  Exists passed (testResults two_final) /\
  exists r,
    @runCorrectnessEvaluation two_runs plain_builtins solution light_and_heavy = Ok r /\
    cr_score r = 0.
Proof.
  split; [repeat constructor|].
  split; [vm_compute; reflexivity|].
  split; [reflexivity|].
  split; [left; reflexivity|].
  eexists. split; [vm_compute; reflexivity|reflexivity].
Qed.

Lemma C3_witness :
  Forall (fun tc => 0 < weightOf tc) (allTestCases light_and_heavy) /\
  totalOf (allTestCases light_and_heavy) <= 2 ^ 53 /\
  @runLoop two_runs plain_builtins solution light_and_heavy = Ok two_final /\
  exists r,
    @runCorrectnessEvaluation two_runs plain_builtins solution light_and_heavy = Ok r /\
    cr_testResults r = testResults two_final /\
    (cr_score r = 100 -> Forall passed (cr_testResults r)) /\
    (cr_score r = 0 ->
     100 * earnedWeight two_final < totalWeight two_final \/
     allTestCases light_and_heavy = []).
Proof.
  assert (Hw : Forall (fun tc => 0 < weightOf tc) (allTestCases light_and_heavy))
    by (repeat constructor).
  assert (Hb : totalOf (allTestCases light_and_heavy) <= 2 ^ 53)
    by (vm_compute; discriminate).
  assert (Hr : @runLoop two_runs plain_builtins solution light_and_heavy = Ok two_final)
    by (vm_compute; reflexivity).
  split; [exact Hw|]. split; [exact Hb|]. split; [exact Hr|].
  exact (@C3_extreme_scores two_runs plain_builtins solution light_and_heavy two_final
                            Hw Hb Hr).
Defined.

Lemma C7_witness :
  @allTestCases three_cases
  = (case "f(1)" (PyInt 1) None, false)
      :: [(case "f(2)" (PyInt 1) None, false); (case "f(0)" (PyInt 1) None, false)] /\
  @_runInSandbox prints_42 0
     (@_buildRunnerScript prints_42 leaves_early "f(1)" EmptyString) = PyInt 42 /\
  (forall d, PyInt 42 <> PyDict d) /\
  @runCorrectnessEvaluation prints_42 plain_builtins leaves_early three_cases
  = Raise TypeError.
Proof.
  assert (Hc : @allTestCases three_cases
               = (case "f(1)" (PyInt 1) None, false)
                   :: [(case "f(2)" (PyInt 1) None, false);
                       (case "f(0)" (PyInt 1) None, false)])
    by reflexivity.
  assert (Hv : @_runInSandbox prints_42 0
                 (@_buildRunnerScript prints_42 leaves_early "f(1)" EmptyString) = PyInt 42)
    by (vm_compute; reflexivity).
  assert (Hd : forall d, PyInt 42 <> PyDict d) by (intros d; discriminate).
  split; [exact Hc|]. split; [exact Hv|]. split; [exact Hd|].
  exact (@C7_malformed_output_aborts prints_42 plain_builtins leaves_early three_cases
                                     _ _ _ Hc Hv Hd).
Defined.

(* ================================================================== *)
(** * The overall score is the weighted sum rounded to a nearest integer *)
(* ================================================================== *)

Module OverallFacts.

Import Binary64 Rounding RoundingError.

Lemma rne_div_near (n d : Z) : 0 < d -> 2 * Z.abs (rne_div n d * d - n) <= d.
Proof.
  intros Hd. unfold rne_div.
  pose proof (Z.div_mod n d ltac:(lia)) as M.
  pose proof (Z.mod_pos_bound n d Hd) as R.
  destruct (Z.ltb_spec (2 * (n mod d)) d).
  - nia.
  - destruct (Z.ltb_spec d (2 * (n mod d))).
    + nia.
    + destruct (Z.even (n / d)); nia.
Qed.

Lemma round_int (k : Z) : 0 <= k <= 1024 -> round_ratio (k * unit) 1 = k * unit.
Proof.
  intros Hk. unfold unit. apply round_ratio_exact; [|lia].
  split; [lia|]. apply Z.le_lt_trans with 1024; [lia|reflexivity].
Qed.

(** A product of two small doubles. *)
Lemma fmul_small (x w k : Z) :
  0 <= x <= k * unit -> 0 <= w <= unit -> 0 <= k <= 1024 ->
  exists m, fmul (Fin x) (Fin w) = Fin m /\
            0 <= m <= k * unit /\
            Z.abs (m * unit - x * w) <= grid * unit.
Proof.
  intros Hx Hw Hk. pose proof unit_pos as U. pose proof grid_pos as G.
  exists (round_ratio (x * w) unit).
  assert (Hn : 0 <= x * w) by nia.
  assert (Hm : 0 <= round_ratio (x * w) unit <= k * unit).
  { split; [apply round_ratio_nonneg; lia|].
    rewrite <- (round_int k Hk). apply round_ratio_mono; try lia. nia. }
  split; [|split; [exact Hm|]].
  - cbn [fmul]. apply pack_fin. nia.
  - apply round_near; try lia.
    assert (x * w <= 1024 * unit * unit) by nia.
    assert (1024 * unit < 2 ^ 52 * grid).
    { rewrite unit_grid. change (2 ^ 30) with 1073741824.
      change (2 ^ 52) with 4503599627370496. lia. }
    nia.
Qed.

Lemma fadd_small (x y k : Z) :
  0 <= x -> 0 <= y -> x + y <= k * unit -> 0 <= k <= 1024 ->
  exists m, fadd (Fin x) (Fin y) = Fin m /\
            0 <= m <= k * unit /\
            Z.abs (m - (x + y)) <= grid.
Proof.
  intros Hx Hy Hs Hk. pose proof unit_pos as U. pose proof grid_pos as G.
  exists (round_ratio (x + y) 1).
  assert (Hm : 0 <= round_ratio (x + y) 1 <= k * unit).
  { split; [apply round_ratio_nonneg; lia|].
    rewrite <- (round_int k Hk). apply round_ratio_mono; lia. }
  split; [|split; [exact Hm|]].
  - cbn [fadd]. apply pack_fin. nia.
  - assert (1024 * unit < 2 ^ 52 * grid).
    { rewrite unit_grid. change (2 ^ 30) with 1073741824.
      change (2 ^ 52) with 4503599627370496. lia. }
    pose proof (round_near (x + y) 1 ltac:(lia) ltac:(lia) ltac:(nia)) as E.
    rewrite !Z.mul_1_r in E. exact E.
Qed.

(** A weight p/100 of the table. *)
Lemma lit_weight (p : Z) :
  0 <= p <= 100 ->
  exists w, lit p 100 = Fin w /\ 0 <= w <= unit /\
            Z.abs (w * 100 - p * unit) <= grid * 100.
Proof.
  intros Hp. pose proof unit_pos as U. pose proof grid_pos as G.
  exists (round_ratio (p * unit) 100).
  assert (Hw : 0 <= round_ratio (p * unit) 100 <= unit).
  { split; [apply round_ratio_nonneg; nia|].
    rewrite <- (Z.mul_1_l unit) at 2. rewrite <- (round_int 1) by lia.
    apply round_ratio_mono; nia. }
  split; [|split; [exact Hw|]].
  - unfold lit. apply pack_fin. lia.
  - apply round_near; try nia.
    rewrite unit_grid. change (2 ^ 30) with 1073741824.
    change (2 ^ 52) with 4503599627370496. nia.
Qed.


Lemma score_weights :
  score_weight "correctness" = lit 50 100 /\
  score_weight "complexity" = lit 20 100 /\
  score_weight "style" = lit 15 100 /\
  score_weight "security" = lit 15 100.
Proof. conjuncts; reflexivity. Qed.

(** One term score * weight of the weighted sum. *)
Lemma weighted_term (s p : Z) :
  0 <= s <= 100 -> 0 <= p <= 100 ->
  exists a, int_times s (lit p 100) = Ok (Fin a) /\
            0 <= a <= 100 * unit /\
            Z.abs (100 * a - s * p * unit) <= 10100 * grid.
Proof.
  intros Hs Hp. pose proof unit_pos as U. pose proof grid_pos as G.
  destruct (lit_weight p Hp) as (w & Ew & Hw & Cw).
  destruct (fmul_small (s * unit) w 100) as (m & Em & Hm & Cm); try lia.
  { nia. }
  exists m. split; [|split; [exact Hm|]].
  - unfold int_times. rewrite of_int_small by lia. cbn [bind]. rewrite Ew, Em. reflexivity.
  - apply Z.abs_le in Cw. apply Z.abs_le in Cm.
    assert (C1 : - grid <= m - s * w <= grid) by (split; nia).
    assert (C2 : - (s * (grid * 100)) <= s * (w * 100) - s * (p * unit) <= s * (grid * 100))
      by (split; nia).
    apply Z.abs_le. split; nia.
Qed.

Lemma overall_nearest (C X S K : Z) :
  0 <= C <= 100 -> 0 <= X <= 100 -> 0 <= S <= 100 -> 0 <= K <= 100 ->
  exists o, _computeOverallScore C X S K = Ok o /\
            nearest o (50 * C + 20 * X + 15 * S + 15 * K) 100.
Proof.
  intros HC HX HS HK. pose proof unit_pos as U. pose proof grid_pos as G.
  destruct score_weights as (W1 & W2 & W3 & W4).
  destruct (weighted_term C 50 HC ltac:(lia)) as (a & Ea & Ha & Ca).
  destruct (weighted_term X 20 HX ltac:(lia)) as (b & Eb & Hb & Cb).
  destruct (weighted_term S 15 HS ltac:(lia)) as (c & Ec & Hc & Cc).
  destruct (weighted_term K 15 HK ltac:(lia)) as (d & Ed & Hd & Cd).
  destruct (fadd_small a b 200) as (m1 & E1 & H1 & C1); try lia.
  destruct (fadd_small m1 c 300) as (m2 & E2 & H2 & C2); try lia.
  destruct (fadd_small m2 d 400) as (m3 & E3 & H3 & C3); try lia.
  exists (rne_div m3 unit). split.
  - unfold _computeOverallScore. rewrite W1, W2, W3, W4, Ea, Eb, Ec, Ed. cbn [bind].
    rewrite E1, E2, E3. reflexivity.
  - pose proof (rne_div_near m3 unit U) as R.
    set (o := rne_div m3 unit) in *.
    apply Z.abs_le in Ca, Cb, Cc, Cd, C1, C2, C3.
    set (N := 50 * C + 20 * X + 15 * S + 15 * K).
    assert (T : - (40700 * grid) <= 100 * m3 - N * unit <= 40700 * grid)
      by (unfold N; split; lia).
    assert (R' : - unit <= 2 * (o * unit - m3) <= unit) by lia.
    rewrite unit_grid in T, R'. change (2 ^ 30) with 1073741824 in T, R'.
    unfold nearest. fold N.
    assert (L1 : ((o * 100 - N) * 2 * 1073741824) * grid
                 <= (100 * 1073741824 + 81400) * grid) by lia.
    assert (L2 : (- (100 * 1073741824 + 81400)) * grid
                 <= ((o * 100 - N) * 2 * 1073741824) * grid) by lia.
    pose proof (ScoreError.cancel_grid _ _ L1) as F1.
    pose proof (ScoreError.cancel_grid _ _ L2) as F2.
    lia.
Qed.

End OverallFacts.

(* ================================================================== *)
(** * Every score lies between 0 and 100 *)
(* ================================================================== *)

Module Bounds.

Import Binary64 Rounding.

Lemma functionScore_range (m : FunctionMetrics) : 0 <= functionScore m <= 100.
Proof.
  unfold functionScore.
  destruct (Z.ltb_spec 10 (cyclomaticScore m));
    [|destruct (Z.ltb_spec 5 (cyclomaticScore m))];
    destruct (Z.ltb_spec 2 (maxNestDepth m)); lia.
Qed.

Lemma sum_functionScores (metrics : list FunctionMetrics) :
  0 <= sumZ (map functionScore metrics)
    <= 100 * Z.of_nat (List.length (map functionScore metrics)).
Proof.
  induction metrics as [|m rest IH]; unfold sumZ in *; cbn [map fold_right List.length].
  - lia.
  - pose proof (functionScore_range m). lia.
Qed.

(** [_scoreFromMetrics] always returns, and within the range. *)
Lemma scoreFromMetrics_range (metrics : list FunctionMetrics) :
  exists s, _scoreFromMetrics metrics = Ok s /\ 0 <= s <= 100.
Proof.
  destruct metrics as [|m rest]; [exists 50; split; [reflexivity|lia]|].
  unfold _scoreFromMetrics.
  pose proof (sum_functionScores (m :: rest)) as Hs.
  set (total := sumZ (map functionScore (m :: rest))) in *.
  set (n := Z.of_nat (List.length (map functionScore (m :: rest)))) in *.
  assert (Hn : 0 < n) by (unfold n; cbn [map List.length]; lia).
  pose proof unit_pos as U.
  assert (Hq : 0 <= round_ratio (total * unit) n <= 100 * unit).
  { split; [apply round_ratio_nonneg; nia|].
    rewrite <- ScoreFacts.round_hundred. apply round_ratio_mono; nia. }
  exists (Z.quot (round_ratio (total * unit) n) unit). split.
  - unfold int_truediv.
    destruct (Z.eqb_spec n 0); [lia|]. destruct (Z.ltb_spec n 0); [lia|].
    rewrite Z.abs_eq by lia. rewrite pack_fin by lia. reflexivity.
  - split; [apply Z.quot_pos; lia|apply Z.quot_le_upper_bound; lia].
Qed.

Lemma violation_weight_nonneg (violationType : string) :
  0 <= get (lookup violationType VIOLATION_WEIGHTS) 2.
Proof.
  unfold VIOLATION_WEIGHTS. cbn [lookup].
  repeat (destruct (String.eqb violationType _); [cbn [get]; lia|]).
  cbn [get]. lia.
Qed.

Lemma style_computeScore_range (violationsByType : list (string * list string)) :
  0 <= style_computeScore violationsByType <= 100.
Proof.
  unfold style_computeScore.
  assert (H : forall l acc, 0 <= acc ->
            0 <= fold_left
                   (fun (total : Z) (item : string * list string) =>
                      total + Z.of_nat (List.length (snd item))
                              * get (lookup (fst item) VIOLATION_WEIGHTS) 2) l acc).
  { induction l as [|item l IH]; intros acc Hacc; cbn [fold_left]; [exact Hacc|].
    apply IH. pose proof (violation_weight_nonneg (fst item)). nia. }
  specialize (H violationsByType 0 ltac:(lia)). lia.
Qed.

Lemma security_computeScore_range (findings : list SecurityFinding) :
  0 <= security_computeScore findings <= 100.
Proof.
  unfold security_computeScore.
  assert (H : 0 <= sumZ (map (fun f => SEVERITY_DEDUCTIONS (severity f)) findings)).
  { induction findings as [|f rest IH]; unfold sumZ in *; cbn [map fold_right]; [lia|].
    destruct (severity f); cbn [SEVERITY_DEDUCTIONS]; lia. }
  lia.
Qed.

Lemma overall_range (C X S K : Z) :
  0 <= C <= 100 -> 0 <= X <= 100 -> 0 <= S <= 100 -> 0 <= K <= 100 ->
  exists o, _computeOverallScore C X S K = Ok o /\ 0 <= o <= 100.
Proof.
  intros HC HX HS HK.
  destruct (OverallFacts.overall_nearest C X S K HC HX HS HK) as (o & Eo & Hn).
  exists o. split; [exact Eo|]. unfold nearest in Hn. lia.
Qed.

End Bounds.

(* ================================================================== *)
(** * Parsed and unparsable submissions *)
(* ================================================================== *)

(** A parser that knows the trees of the given texts and rejects the rest. *)
Definition table_parser (table : list (string * node)) : Parser :=
  {| ast_parse := fun s =>
       match lookup s table with
       | Some tree => Parsed tree
       | None => SyntaxError "invalid syntax"
       end;
     ast_unparse := fun _ => None |}.

Definition name_node (f id : string) (ctx : NodeClass) (l : Z) : node :=
  Node (Name id) f l l [Node ctx "ctx" 0 0 []].

Definition call_node (f func : string) (args : list node) (l : Z) : node :=
  Node Call f l l (name_node "func" func Load l :: args).

(** def f(x):
        assert x
        with open(x) as g:
            pass *)
Definition assert_with_text : string :=
  "def f(x):" ++ nl ++ "    assert x" ++ nl ++ "    with open(x) as g:" ++ nl
    ++ "        pass" ++ nl.

Definition assert_with_tree : node :=
  Node Module_ EmptyString 0 0
    [ Node (FunctionDef "f") "body" 1 4
        [ Node arguments "args" 0 0 [Node (OtherNode "arg") "args" 1 1 []];
          Node Assert "body" 2 2 [name_node "test" "x" Load 2];
          Node With "body" 3 4
            [ Node (OtherNode "withitem") "items" 0 0
                [ call_node "context_expr" "open" [name_node "args" "x" Load 3] 3;
                  name_node "optional_vars" "g" Store 3 ];
              Node Pass "body" 4 4 [] ] ] ].

(** try:
        run()
    except:
        stop() *)
Definition bare_except_text : string :=
  "try:" ++ nl ++ "    run()" ++ nl ++ "except:" ++ nl ++ "    stop()" ++ nl.

Definition bare_except_tree : node :=
  Node Module_ EmptyString 0 0
    [ Node Try "body" 1 4
        [ Node Expr "body" 2 2 [call_node "value" "run" [] 2];
          Node ExceptHandler "handlers" 3 4
            [ Node Expr "body" 4 4 [call_node "value" "stop" [] 4] ] ] ].

(** password = 'hunter2'
    def f(:                     which does not parse *)
Definition secret_text : string :=
  "password = " ++ sq ++ "hunter2" ++ sq ++ nl ++ "def f(:" ++ nl.

Definition known_trees : Parser :=
  table_parser [(assert_with_text, assert_with_tree); (bare_except_text, bare_except_tree)].

(** The cyclomatic count as the specification words it: one more for each
    if, loop, exception handler, with block, assert and comprehension
    filter, and operands - 1 for each boolean chain. *)
Definition spec_increment (n : node) : Z :=
  match cls n with
  | If | For | While | ExceptHandler | With | Assert => 1
  | BoolOp => count_nodes (attr "values" n) - 1
  | comprehension => count_nodes (attr "ifs" n)
  | _ => 0
  end.

Fixpoint spec_visit (n : node) (count : Z) : Z :=
  fold_left (fun c child => spec_visit child c) (children n) (count + spec_increment n).

Definition spec_cyclomatic (n : node) : Z := spec_visit n 1.

(** The overall score as the specification words it: the weighted sum
    0.50 C + 0.20 X + 0.15 S + 0.15 K, in hundredths, rounded as [round]
    rounds a number (to the nearest integer, a half to the even one). *)
Definition spec_overallScore (C X S K : Z) : Z :=
  Binary64.rne_div (50 * C + 20 * X + 15 * S + 15 * K) 100.

Lemma nearest_unique (o N : Z) :
  nearest o N 100 -> N mod 100 <> 50 -> o = Binary64.rne_div N 100.
Proof.
  intros Hn Ht. pose proof (OverallFacts.rne_div_near N 100 ltac:(lia)) as Hr.
  unfold nearest in Hn.
  pose proof (Z.div_mod N 100 ltac:(lia)) as Hd.
  pose proof (Z.mod_pos_bound N 100 ltac:(lia)) as Hm.
  set (r := Binary64.rne_div N 100) in *. set (q := N / 100) in *.
  set (m := N mod 100) in *. lia.
Qed.

Lemma assignGrade_thresholds (s : Z) :
  fst (_assignGrade s)
  = if 90 <=? s then "A" else if 80 <=? s then "B" else if 70 <=? s then "C"
    else if 60 <=? s then "D" else "F".
Proof.
  unfold _assignGrade, GRADE_THRESHOLDS. cbn [firstGrade].
  destruct (90 <=? s) eqn:E90; [reflexivity|].
  destruct (80 <=? s) eqn:E80; [reflexivity|].
  destruct (70 <=? s) eqn:E70; [reflexivity|].
  destruct (60 <=? s) eqn:E60; [reflexivity|].
  destruct (0 <=? s); reflexivity.
Qed.

(** C6, amended.  For dimension scores between 0 and 100 the overall
    score is at most one half away from the weighted sum 0.50 C + 0.20 X
    + 0.15 S + 0.15 K; it is that sum rounded when the sum does not end
    in .5, and one of the two neighbours when it does, which one being
    decided by the double-precision evaluation and not by the sum.  The
    grade thresholds include their lower bound: 90 is an A, 89 a B, and
    so on down to F below 60. *)
Theorem C6_overall_score_and_grade (C X S K : Z) :
  0 <= C <= 100 -> 0 <= X <= 100 -> 0 <= S <= 100 -> 0 <= K <= 100 ->
  exists o,
    _computeOverallScore C X S K = Ok o /\
    nearest o (50 * C + 20 * X + 15 * S + 15 * K) 100 /\
    ((50 * C + 20 * X + 15 * S + 15 * K) mod 100 <> 50 -> o = spec_overallScore C X S K) /\
    fst (_assignGrade 90) = "A" /\
    fst (_assignGrade 89) = "B" /\
    (forall s, fst (_assignGrade s)
               = if 90 <=? s then "A" else if 80 <=? s then "B"
                 else if 70 <=? s then "C" else if 60 <=? s then "D" else "F").
Proof.
  intros HC HX HS HK.
  destruct (OverallFacts.overall_nearest C X S K HC HX HS HK) as (o & Eo & Hn).
  exists o. split; [exact Eo|]. split; [exact Hn|].
  split; [intros Ht; apply nearest_unique; assumption|].
  split; [reflexivity|]. split; [reflexivity|]. exact assignGrade_thresholds.
Qed.

Lemma C6_witness :
  (0 <= 90 <= 100) /\ (0 <= 80 <= 100) /\ (0 <= 100 <= 100) /\ (0 <= 100 <= 100) /\
  exists o,
    _computeOverallScore 90 80 100 100 = Ok o /\
    nearest o (50 * 90 + 20 * 80 + 15 * 100 + 15 * 100) 100 /\
    ((50 * 90 + 20 * 80 + 15 * 100 + 15 * 100) mod 100 <> 50 ->
     o = spec_overallScore 90 80 100 100) /\
    fst (_assignGrade 90) = "A" /\
    fst (_assignGrade 89) = "B" /\
    (forall s, fst (_assignGrade s)
               = if 90 <=? s then "A" else if 80 <=? s then "B"
                 else if 70 <=? s then "C" else if 60 <=? s then "D" else "F").
Proof.
  assert (H1 : 0 <= 90 <= 100) by lia.
  assert (H2 : 0 <= 80 <= 100) by lia.
  assert (H3 : 0 <= 100 <= 100) by lia.
  split; [exact H1|]. split; [exact H2|]. split; [exact H3|]. split; [exact H3|].
  exact (C6_overall_score_and_grade 90 80 100 100 H1 H2 H3 H3).
Defined.

(** On a sum that ends in .5 the overall score is not the sum rounded,
    and not a function of the sum: 3, 0, 0, 0 and 0, 0, 1, 9 both weigh
    1.5, which rounds to 2, and they score 2 and 1. *)
Lemma C6_counterexample :
  50 * 3 + 20 * 0 + 15 * 0 + 15 * 0 = 150 /\
  50 * 0 + 20 * 0 + 15 * 1 + 15 * 9 = 150 /\
  spec_overallScore 3 0 0 0 = 2 /\
  spec_overallScore 0 0 1 9 = 2 /\
  _computeOverallScore 3 0 0 0 = Ok 2 /\
  _computeOverallScore 0 0 1 9 = Ok 1.
Proof. conjuncts; vm_compute; reflexivity. Qed.

(* ================================================================== *)
(** * The static evaluators *)
(* ================================================================== *)

Section StaticEvaluators.

Context `{Parser} `{Builtins}.

(** A with block and an assert have no method in the visitor. *)
Lemma with_assert_add_nothing (n : node) :
  cls n = With \/ cls n = Assert -> cyclomatic_increment n = 0.
Proof. intros [E|E]; unfold cyclomatic_increment; rewrite E; reflexivity. Qed.

(** C4, as the code has it.  For the function f whose body is an assert
    and a with block, the evaluator reports the cyclomatic count 1, where
    the count of the specification is 3: the visitor adds nothing for a
    with block or an assert. *)
Theorem C4_with_and_assert_not_counted :
  ast_parse assert_with_text = Parsed assert_with_tree ->
  exists r,
    runComplexityEvaluation assert_with_text = Ok r /\
    map fm_name (cx_functions r) = ["f"] /\
    map cyclomaticScore (cx_functions r) = [1] /\
    map spec_cyclomatic (filter isFunctionDef (walk assert_with_tree)) = [3].
Proof.
  intros Hp. unfold runComplexityEvaluation. rewrite Hp.
  eexists. split; [vm_compute; reflexivity|].
  conjuncts; reflexivity.
Qed.

(** The style score is 100 less the weighted counts of the seven checks,
    never below 0; bare and empty handlers are counted together at 8. *)
Lemma style_score_formula (code : string) (tree : node) :
  ast_parse code = Parsed tree ->
  st_score (runStyleEvaluation code)
  = Z.max 0 (100 - (3 * Z.of_nat (List.length (_checkNaming tree))
                    + 4 * Z.of_nat (List.length (_checkDocstrings tree))
                    + 2 * Z.of_nat (List.length (_checkMagicNumbers tree))
                    + 1 * Z.of_nat (List.length (_checkLineLengths (splitlines code)))
                    + 8 * Z.of_nat (List.length (_checkEmptyAndBareExcept tree))
                    + 7 * Z.of_nat (List.length (_checkMutableDefaults tree))
                    + 3 * Z.of_nat (List.length (_checkUnusedImports tree code)))).
Proof.
  intros Hp. unfold runStyleEvaluation. rewrite Hp. cbn [st_score].
  unfold style_computeScore. f_equal. f_equal.
  destruct (_checkNaming tree); destruct (_checkDocstrings tree);
    destruct (_checkMagicNumbers tree); destruct (_checkLineLengths (splitlines code));
    destruct (_checkEmptyAndBareExcept tree); destruct (_checkMutableDefaults tree);
    destruct (_checkUnusedImports tree code);
    cbn [filter nonempty_list snd fst fold_left]; unfold get, VIOLATION_WEIGHTS;
    cbn [lookup String.eqb Ascii.eqb Bool.eqb]; cbn [List.length]; lia.
Qed.

(** C5, as the code has it.  A handler with no type filter is reported in
    the category emptyExcept and deducts 8 points, although the weight
    table gives bareExcept 6: the submission whose only violation is one
    bare handler scores 92. *)
Theorem C5_bare_except_deducts_8 :
  ast_parse bare_except_text = Parsed bare_except_tree ->
  st_violations (runStyleEvaluation bare_except_text)
  = [("emptyExcept",
      ["Bare `except:` at line 3 catches ALL exceptions "
         ++ "including SystemExit and KeyboardInterrupt. Be specific."])] /\
  st_totalViolations (runStyleEvaluation bare_except_text) = 1 /\
  st_score (runStyleEvaluation bare_except_text) = 92 /\
  lookup "bareExcept" VIOLATION_WEIGHTS = Some 6.
Proof.
  intros Hp. unfold runStyleEvaluation. rewrite Hp.
  conjuncts; vm_compute; reflexivity.
Qed.

(** C9.  When the submission does not parse, the complexity evaluation
    returns score 0 with no functions, and the style evaluation returns
    score 0 with no violations and a total of 0. *)
Theorem C9_parse_failure_scores_zero (code exc : string) :
  ast_parse code = SyntaxError exc ->
  (exists r, runComplexityEvaluation code = Ok r /\
             cx_score r = 0 /\ cx_functions r = []) /\
  st_score (runStyleEvaluation code) = 0 /\
  st_violations (runStyleEvaluation code) = [] /\
  st_totalViolations (runStyleEvaluation code) = 0.
Proof.
  intros Hp. unfold runComplexityEvaluation, runStyleEvaluation. rewrite Hp.
  split; [eexists; split; [reflexivity|split; reflexivity]|].
  conjuncts; reflexivity.
Qed.

(** A submission that parses and defines no function scores the neutral 50. *)
Lemma no_function_scores_50 (code : string) (tree : node) :
  ast_parse code = Parsed tree ->
  filter isFunctionDef (walk tree) = [] ->
  exists r, runComplexityEvaluation code = Ok r /\ cx_score r = 50 /\ cx_functions r = [].
Proof.
  intros Hp Hf. unfold runComplexityEvaluation. rewrite Hp, Hf.
  eexists. split; [reflexivity|split; reflexivity].
Qed.

End StaticEvaluators.

Section SecurityFacts.

Context `{Parser}.

(** C1, amended.  When the submission does not parse, the security
    evaluation runs no check at all, neither on the tree nor on the text:
    it returns score 100, no findings and a summary with the parse
    error. *)
Theorem C1_parse_failure_skips_all_checks (code exc : string) :
  ast_parse code = SyntaxError exc ->
  runSecurityEvaluation code
  = {| se_score := 100;
       se_findings := [];
       se_summary := "Syntax error — security checks skipped: " ++ exc |}.
Proof. intros Hp. unfold runSecurityEvaluation. rewrite Hp. reflexivity. Qed.

(** On a submission that parses, the text checks follow the tree checks. *)
Lemma parsed_findings (code : string) (tree : node) :
  ast_parse code = Parsed tree ->
  se_findings (runSecurityEvaluation code)
  = List.app (_checkDangerousCalls tree)
      (List.app (_checkAssertForSecurity tree)
         (List.app (_checkHardcodedSecrets code) (_checkSqlInjection code))).
Proof. intros Hp. unfold runSecurityEvaluation. rewrite Hp. reflexivity. Qed.

End SecurityFacts.

(** C1 fails as stated: the text with a hardcoded password and a syntax
    error has one critical text-based finding, worth 30 points, and the
    evaluation reports no finding and score 100. *)
Lemma C1_counterexample :
  @ast_parse known_trees secret_text = SyntaxError "invalid syntax" /\
  map severity (_checkHardcodedSecrets secret_text) = [critical] /\
  security_computeScore (_checkHardcodedSecrets secret_text) = 70 /\
  se_findings (@runSecurityEvaluation known_trees secret_text) = [] /\
  se_score (@runSecurityEvaluation known_trees secret_text) = 100.
Proof. conjuncts; vm_compute; reflexivity. Qed.

Lemma C1_witness :
  @ast_parse known_trees secret_text = SyntaxError "invalid syntax" /\
  @runSecurityEvaluation known_trees secret_text
  = {| se_score := 100;
       se_findings := [];
       se_summary := "Syntax error — security checks skipped: " ++ "invalid syntax" |}.
Proof.
  assert (Hp : @ast_parse known_trees secret_text = SyntaxError "invalid syntax")
    by (vm_compute; reflexivity).
  split; [exact Hp|].
  exact (@C1_parse_failure_skips_all_checks known_trees secret_text "invalid syntax" Hp).
Defined.

Lemma C4_witness :
  @ast_parse known_trees assert_with_text = Parsed assert_with_tree /\
  exists r,
    @runComplexityEvaluation known_trees plain_builtins assert_with_text = Ok r /\
    map fm_name (cx_functions r) = ["f"] /\
    map cyclomaticScore (cx_functions r) = [1] /\
    map spec_cyclomatic (filter isFunctionDef (walk assert_with_tree)) = [3].
Proof.
  assert (Hp : @ast_parse known_trees assert_with_text = Parsed assert_with_tree)
    by (vm_compute; reflexivity).
  split; [exact Hp|].
  exact (@C4_with_and_assert_not_counted known_trees plain_builtins Hp).
Defined.

Lemma C5_witness :
  @ast_parse known_trees bare_except_text = Parsed bare_except_tree /\
  st_violations (@runStyleEvaluation known_trees plain_builtins bare_except_text)
  = [("emptyExcept",
      ["Bare `except:` at line 3 catches ALL exceptions "
         ++ "including SystemExit and KeyboardInterrupt. Be specific."])] /\
  st_totalViolations (@runStyleEvaluation known_trees plain_builtins bare_except_text) = 1 /\
  st_score (@runStyleEvaluation known_trees plain_builtins bare_except_text) = 92 /\
  lookup "bareExcept" VIOLATION_WEIGHTS = Some 6.
Proof.
  assert (Hp : @ast_parse known_trees bare_except_text = Parsed bare_except_tree)
    by (vm_compute; reflexivity).
  split; [exact Hp|].
  exact (@C5_bare_except_deducts_8 known_trees plain_builtins Hp).
Defined.

Lemma C9_witness :
  @ast_parse known_trees secret_text = SyntaxError "invalid syntax" /\
  (exists r, @runComplexityEvaluation known_trees plain_builtins secret_text = Ok r /\
             cx_score r = 0 /\ cx_functions r = []) /\
  st_score (@runStyleEvaluation known_trees plain_builtins secret_text) = 0 /\
  st_violations (@runStyleEvaluation known_trees plain_builtins secret_text) = [] /\
  st_totalViolations (@runStyleEvaluation known_trees plain_builtins secret_text) = 0.
Proof.
  assert (Hp : @ast_parse known_trees secret_text = SyntaxError "invalid syntax")
    by (vm_compute; reflexivity).
  split; [exact Hp|].
  exact (@C9_parse_failure_scores_zero known_trees plain_builtins secret_text
                                       "invalid syntax" Hp).
Defined.

Section ScoreBounds.

Context `{Sandbox} `{Builtins} `{Parser}.

Lemma correctness_score_range (code : string) (problem : Problem) (r : CorrectnessReport) :
  Forall (fun tc => 0 < weightOf tc) (allTestCases problem) ->
  runCorrectnessEvaluation code problem = Ok r -> 0 <= cr_score r <= 100.
Proof.
  intros Hw Run. unfold runCorrectnessEvaluation in Run.
  destruct (runLoop code problem) as [st|] eqn:Loop; cbn [bind] in Run; [|discriminate].
  destruct (runLoop_inv code problem st Hw Loop) as ([He _] & _).
  destruct (ScoreFacts.weightedScore_range _ _ He) as (s & Hs & Hr).
  rewrite Hs in Run. cbn [bind] in Run. injection Run as <-. exact Hr.
Qed.

Lemma complexity_score_range (code : string) (r : ComplexityReport) :
  runComplexityEvaluation code = Ok r -> 0 <= cx_score r <= 100.
Proof.
  unfold runComplexityEvaluation. destruct (ast_parse code) as [tree|exc].
  - destruct (Bounds.scoreFromMetrics_range
                (map metricsOf (filter isFunctionDef (walk tree)))) as (s & Hs & Hr).
    rewrite Hs. cbn [bind].
    match goal with |- (summary <- ?m ;; _) = _ -> _ => destruct m end;
      cbn [bind]; [|discriminate].
    intros E. injection E as <-. exact Hr.
  - intros E. injection E as <-. cbn. lia.
Qed.

Lemma style_score_range (code : string) : 0 <= st_score (runStyleEvaluation code) <= 100.
Proof.
  unfold runStyleEvaluation. destruct (ast_parse code) as [tree|exc]; cbn [st_score].
  - apply Bounds.style_computeScore_range.
  - lia.
Qed.

Lemma security_score_range (code : string) :
  0 <= se_score (runSecurityEvaluation code) <= 100.
Proof.
  unfold runSecurityEvaluation. destruct (ast_parse code) as [tree|exc]; cbn [se_score].
  - apply Bounds.security_computeScore_range.
  - lia.
Qed.

(** C8.  With positive weights, the score of each of the four evaluations
    and the overall score of the report built from them is an integer
    between 0 and 100, also when the submission does not parse or defines
    nothing; and the report is built whenever the correctness and the
    complexity evaluation return. *)
Theorem C8_scores_between_0_and_100 (code : string) (problem : Problem) :
  Forall (fun tc => 0 < weightOf tc) (allTestCases problem) ->
  (forall r, runCorrectnessEvaluation code problem = Ok r -> 0 <= cr_score r <= 100) /\
  (forall r, runComplexityEvaluation code = Ok r -> 0 <= cx_score r <= 100) /\
  0 <= st_score (runStyleEvaluation code) <= 100 /\
  0 <= se_score (runSecurityEvaluation code) <= 100 /\
  (forall c x,
     runCorrectnessEvaluation code problem = Ok c ->
     runComplexityEvaluation code = Ok x ->
     exists report,
       buildReport c x (runStyleEvaluation code) (runSecurityEvaluation code) = Ok report /\
       0 <= overallScore report <= 100).
Proof.
  intros Hw.
  split; [intros r; apply correctness_score_range; exact Hw|].
  split; [intros r; apply complexity_score_range|].
  split; [apply style_score_range|].
  split; [apply security_score_range|].
  intros c x Hc Hx.
  destruct (Bounds.overall_range (cr_score c) (cx_score x)
              (st_score (runStyleEvaluation code)) (se_score (runSecurityEvaluation code))
              (correctness_score_range _ _ _ Hw Hc) (complexity_score_range _ _ Hx)
              (style_score_range code) (security_score_range code)) as (o & Eo & Ho).
  unfold buildReport. rewrite Eo. cbn [bind].
  destruct (_assignGrade o) as [g l].
  eexists. split; [reflexivity|]. exact Ho.
Qed.

End ScoreBounds.

(** The unparsable text against the light and the heavy case. *)
Lemma C8_witness :
  Forall (fun tc => 0 < weightOf tc) (allTestCases light_and_heavy) /\
  (forall r, @runCorrectnessEvaluation syntax_error_runs plain_builtins secret_text light_and_heavy
             = Ok r -> 0 <= cr_score r <= 100) /\
  (forall r, @runComplexityEvaluation known_trees plain_builtins secret_text = Ok r ->
             0 <= cx_score r <= 100) /\
  0 <= st_score (@runStyleEvaluation known_trees plain_builtins secret_text) <= 100 /\
  0 <= se_score (@runSecurityEvaluation known_trees secret_text) <= 100 /\
  (forall c x,
     @runCorrectnessEvaluation syntax_error_runs plain_builtins secret_text light_and_heavy = Ok c ->
     @runComplexityEvaluation known_trees plain_builtins secret_text = Ok x ->
     exists report,
       buildReport c x (@runStyleEvaluation known_trees plain_builtins secret_text)
                   (@runSecurityEvaluation known_trees secret_text) = Ok report /\
       0 <= overallScore report <= 100).
Proof.
  assert (Hw : Forall (fun tc => 0 < weightOf tc) (allTestCases light_and_heavy))
    by (repeat constructor).
  split; [exact Hw|].
  exact (@C8_scores_between_0_and_100 syntax_error_runs plain_builtins known_trees secret_text
                                      light_and_heavy Hw).
Defined.

(** The store that holds one problem. *)
Definition one_problem (id : string) (problem : Problem) : ProblemStore :=
  {| loadProblem := fun problemId => if String.eqb problemId id then Some problem else None |}.

(** The JSON body of a request for a problem and a submission. *)
Definition posted (problemId code : string) : PyValue :=
  PyDict [("problemId", PyStr problemId); ("code", PyStr code)].

(** The report of that text, posted: every dimension at its degraded
    result. *)
Lemma unparsable_report :
  exists report,
    @evaluateCode syntax_error_runs plain_builtins known_trees
                  (one_problem "001" light_and_heavy) "POST" (posted "001" secret_text)
    = Returns (Evaluated report) /\
    cr_score (correctnessDimension report) = 0 /\
    cx_score (complexityDimension report) = 0 /\
    st_score (styleDimension report) = 0 /\
    se_score (securityDimension report) = 100 /\
    overallScore report = 15 /\
    grade report = "F".
Proof. eexists. split; [vm_compute; reflexivity|]. conjuncts; reflexivity. Qed.

(* ================================================================== *)
(** * More about the correctness evaluator *)
(* ================================================================== *)

Module ScoreOrder.

Import Binary64 Rounding ScoreFacts.

Lemma round_ratio_same (n d m : Z) :
  0 <= n -> 0 < d -> 0 <= m -> n = m * d -> round_ratio n d = round_ratio m 1.
Proof.
  intros Hn Hd Hm E. subst n. apply Z.le_antisymm; apply round_ratio_mono; lia.
Qed.

Lemma quotient_mono (e1 e2 t : Z) :
  0 <= e1 <= e2 -> 0 < t -> quotient e1 t <= quotient e2 t.
Proof.
  intros He Ht. pose proof unit_pos. unfold quotient. apply round_ratio_mono; try nia.
  apply Z.mul_le_mono_nonneg_r; nia.
Qed.

Lemma scaled_mono (e1 e2 t : Z) :
  0 <= e1 <= e2 -> e2 <= t -> 0 < t -> scaled e1 t <= scaled e2 t.
Proof.
  intros He Hb Ht. pose proof unit_pos as U.
  pose proof (quotient_mono e1 e2 t He Ht) as Q.
  pose proof (quotient_range e1 t ltac:(lia) Ht) as Q1.
  unfold scaled. apply round_ratio_mono; nia.
Qed.

Lemma scaled_all (t : Z) : 0 < t -> scaled t t = 100 * unit.
Proof.
  intros Ht. pose proof unit_pos as U. unfold scaled, quotient.
  rewrite (round_ratio_same (t * unit) t unit) by nia.
  rewrite round_unit.
  rewrite (round_ratio_same (unit * (100 * unit)) unit (100 * unit)) by nia.
  apply round_hundred.
Qed.

Lemma scaled_none (t : Z) : 0 < t -> scaled 0 t = 0.
Proof.
  intros Ht. pose proof unit_pos as U. unfold scaled, quotient.
  rewrite (round_ratio_same (0 * unit) t 0) by lia.
  change (round_ratio 0 1) with 0.
  rewrite (round_ratio_same (0 * (100 * unit)) unit 0) by lia.
  reflexivity.
Qed.

Lemma weightedScore_all (t : Z) : 0 < t -> weightedScore t t = Ok 100.
Proof.
  intros Ht. pose proof unit_pos as U.
  rewrite weightedScore_eq by lia. rewrite scaled_all by lia.
  apply f_equal. apply Z.quot_mul. lia.
Qed.

Lemma weightedScore_nothing (t : Z) : weightedScore 0 t = Ok 0.
Proof.
  destruct (Z.ltb_spec 0 t) as [Ht|Ht].
  - pose proof unit_pos as U.
    rewrite weightedScore_eq by lia. rewrite scaled_none by lia.
    apply f_equal. apply Z.quot_0_l. lia.
  - unfold weightedScore. destruct (Z.ltb_spec 0 t); [lia|reflexivity].
Qed.

End ScoreOrder.

(** X1.  With the total weight fixed, the score does not decrease when
    more weight is earned. *)
Theorem weightedScore_monotone (e1 e2 t : Z) :
  0 <= e1 <= e2 -> e2 <= t ->
  exists s1 s2,
    weightedScore e1 t = Ok s1 /\ weightedScore e2 t = Ok s2 /\ s1 <= s2.
Proof.
  intros He Hb. destruct (Z.ltb_spec 0 t) as [Ht|Ht].
  - exists (Z.quot (ScoreFacts.scaled e1 t) Binary64.unit),
           (Z.quot (ScoreFacts.scaled e2 t) Binary64.unit).
    split; [apply ScoreFacts.weightedScore_eq; lia|].
    split; [apply ScoreFacts.weightedScore_eq; lia|].
    pose proof Rounding.unit_pos.
    pose proof (ScoreFacts.scaled_range e1 t ltac:(lia) Ht).
    rewrite !Z.quot_div_nonneg; try lia.
    + apply Z.div_le_mono; [lia|]. apply ScoreOrder.scaled_mono; lia.
    + pose proof (ScoreFacts.scaled_range e2 t ltac:(lia) Ht). lia.
  - exists 0, 0. unfold weightedScore. destruct (Z.ltb_spec 0 t); [lia|].
    repeat split; lia.
Qed.

Lemma weightedScore_monotone_witness :
  (0 <= 1 <= 2) /\ 2 <= 3 /\
  exists s1 s2,
    weightedScore 1 3 = Ok s1 /\ weightedScore 2 3 = Ok s2 /\ s1 <= s2.
Proof.
  assert (H1 : 0 <= 1 <= 2) by lia. assert (H2 : 2 <= 3) by lia.
  split; [exact H1|]. split; [exact H2|].
  exact (weightedScore_monotone 1 2 3 H1 H2).
Defined.

(** X2.  When the whole of a positive total weight is earned the score is
    100, and when none of it is earned the score is 0. *)
Theorem weightedScore_all_or_nothing (t : Z) :
  0 < t -> weightedScore t t = Ok 100 /\ weightedScore 0 t = Ok 0.
Proof.
  intros Ht. split; [apply ScoreOrder.weightedScore_all; exact Ht|].
  apply ScoreOrder.weightedScore_nothing.
Qed.

Lemma weightedScore_all_or_nothing_witness :
  0 < 7 /\ weightedScore 7 7 = Ok 100 /\ weightedScore 0 7 = Ok 0.
Proof.
  assert (H : 0 < 7) by lia. split; [exact H|].
  exact (weightedScore_all_or_nothing 7 H).
Defined.

Definition outcome_key (r : TestResult) : string * PyValue * bool * Z :=
  (tr_label r, tr_expected r, tr_hidden r, tr_weight r).

Definition case_key (tc : TestCase * bool) : string * PyValue * bool * Z :=
  (get (tc_label (fst tc)) "Unnamed test", get (tc_expected (fst tc)) PyNone,
   snd tc, weightOf tc).

(** A child process that left no decodable result: it ran out of time,
    could not be run, printed nothing, or printed lines that are not JSON. *)
Definition no_result `{Sandbox} (p : ProcResult) : Prop :=
  match p with
  | TimeoutExpired | RunFailed _ => True
  | Completed stdout _ =>
      forall l, In l (splitlines (strip stdout)) -> forall v, json_loads l <> Loaded v
  end.

Definition failed_status (r : TestResult) : Prop :=
  (tr_status r = PyStr "error" \/ tr_status r = PyStr "timeout") /\ tr_actual r = PyNone.

Section CorrectnessRecords.

Context `{Sandbox} `{Builtins}.

Lemma evalCase_record (code pre : string) (call : nat) (tc : TestCase * bool)
      (st st' : LoopState) :
  evalCase code pre call tc st = Ok st' ->
  exists r, testResults st' = List.app (testResults st) [r] /\ outcome_key r = case_key tc.
Proof.
  unfold evalCase, outcome_key, case_key, weightOf.
  destruct (subscript _ "status") as [status0|]; cbn [bind]; [|discriminate].
  destruct (py_eq status0 (PyStr "ok")).
  - destruct (subscript _ "result") as [actual|]; cbn [bind]; [|discriminate].
    destruct (_valuesMatch _ _ _) as [b|]; cbn [bind]; [|discriminate].
    intros E; injection E as <-. eexists. split; reflexivity.
  - intros E; injection E as <-. eexists. split; reflexivity.
Qed.

Lemma evalCases_records (code pre : string) (cases : list (TestCase * bool)) :
  forall (call : nat) (st st' : LoopState),
    evalCases code pre call cases st = Ok st' ->
    map outcome_key (testResults st')
    = List.app (map outcome_key (testResults st)) (map case_key cases).
Proof.
  induction cases as [|tc rest IH]; intros call st st' Run; cbn [evalCases] in Run.
  - injection Run as <-. cbn [map]. rewrite app_nil_r. reflexivity.
  - destruct (evalCase code pre call tc st) as [st1|] eqn:E; cbn [bind] in Run;
      [|discriminate].
    apply evalCase_record in E. destruct E as (r & Hr & Hk).
    rewrite (IH _ _ _ Run), Hr, map_app. cbn [map]. rewrite Hk, <- app_assoc.
    reflexivity.
Qed.

(** X3.  A report holds one outcome per test case, in the order of the
    visible cases followed by the hidden ones, each with the label, the
    expected value, the hidden flag and the weight of its case; total is
    their number and passed lies between 0 and total. *)
Theorem outcomes_follow_cases (code : string) (problem : Problem) (r : CorrectnessReport) :
  runCorrectnessEvaluation code problem = Ok r ->
  map outcome_key (cr_testResults r) = map case_key (allTestCases problem) /\
  map tr_hidden (cr_testResults r)
  = List.app (map (fun _ => false) (testCases problem))
             (map (fun _ => true) (hiddenTestCases problem)) /\
  cr_total r = Z.of_nat (List.length (cr_testResults r)) /\
  0 <= cr_passed r <= cr_total r.
Proof.
  unfold runCorrectnessEvaluation.
  destruct (runLoop code problem) as [st|] eqn:Loop; cbn [bind]; [|discriminate].
  destruct (weightedScore _ _) as [s|]; cbn [bind]; [|discriminate].
  intros E; injection E as <-. cbn [cr_testResults cr_total cr_passed].
  unfold runLoop in Loop. apply evalCases_records in Loop. cbn [testResults map app] in Loop.
  assert (Hlen : List.length (testResults st) = List.length (allTestCases problem)).
  { rewrite <- (length_map outcome_key), Loop, length_map. reflexivity. }
  split; [exact Loop|]. split.
  - assert (Hh : map tr_hidden (testResults st) = map snd (allTestCases problem)).
    { assert (Hm : map (fun k => snd (fst k)) (map outcome_key (testResults st))
                   = map (fun k => snd (fst k)) (map case_key (allTestCases problem)))
        by (rewrite Loop; reflexivity).
      rewrite !map_map in Hm. exact Hm. }
    rewrite Hh. unfold allTestCases. rewrite map_app, !map_map. reflexivity.
  - split; [rewrite Hlen; reflexivity|].
    pose proof (filter_length_le (status_is "pass") (testResults st)). lia.
Qed.

Lemma filter_nonblank_in (lines : list string) (l : string) (rest : list string) :
  rev (filter (fun l => nonempty (strip l)) lines) = l :: rest -> In l lines.
Proof.
  intros E. assert (Hin : In l (rev (filter (fun l => nonempty (strip l)) lines)))
    by (rewrite E; left; reflexivity).
  apply in_rev in Hin. apply filter_In in Hin. apply Hin.
Qed.

Lemma sandbox_no_result (call : nat) (script : string) :
  no_result (subprocess_run call script) ->
  exists s msg,
    _runInSandbox call script = PyDict [("status", PyStr s); ("error", PyStr msg)] /\
    (s = "error" \/ s = "timeout").
Proof.
  unfold _runInSandbox, no_result.
  destruct (subprocess_run call script) as [stdout stderr| |msg]; intros Hn.
  - destruct (negb (nonempty (strip stdout))).
    + eexists _, _. split; [reflexivity|left; reflexivity].
    + destruct (rev (filter _ (splitlines (strip stdout)))) as [|lastLine rest] eqn:E.
      * eexists _, _. split; [reflexivity|left; reflexivity].
      * apply filter_nonblank_in in E. specialize (Hn lastLine E).
        destruct (json_loads lastLine) as [v| |m].
        -- exfalso. apply (Hn v). reflexivity.
        -- eexists _, _. split; [reflexivity|left; reflexivity].
        -- eexists _, _. split; [reflexivity|left; reflexivity].
  - eexists _, _. split; [reflexivity|right; reflexivity].
  - eexists _, _. split; [reflexivity|left; reflexivity].
Qed.

(** X4.  A test case whose child process left no decodable result is
    recorded with status error or timeout and no actual value; it earns
    nothing, its weight counts in the total, and the loop goes on. *)
Theorem failed_run_is_recorded (code pre : string) (call : nat) (tc : TestCase * bool)
        (st : LoopState) :
  no_result (subprocess_run call
               (_buildRunnerScript code (get (tc_args (fst tc)) EmptyString) pre)) ->
  exists r,
    evalCase code pre call tc st
    = Ok {| testResults := List.app (testResults st) [r];
            totalWeight := totalWeight st + weightOf tc;
            earnedWeight := earnedWeight st |} /\
    failed_status r /\ outcome_key r = case_key tc.
Proof.
  intros Hn. apply sandbox_no_result in Hn. destruct Hn as (s & msg & Ho & Hs).
  unfold evalCase. rewrite Ho. cbn [subscript lookup String.eqb Ascii.eqb Bool.eqb bind].
  assert (Hok : py_eq (PyStr s) (PyStr "ok") = false)
    by (destruct Hs as [-> | ->]; reflexivity).
  rewrite Hok. eexists. split; [reflexivity|].
  split; [|reflexivity]. unfold failed_status. cbn [tr_status tr_actual].
  split; [|reflexivity]. destruct Hs as [-> | ->]; [left|right]; reflexivity.
Qed.

(** X5.  When no child process leaves a decodable result, the evaluation
    still returns: one failed outcome per test case, nothing passed,
    score 0. *)
Theorem all_runs_failed (code : string) (problem : Problem) :
  (forall call script, no_result (subprocess_run call script)) ->
  exists r,
    runCorrectnessEvaluation code problem = Ok r /\
    map outcome_key (cr_testResults r) = map case_key (allTestCases problem) /\
    Forall failed_status (cr_testResults r) /\
    cr_passed r = 0 /\ cr_score r = 0.
Proof.
  intros Hn.
  assert (Loop : forall cases call st,
            Forall failed_status (testResults st) ->
            exists st', evalCases code (get (preamble problem) EmptyString) call cases st
                        = Ok st' /\
                        Forall failed_status (testResults st') /\
                        earnedWeight st' = earnedWeight st).
  { induction cases as [|tc rest IH]; intros call st Hf; cbn [evalCases].
    - exists st. split; [reflexivity|]. split; [exact Hf|reflexivity].
    - destruct (failed_run_is_recorded code (get (preamble problem) EmptyString) call tc st
                  (Hn _ _)) as (r & E & Hr & _).
      rewrite E. cbn [bind].
      assert (Hf1 : Forall failed_status (List.app (testResults st) [r])).
      { apply Forall_app. split; [exact Hf|]. constructor; [exact Hr|constructor]. }
      destruct (IH (S call)
                   {| testResults := List.app (testResults st) [r];
                      totalWeight := totalWeight st + weightOf tc;
                      earnedWeight := earnedWeight st |} Hf1)
        as (st' & E' & Hf' & He').
      exists st'. split; [exact E'|]. split; [exact Hf'|]. rewrite He'. reflexivity. }
  destruct (Loop (allTestCases problem) O
                 {| testResults := []; totalWeight := 0; earnedWeight := 0 |}
                 (Forall_nil _)) as (st & E & Hf & He).
  cbn [earnedWeight] in He.
  assert (Hs : weightedScore (earnedWeight st) (totalWeight st) = Ok 0).
  { rewrite He. apply ScoreOrder.weightedScore_nothing. }
  unfold runCorrectnessEvaluation, runLoop. rewrite E. cbn [bind]. rewrite Hs. cbn [bind].
  eexists. split; [reflexivity|]. cbn [cr_testResults cr_passed cr_score].
  split; [apply (evalCases_records _ _ _ _ _ _ E)|].
  split; [exact Hf|]. split; [|reflexivity].
  assert (Hnone : filter (status_is "pass") (testResults st) = []).
  { clear - Hf. induction Hf as [|r l [[Hr|Hr] _] _ IH]; cbn [filter]; [reflexivity| |];
      unfold status_is at 1; rewrite Hr; cbn; exact IH. }
  rewrite Hnone. reflexivity.
Qed.

End CorrectnessRecords.

Lemma outcomes_follow_cases_witness :
  exists r,
    @runCorrectnessEvaluation three_runs plain_builtins solution three_cases = Ok r /\
    map outcome_key (cr_testResults r) = map case_key (allTestCases three_cases) /\
    map tr_hidden (cr_testResults r)
    = List.app (map (fun _ => false) (testCases three_cases))
               (map (fun _ => true) (hiddenTestCases three_cases)) /\
    cr_total r = Z.of_nat (List.length (cr_testResults r)) /\
    0 <= cr_passed r <= cr_total r.
Proof.
  eexists. split; [vm_compute; reflexivity|].
  refine (@outcomes_follow_cases three_runs plain_builtins solution three_cases _ _).
  vm_compute. reflexivity.
Defined.

Lemma failed_run_is_recorded_witness :
  @no_result syntax_error_runs
     (@subprocess_run syntax_error_runs 0
        (@_buildRunnerScript syntax_error_runs secret_text "f(1)" EmptyString)) /\
  exists r,
    @evalCase syntax_error_runs plain_builtins secret_text EmptyString 0
              (case "f(1)" (PyInt 1) None, false) no_results
    = Ok {| testResults := List.app (testResults no_results) [r];
            totalWeight := totalWeight no_results
                           + weightOf (case "f(1)" (PyInt 1) None, false);
            earnedWeight := earnedWeight no_results |} /\
    failed_status r /\ outcome_key r = case_key (case "f(1)" (PyInt 1) None, false).
Proof.
  assert (Hn : @no_result syntax_error_runs
                 (@subprocess_run syntax_error_runs 0
                    (@_buildRunnerScript syntax_error_runs secret_text "f(1)" EmptyString)))
    by (intros l [] ).
  split; [exact Hn|].
  exact (@failed_run_is_recorded syntax_error_runs plain_builtins secret_text EmptyString 0
           (case "f(1)" (PyInt 1) None, false) no_results Hn).
Defined.

Lemma all_runs_failed_witness :
  (forall call script, @no_result syntax_error_runs
                         (@subprocess_run syntax_error_runs call script)) /\
  exists r,
    @runCorrectnessEvaluation syntax_error_runs plain_builtins secret_text three_cases
    = Ok r /\
    map outcome_key (cr_testResults r) = map case_key (allTestCases three_cases) /\
    Forall failed_status (cr_testResults r) /\
    cr_passed r = 0 /\ cr_score r = 0.
Proof.
  assert (Hn : forall call script, @no_result syntax_error_runs
                                     (@subprocess_run syntax_error_runs call script))
    by (intros call script l []).
  split; [exact Hn|].
  exact (@all_runs_failed syntax_error_runs plain_builtins secret_text three_cases Hn).
Defined.






Section SandboxBounds.

Context `{Sandbox}.


End SandboxBounds.


Section CorrectnessExceptions.

Context `{Sandbox} `{Builtins}.

Lemma of_int_raises (z : Z) (e : PyExn) :
  Binary64.of_int z = Raise e -> e = OverflowError.
Proof.
  unfold Binary64.of_int. destruct (Binary64.pack _); intros E;
    [discriminate E|congruence|congruence].
Qed.

Lemma py_float_raises (v : PyValue) (e : PyExn) :
  py_float v = Raise e -> e = TypeError \/ e = ValueError \/ e = OverflowError.
Proof.
  destruct v as [|b|z|f|s|l|d]; cbn [py_float].
  - intros E. left. congruence.
  - intros E. right. right. exact (of_int_raises _ _ E).
  - intros E. right. right. exact (of_int_raises _ _ E).
  - intros E. discriminate E.
  - destruct (float_of_str s); intros E; [discriminate E|]. right. left. congruence.
  - intros E. left. congruence.
  - intros E. left. congruence.
Qed.

(** X7.  The comparison of an actual with an expected value returns a
    verdict or raises OverflowError, and nothing else; it can raise only
    when one of the two values is a float. *)
Theorem valuesMatch_raises_only_overflow (actual expected : PyValue) (ordered : bool) :
  (exists verdict, _valuesMatch actual expected ordered = Ok verdict) \/
  (_valuesMatch actual expected ordered = Raise OverflowError /\
   isinstance_float expected || isinstance_float actual = true).
Proof.
  unfold _valuesMatch.
  destruct (is_none expected); [left; eexists; reflexivity|].
  destruct (isinstance_float expected || isinstance_float actual).
  - destruct (py_float actual) as [a|ea] eqn:Ea; cbn [bind].
    + destruct (py_float expected) as [e|ee] eqn:Ee; cbn [bind].
      * left. eexists. reflexivity.
      * destruct (py_float_raises _ _ Ee) as [-> | [-> | ->]];
          [left; eexists; reflexivity|left; eexists; reflexivity|right; split; reflexivity].
    + destruct (py_float_raises _ _ Ea) as [-> | [-> | ->]];
        [left; eexists; reflexivity|left; eexists; reflexivity|right; split; reflexivity].
  - left. destruct expected; try (eexists; reflexivity).
    destruct actual; try (eexists; reflexivity).
    destruct (negb ordered); [|eexists; reflexivity].
    destruct (py_sorted items0); [destruct (py_sorted items)|]; eexists; reflexivity.
Qed.

Lemma evalCase_raises (code pre : string) (call : nat) (tc : TestCase * bool)
      (st : LoopState) (e : PyExn) :
  evalCase code pre call tc st = Raise e ->
  e = TypeError \/ e = KeyError \/ e = OverflowError.
Proof.
  unfold evalCase.
  assert (Hsub : forall v k x, subscript v k = Raise x -> x = TypeError \/ x = KeyError).
  { intros v k x. unfold subscript. destruct v; try (intros E; injection E as <-; auto).
    destruct (lookup k entries); intros E; [discriminate|]. injection E as <-. auto. }
  destruct (subscript _ "status") as [status0|x] eqn:E1; cbn [bind].
  - destruct (py_eq status0 (PyStr "ok")); [|discriminate].
    destruct (subscript _ "result") as [actual|x] eqn:E2; cbn [bind].
    + destruct (valuesMatch_raises_only_overflow actual
                  (get (tc_expected (fst tc)) PyNone) (get (tc_ordered (fst tc)) true))
        as [[b Hb]|[Hb _]]; rewrite Hb; cbn [bind]; [discriminate|].
      intros E; injection E as <-. auto.
    + intros E; injection E as <-. destruct (Hsub _ _ _ E2); auto.
  - intros E; injection E as <-. destruct (Hsub _ _ _ E1); auto.
Qed.

Lemma to_int_pack_raises (u : Z) (e : PyExn) :
  Binary64.to_int (Binary64.pack u) = Raise e -> e = OverflowError.
Proof.
  unfold Binary64.pack. destruct (Binary64.huge <=? Z.abs u); cbn [Binary64.to_int];
    intros E; [congruence|discriminate E].
Qed.

Lemma weightedScore_raises (earned total : Z) (e : PyExn) :
  weightedScore earned total = Raise e -> e = OverflowError.
Proof.
  unfold weightedScore. destruct (0 <? total) eqn:Ht; [|intros E; discriminate E].
  unfold Binary64.int_truediv.
  destruct (Z.eqb_spec total 0) as [E0|_]; [rewrite E0 in Ht; discriminate Ht|].
  rewrite Rounding.of_int_small by lia.
  destruct (Binary64.pack _) as [q|s|]; cbn [bind Binary64.fmul].
  - apply to_int_pack_raises.
  - intros E. congruence.
  - intros E. congruence.
Qed.

(** X8.  The correctness evaluation returns a report or raises TypeError,
    KeyError or OverflowError; whatever the weights, it never divides by
    zero. *)
Theorem correctness_exceptions (code : string) (problem : Problem) :
  (exists r, runCorrectnessEvaluation code problem = Ok r) \/
  runCorrectnessEvaluation code problem = Raise TypeError \/
  runCorrectnessEvaluation code problem = Raise KeyError \/
  runCorrectnessEvaluation code problem = Raise OverflowError.
Proof.
  assert (Loop : forall cases call st e,
            evalCases code (get (preamble problem) EmptyString) call cases st = Raise e ->
            e = TypeError \/ e = KeyError \/ e = OverflowError).
  { induction cases as [|tc rest IH]; intros call st e; cbn [evalCases]; [discriminate|].
    destruct (evalCase _ _ call tc st) as [st1|x] eqn:E; cbn [bind].
    - apply IH.
    - intros E'; injection E' as <-. exact (evalCase_raises _ _ _ _ _ _ E). }
  unfold runCorrectnessEvaluation, runLoop.
  destruct (evalCases _ _ _ _ _) as [st|x] eqn:E; cbn [bind].
  - destruct (weightedScore _ _) as [s|y] eqn:Es; cbn [bind].
    + left. eexists. reflexivity.
    + rewrite (weightedScore_raises _ _ _ Es). auto.
  - destruct (Loop _ _ _ _ E) as [-> | [-> | ->]]; auto.
Qed.

End CorrectnessExceptions.

(* ================================================================== *)
(** * More about the complexity evaluator *)
(* ================================================================== *)

(** Induction on a tree, with the property known for the children. *)
Lemma node_induction (P : node -> Prop) :
  (forall c f l e cs, Forall P cs -> P (Node c f l e cs)) -> forall n, P n.
Proof.
  intros step. fix IH 1. intros [c f l e cs]. apply step.
  induction cs as [|k cs IHcs]; constructor; [apply IH|exact IHcs].
Qed.

(** The sum of f over a node and all its descendants. *)
Fixpoint subtree_sum (f : node -> Z) (n : node) : Z :=
  f n + sumZ (map (subtree_sum f) (children n)).

Lemma sumZ_app (a b : list Z) : sumZ (List.app a b) = sumZ a + sumZ b.
Proof. induction a as [|x a IH]; unfold sumZ in *; cbn [app fold_right]; lia. Qed.

Lemma sumZ_flat_map {A : Type} (g : A -> list node) (f : node -> Z) (l : list A) :
  sumZ (map f (flat_map g l)) = sumZ (map (fun a => sumZ (map f (g a))) l).
Proof.
  induction l as [|a l IH]; [reflexivity|].
  cbn [flat_map map]. rewrite map_app, sumZ_app, IH. reflexivity.
Qed.

Lemma height_child (n k : node) : In k (children n) -> (height k < height n)%nat.
Proof.
  destruct n as [c f l e cs]. cbn [children height]. revert k.
  induction cs as [|k' cs IH]; intros k Hin; [destruct Hin|].
  cbn [fold_right]. destruct Hin as [->|Hin]; [lia|].
  specialize (IH k Hin). lia.
Qed.

Lemma height_pos (n : node) : (0 < height n)%nat.
Proof. destruct n. cbn [height]. lia. Qed.

Lemma subtree_sum_unfold (f : node -> Z) (n : node) :
  subtree_sum f n = f n + sumZ (map (subtree_sum f) (children n)).
Proof. destruct n; reflexivity. Qed.

(** Summing f over the breadth-first levels below a front is summing it
    over the subtrees of the front. *)
Lemma levels_sum (f : node -> Z) :
  forall (depth : nat) (front : list node),
    (forall t, In t front -> (height t <= depth)%nat) ->
    sumZ (map f (levels depth front)) = sumZ (map (subtree_sum f) front).
Proof.
  induction depth as [|depth IH]; intros front Hh.
  - destruct front as [|t front]; [reflexivity|].
    pose proof (Hh t (or_introl eq_refl)). pose proof (height_pos t). lia.
  - cbn [levels]. destruct front as [|t front]; [reflexivity|].
    set (fr := t :: front) in *.
    rewrite map_app, sumZ_app, IH.
    + rewrite sumZ_flat_map. clearbody fr. clear.
      induction fr as [|a fr IHfr]; [reflexivity|].
      unfold sumZ in *. cbn [map fold_right]. rewrite (subtree_sum_unfold f a).
      fold (sumZ (map (subtree_sum f) (children a))). lia.
    + intros k Hin. apply in_flat_map in Hin. destruct Hin as (p & Hp & Hk).
      pose proof (height_child p k Hk). pose proof (Hh p Hp). lia.
Qed.

Lemma walk_sum (f : node -> Z) (n : node) :
  sumZ (map f (walk n)) = subtree_sum f n.
Proof.
  unfold walk. rewrite levels_sum.
  - unfold sumZ. cbn [map fold_right]. lia.
  - intros t [<-|[]]. lia.
Qed.

Lemma fold_visit (visit : node -> Z -> Z) (g : node -> Z) (cs : list node) :
  Forall (fun k => forall c, visit k c = c + g k) cs ->
  forall a, fold_left (fun c child => visit child c) cs a = a + sumZ (map g cs).
Proof.
  induction 1 as [|k cs Hk _ IH]; intros a; unfold sumZ in *; cbn [fold_left map fold_right].
  - lia.
  - rewrite IH, Hk. lia.
Qed.

Lemma cyclomatic_visit_sum (n : node) :
  forall count, cyclomatic_visit n count = count + subtree_sum cyclomatic_increment n.
Proof.
  induction n as [c f l e cs IH] using node_induction. intros count.
  rewrite subtree_sum_unfold.
  change (cyclomatic_visit (Node c f l e cs) count)
    with (fold_left (fun c' child => cyclomatic_visit child c') cs
                    (count + cyclomatic_increment (Node c f l e cs))).
  rewrite (fold_visit cyclomatic_visit (subtree_sum cyclomatic_increment) cs IH).
  cbn [children]. lia.
Qed.

Lemma cyclomatic_as_sum (n : node) :
  cyclomatic n = 1 + sumZ (map cyclomatic_increment (walk n)).
Proof. unfold cyclomatic. rewrite cyclomatic_visit_sum, walk_sum. reflexivity. Qed.

(** X9.  The cyclomatic count of a function is 1 plus what its nodes add,
    summed over the function node and all its descendants as [ast.walk]
    lists them: nested functions are counted into the enclosing one. *)
Theorem cyclomatic_counts_every_node (n : node) :
  cyclomatic n = 1 + sumZ (map cyclomatic_increment (walk n)) /\
  cyclomaticScore (metricsOf n) = 1 + sumZ (map cyclomatic_increment (walk n)).
Proof. split; apply cyclomatic_as_sum. Qed.

(** The nesting depth, by recursion on the tree. *)
Fixpoint depth_below (n : node) : Z :=
  (if is_nesting_node n then 1 else 0)
  + fold_right (fun k d => Z.max (depth_below k) d) 0 (children n).

Lemma depth_below_nonneg (n : node) : 0 <= depth_below n.
Proof.
  induction n as [c f l e cs IH] using node_induction.
  cbn [depth_below children].
  assert (0 <= fold_right (fun k d => Z.max (depth_below k) d) 0 cs).
  { clear IH. induction cs as [|k cs IHcs]; cbn [fold_right]; lia. }
  destruct (is_nesting_node (Node c f l e cs)); lia.
Qed.

Lemma fold_nesting (cs : list node) :
  Forall (fun k => forall v, _currentDepth v <= maxDepth v ->
                   nesting_visit k v
                   = {| maxDepth := Z.max (maxDepth v) (_currentDepth v + depth_below k);
                        _currentDepth := _currentDepth v |}) cs ->
  forall v, _currentDepth v <= maxDepth v ->
            fold_left (fun w child => nesting_visit child w) cs v
            = {| maxDepth := Z.max (maxDepth v)
                               (_currentDepth v
                                + fold_right (fun k d => Z.max (depth_below k) d) 0 cs);
                 _currentDepth := _currentDepth v |}.
Proof.
  induction 1 as [|k cs Hk _ IH]; intros v Hv; cbn [fold_left fold_right].
  - destruct v as [m d]. cbn [maxDepth _currentDepth] in *. f_equal. lia.
  - rewrite IH, Hk by (try rewrite Hk by exact Hv; cbn [maxDepth _currentDepth]; lia).
    cbn [maxDepth _currentDepth]. f_equal. lia.
Qed.

Lemma nesting_visit_depth (n : node) :
  forall v, _currentDepth v <= maxDepth v ->
            nesting_visit n v
            = {| maxDepth := Z.max (maxDepth v) (_currentDepth v + depth_below n);
                 _currentDepth := _currentDepth v |}.
Proof.
  induction n as [c f l e cs IH] using node_induction. intros v Hv.
  pose proof (fold_nesting cs IH) as Hf.
  assert (Hd : 0 <= fold_right (fun k d => Z.max (depth_below k) d) 0 cs).
  { clear. induction cs as [|k cs IHcs]; cbn [fold_right]; [lia|].
    pose proof (depth_below_nonneg k). lia. }
  change (nesting_visit (Node c f l e cs) v)
    with (if is_nesting_node (Node c f l e cs) then
            let v1 := {| maxDepth := Z.max (maxDepth v) (_currentDepth v + 1);
                         _currentDepth := _currentDepth v + 1 |} in
            let v2 := fold_left (fun w child => nesting_visit child w) cs v1 in
            {| maxDepth := maxDepth v2; _currentDepth := _currentDepth v2 - 1 |}
          else fold_left (fun w child => nesting_visit child w) cs v).
  cbn [depth_below children].
  destruct (is_nesting_node (Node c f l e cs)); cbn zeta;
    rewrite Hf by (cbn [maxDepth _currentDepth]; lia);
    cbn [maxDepth _currentDepth]; f_equal; lia.
Qed.

(** X10.  Started with its depth counter not above its maximum, the
    nesting visitor leaves the counter where it found it and raises the
    maximum to the counter plus the nesting depth of the subtree; the
    depth reported for a function is that of its tree, never negative. *)
Theorem nesting_visitor_is_balanced (n : node) (v : NestingDepthVisitor) :
  _currentDepth v <= maxDepth v ->
  nesting_visit n v
  = {| maxDepth := Z.max (maxDepth v) (_currentDepth v + depth_below n);
       _currentDepth := _currentDepth v |} /\
  nesting_depth n = depth_below n /\
  0 <= maxNestDepth (metricsOf n).
Proof.
  intros Hv. split; [apply nesting_visit_depth; exact Hv|].
  assert (E : nesting_depth n = depth_below n).
  { unfold nesting_depth. rewrite nesting_visit_depth by (cbn; lia).
    cbn [maxDepth _currentDepth]. pose proof (depth_below_nonneg n). lia. }
  split; [exact E|]. cbn [metricsOf maxNestDepth]. rewrite E. apply depth_below_nonneg.
Qed.

Lemma sumZ_nonneg (l : list Z) : Forall (fun z => 0 <= z) l -> 0 <= sumZ l.
Proof. induction 1; unfold sumZ in *; cbn [fold_right]; lia. Qed.

(** X11.  In a tree whose boolean chains have at least one operand, as
    every parsed tree has, the cyclomatic count of a function is at
    least 1. *)
Theorem cyclomatic_at_least_1 (n : node) :
  (forall m, In m (walk n) -> cls m = BoolOp -> attr "values" m <> []) ->
  1 <= cyclomaticScore (metricsOf n).
Proof.
  intros Hb. cbn [metricsOf cyclomaticScore]. rewrite cyclomatic_as_sum.
  assert (0 <= sumZ (map cyclomatic_increment (walk n))); [|lia].
  apply sumZ_nonneg. apply Forall_map. apply Forall_forall. intros m Hm.
  unfold cyclomatic_increment, count_nodes.
  destruct (cls m) eqn:E; try lia.
  specialize (Hb m Hm E). destruct (attr "values" m); [contradiction|].
  cbn [List.length]. lia.
Qed.

Lemma cyclomatic_at_least_1_witness :
  (forall m, In m (walk assert_with_tree) -> cls m = BoolOp -> attr "values" m <> []) /\
  1 <= cyclomaticScore (metricsOf assert_with_tree).
Proof.
  assert (Hb : forall m, In m (walk assert_with_tree) -> cls m = BoolOp ->
                         attr "values" m <> []).
  { intros m Hm. vm_compute in Hm.
    repeat (destruct Hm as [<-|Hm]; [intros E; discriminate E|]). destruct Hm. }
  split; [exact Hb|]. exact (cyclomatic_at_least_1 assert_with_tree Hb).
Defined.

Lemma nesting_visitor_is_balanced_witness :
  _currentDepth {| maxDepth := 0; _currentDepth := 0 |}
    <= maxDepth {| maxDepth := 0; _currentDepth := 0 |} /\
  nesting_visit assert_with_tree {| maxDepth := 0; _currentDepth := 0 |}
  = {| maxDepth := Z.max (maxDepth {| maxDepth := 0; _currentDepth := 0 |})
                     (_currentDepth {| maxDepth := 0; _currentDepth := 0 |}
                      + depth_below assert_with_tree);
       _currentDepth := _currentDepth {| maxDepth := 0; _currentDepth := 0 |} |} /\
  nesting_depth assert_with_tree = depth_below assert_with_tree /\
  0 <= maxNestDepth (metricsOf assert_with_tree).
Proof.
  assert (Hv : _currentDepth {| maxDepth := 0; _currentDepth := 0 |}
               <= maxDepth {| maxDepth := 0; _currentDepth := 0 |}) by (cbn; lia).
  split; [exact Hv|].
  exact (nesting_visitor_is_balanced assert_with_tree _ Hv).
Defined.

Lemma functionScore_floor (m : FunctionMetrics) : 20 <= functionScore m <= 100.
Proof.
  unfold functionScore.
  destruct (Z.ltb_spec 10 (cyclomaticScore m));
    [|destruct (Z.ltb_spec 5 (cyclomaticScore m))];
    destruct (Z.ltb_spec 2 (maxNestDepth m)); lia.
Qed.

(** X12.  The score of a function does not rise with its cyclomatic count
    or its nesting depth, stays between 20 and 100, and is 100 exactly up
    to a count of 5 and a depth of 2. *)
Theorem functionScore_decreases (m1 m2 : FunctionMetrics) :
  cyclomaticScore m1 <= cyclomaticScore m2 ->
  maxNestDepth m1 <= maxNestDepth m2 ->
  20 <= functionScore m2 <= functionScore m1 /\
  functionScore m1 <= 100 /\
  (functionScore m1 = 100 <-> cyclomaticScore m1 <= 5 /\ maxNestDepth m1 <= 2).
Proof.
  intros Hc Hd. unfold functionScore.
  destruct (Z.ltb_spec 10 (cyclomaticScore m1));
    [|destruct (Z.ltb_spec 5 (cyclomaticScore m1))];
    (destruct (Z.ltb_spec 10 (cyclomaticScore m2));
       [|destruct (Z.ltb_spec 5 (cyclomaticScore m2))]);
    destruct (Z.ltb_spec 2 (maxNestDepth m1));
    destruct (Z.ltb_spec 2 (maxNestDepth m2)); lia.
Qed.

Lemma functionScore_decreases_witness :
  cyclomaticScore {| fm_name := "f"; cyclomaticScore := 6; maxNestDepth := 2;
                     isRecursive := false; lineCount := 9 |}
  <= cyclomaticScore {| fm_name := "g"; cyclomaticScore := 12; maxNestDepth := 4;
                        isRecursive := false; lineCount := 30 |} /\
  maxNestDepth {| fm_name := "f"; cyclomaticScore := 6; maxNestDepth := 2;
                  isRecursive := false; lineCount := 9 |}
  <= maxNestDepth {| fm_name := "g"; cyclomaticScore := 12; maxNestDepth := 4;
                     isRecursive := false; lineCount := 30 |} /\
  20 <= functionScore {| fm_name := "g"; cyclomaticScore := 12; maxNestDepth := 4;
                         isRecursive := false; lineCount := 30 |}
     <= functionScore {| fm_name := "f"; cyclomaticScore := 6; maxNestDepth := 2;
                         isRecursive := false; lineCount := 9 |} /\
  functionScore {| fm_name := "f"; cyclomaticScore := 6; maxNestDepth := 2;
                   isRecursive := false; lineCount := 9 |} <= 100 /\
  (functionScore {| fm_name := "f"; cyclomaticScore := 6; maxNestDepth := 2;
                    isRecursive := false; lineCount := 9 |} = 100
   <-> cyclomaticScore {| fm_name := "f"; cyclomaticScore := 6; maxNestDepth := 2;
                          isRecursive := false; lineCount := 9 |} <= 5 /\
       maxNestDepth {| fm_name := "f"; cyclomaticScore := 6; maxNestDepth := 2;
                       isRecursive := false; lineCount := 9 |} <= 2).
Proof.
  assert (Hc : cyclomaticScore {| fm_name := "f"; cyclomaticScore := 6; maxNestDepth := 2;
                                  isRecursive := false; lineCount := 9 |}
               <= cyclomaticScore {| fm_name := "g"; cyclomaticScore := 12;
                                     maxNestDepth := 4; isRecursive := false;
                                     lineCount := 30 |}) by (cbn; lia).
  assert (Hd : maxNestDepth {| fm_name := "f"; cyclomaticScore := 6; maxNestDepth := 2;
                               isRecursive := false; lineCount := 9 |}
               <= maxNestDepth {| fm_name := "g"; cyclomaticScore := 12; maxNestDepth := 4;
                                  isRecursive := false; lineCount := 30 |}) by (cbn; lia).
  split; [exact Hc|]. split; [exact Hd|].
  exact (functionScore_decreases _ _ Hc Hd).
Defined.

Lemma sum_functionScores_floor (metrics : list FunctionMetrics) :
  20 * Z.of_nat (List.length (map functionScore metrics))
  <= sumZ (map functionScore metrics).
Proof.
  induction metrics as [|m rest IH]; unfold sumZ in *; cbn [map fold_right List.length].
  - lia.
  - pose proof (functionScore_floor m). lia.
Qed.

Lemma scoreFromMetrics_floor (metrics : list FunctionMetrics) (s : Z) :
  metrics <> [] -> _scoreFromMetrics metrics = Ok s -> 20 <= s.
Proof.
  intros Hne. destruct metrics as [|m rest]; [contradiction|].
  unfold _scoreFromMetrics.
  pose proof (sum_functionScores_floor (m :: rest)) as Hlo.
  pose proof (Bounds.sum_functionScores (m :: rest)) as Hhi.
  set (total := sumZ (map functionScore (m :: rest))) in *.
  set (n := Z.of_nat (List.length (map functionScore (m :: rest)))) in *.
  assert (Hn : 0 < n) by (unfold n; cbn [map List.length]; lia).
  pose proof Rounding.unit_pos as U.
  assert (Hq : 20 * Binary64.unit <= Binary64.round_ratio (total * Binary64.unit) n
               <= 100 * Binary64.unit).
  { split.
    - rewrite <- (OverallFacts.round_int 20) by lia.
      apply Rounding.round_ratio_mono; try lia. nia.
    - rewrite <- ScoreFacts.round_hundred. apply Rounding.round_ratio_mono; nia. }
  unfold Binary64.int_truediv.
  destruct (Z.eqb_spec n 0); [lia|]. destruct (Z.ltb_spec n 0); [lia|].
  rewrite Z.abs_eq by lia. rewrite Rounding.pack_fin by lia. cbn [bind Binary64.to_int].
  intros E. injection E as <-. apply Z.quot_le_lower_bound; lia.
Qed.

Section ComplexityFloor.

Context `{Parser} `{Builtins}.

(** X13.  A submission that parses and defines at least one function has a
    complexity score of at least 20: the floor at 0 of a function's score
    is never reached, since the three deductions sum to at most 80. *)
Theorem complexity_score_at_least_20 (code : string) (r : ComplexityReport) :
  runComplexityEvaluation code = Ok r ->
  cx_functions r <> [] ->
  20 <= cx_score r <= 100.
Proof.
  unfold runComplexityEvaluation. destruct (ast_parse code) as [tree|exc].
  - destruct (_scoreFromMetrics _) as [s|] eqn:Es; cbn [bind]; [|intros E; discriminate E].
    match goal with |- (summary <- ?m ;; _) = _ -> _ => destruct m end;
      cbn [bind]; [|intros E; discriminate E].
    intros E. injection E as <-. cbn [cx_functions cx_score]. intros Hne.
    split; [exact (scoreFromMetrics_floor _ _ Hne Es)|].
    destruct (Bounds.scoreFromMetrics_range
                (map metricsOf (filter isFunctionDef (walk tree)))) as (s' & Hs' & Hr).
    rewrite Es in Hs'. injection Hs' as <-. lia.
  - intros E. injection E as <-. cbn [cx_functions]. intros Hne. contradiction.
Qed.

End ComplexityFloor.

Definition assert_with_report : ComplexityReport :=
  Eval vm_compute in
    match @runComplexityEvaluation known_trees plain_builtins assert_with_text with
    | Ok r => r
    | Raise _ => {| cx_score := 0; cx_functions := []; cx_builtinHints := [];
                    cx_summary := EmptyString; cx_warnings := [] |}
    end.

Lemma complexity_score_at_least_20_witness :
  @runComplexityEvaluation known_trees plain_builtins assert_with_text
  = Ok assert_with_report /\
  cx_functions assert_with_report <> [] /\
  20 <= cx_score assert_with_report <= 100.
Proof.
  assert (Hr : @runComplexityEvaluation known_trees plain_builtins assert_with_text
               = Ok assert_with_report) by (vm_compute; reflexivity).
  assert (Hne : cx_functions assert_with_report <> []) by (intros E; discriminate E).
  split; [exact Hr|]. split; [exact Hne|].
  exact (@complexity_score_at_least_20 known_trees plain_builtins assert_with_text
                                       assert_with_report Hr Hne).
Defined.

Lemma hints_step (found : list string) (n : node) :
  NoDup found -> (forall h, In h found -> In h (map snd HINTS)) ->
  let found' :=
    match called_name n with
    | Some funcName =>
        match lookup funcName HINTS with
        | Some hint =>
            if nonempty funcName && negb (mem_str hint found)
            then List.app found [hint] else found
        | None => found
        end
    | None => found
    end in
  NoDup found' /\ (forall h, In h found' -> In h (map snd HINTS)).
Proof.
  intros Hnd Hin. cbn zeta.
  destruct (called_name n) as [funcName|]; [|split; assumption].
  destruct (lookup funcName HINTS) as [hint|] eqn:El; [|split; assumption].
  destruct (nonempty funcName && negb (mem_str hint found)) eqn:Ec; [|split; assumption].
  apply andb_prop in Ec. destruct Ec as [_ Em]. apply negb_true_iff in Em.
  assert (Hhint : In hint (map snd HINTS)).
  { clear - El. unfold HINTS in *. cbn [lookup] in El.
    repeat (destruct (String.eqb funcName _);
            [injection El as <-; cbn [map snd]; auto 10 using in_eq, in_cons|]).
    discriminate El. }
  split.
  - apply NoDup_app_remove_l with (l := []). cbn [app].
    rewrite <- (rev_involutive (List.app found [hint])). apply NoDup_rev.
    rewrite rev_app_distr. cbn [rev app]. constructor.
    + intros Hh. apply in_rev in Hh.
      assert (mem_str hint found = true); [|congruence].
      unfold mem_str. apply existsb_exists. exists hint. split; [exact Hh|apply String.eqb_refl].
    + apply NoDup_rev. exact Hnd.
  - intros h Hh. apply in_app_or in Hh. destruct Hh as [Hh|[<-|[]]]; auto.
Qed.

(** X14.  The complexity hints of a submission are distinct messages of
    the table of hints: at most five, however often a built-in is
    called. *)
Theorem builtin_hints_are_distinct (tree : node) :
  NoDup (_detectBuiltinHints tree) /\
  (forall h, In h (_detectBuiltinHints tree) -> In h (map snd HINTS)) /\
  (List.length (_detectBuiltinHints tree) <= 5)%nat.
Proof.
  assert (H : forall nodes found,
            NoDup found -> (forall h, In h found -> In h (map snd HINTS)) ->
            NoDup (fold_left
                     (fun found n =>
                        match called_name n with
                        | Some funcName =>
                            match lookup funcName HINTS with
                            | Some hint =>
                                if nonempty funcName && negb (mem_str hint found)
                                then List.app found [hint] else found
                            | None => found
                            end
                        | None => found
                        end) nodes found) /\
            (forall h, In h (fold_left
                     (fun found n =>
                        match called_name n with
                        | Some funcName =>
                            match lookup funcName HINTS with
                            | Some hint =>
                                if nonempty funcName && negb (mem_str hint found)
                                then List.app found [hint] else found
                            | None => found
                            end
                        | None => found
                        end) nodes found) -> In h (map snd HINTS))).
  { induction nodes as [|n nodes IH]; intros found Hnd Hin; cbn [fold_left].
    - split; assumption.
    - destruct (hints_step found n Hnd Hin) as [Hnd' Hin']. apply IH; assumption. }
  destruct (H (walk tree) [] (NoDup_nil _) (fun h (Hh : In h []) => match Hh with end))
    as [Hnd Hin].
  split; [exact Hnd|]. split; [exact Hin|].
  change 5%nat with (List.length (map snd HINTS)).
  apply NoDup_incl_length; [exact Hnd|exact Hin].
Qed.

(* ================================================================== *)
(** * The style report *)
(* ================================================================== *)

Lemma violation_weight_range (violationType : string) :
  1 <= get (lookup violationType VIOLATION_WEIGHTS) 2 <= 8.
Proof.
  unfold VIOLATION_WEIGHTS. cbn [lookup].
  repeat (destruct (String.eqb violationType _); [cbn [get]; lia|]).
  cbn [get]. lia.
Qed.

Lemma deduction_brackets (violationsByType : list (string * list string)) (acc : Z) :
  acc + sumZ (map (fun kv => Z.of_nat (List.length (snd kv))) violationsByType)
  <= fold_left
       (fun (total : Z) (item : string * list string) =>
          total + Z.of_nat (List.length (snd item))
                  * get (lookup (fst item) VIOLATION_WEIGHTS) 2) violationsByType acc
  <= acc + 8 * sumZ (map (fun kv => Z.of_nat (List.length (snd kv))) violationsByType).
Proof.
  revert acc. induction violationsByType as [|item l IH]; intros acc;
    unfold sumZ in *; cbn [fold_left map fold_right]; [lia|].
  specialize (IH (acc + Z.of_nat (List.length (snd item))
                        * get (lookup (fst item) VIOLATION_WEIGHTS) 2)).
  pose proof (violation_weight_range (fst item)). nia.
Qed.

Lemma violations_counted (violationsByType : list (string * list string)) :
  Forall (fun kv => snd kv <> []) violationsByType ->
  Z.of_nat (List.length violationsByType)
  <= sumZ (map (fun kv => Z.of_nat (List.length (snd kv))) violationsByType).
Proof.
  induction 1 as [|kv l Hkv _ IH]; unfold sumZ in *; cbn [map fold_right List.length]; [lia|].
  destruct (snd kv); [contradiction|]. cbn [List.length]. lia.
Qed.

Lemma filter_nonempty {A : Type} (l : list (string * list A)) :
  Forall (fun kv => snd kv <> []) (filter (fun kv => nonempty_list (snd kv)) l).
Proof.
  apply Forall_forall. intros kv Hin. apply filter_In in Hin. destruct Hin as [_ Hne].
  destruct (snd kv); [discriminate Hne|]. intros E. discriminate E.
Qed.

Lemma NoDup_keys_filter {A : Type} (f : string * A -> bool) (l : list (string * A)) :
  NoDup (map fst l) -> NoDup (map fst (filter f l)).
Proof.
  induction l as [|kv l IH]; cbn [map filter]; [intros _; constructor|].
  intros Hnd. inversion Hnd as [|k ks Hk Hks]; subst.
  destruct (f kv); cbn [map]; [|apply IH; exact Hks].
  constructor; [|apply IH; exact Hks].
  intros Hin. apply Hk. apply in_map_iff in Hin. destruct Hin as (kv' & E & Hin).
  apply filter_In in Hin. apply in_map_iff. exists kv'. split; [exact E|apply Hin].
Qed.

Section StyleReports.

Context `{Parser} `{Builtins}.

(** X15.  For a submission that parses, every violation costs between 1
    and 8 points: the style score lies between 100 - 8 n and 100 - n (and
    not below 0) for n violations, is 100 exactly when there is none, and
    there is none exactly when no category is reported. *)
Theorem style_score_tracks_violations (code : string) (tree : node) :
  ast_parse code = Parsed tree ->
  Z.max 0 (100 - 8 * st_totalViolations (runStyleEvaluation code))
    <= st_score (runStyleEvaluation code)
    <= Z.max 0 (100 - st_totalViolations (runStyleEvaluation code)) /\
  (st_score (runStyleEvaluation code) = 100
   <-> st_totalViolations (runStyleEvaluation code) = 0) /\
  (st_totalViolations (runStyleEvaluation code) = 0
   <-> st_violations (runStyleEvaluation code) = []).
Proof.
  intros Hp. unfold runStyleEvaluation. rewrite Hp.
  cbn [st_score st_totalViolations st_violations].
  match goal with |- context [filter ?f ?l] => set (vs := filter f l) end.
  pose proof (deduction_brackets vs 0) as Hd.
  pose proof (violations_counted vs (filter_nonempty _)) as Hc.
  unfold style_computeScore.
  set (total := sumZ (map (fun kv => Z.of_nat (List.length (snd kv))) vs)) in *.
  split; [lia|]. split; [lia|]. split.
  - intros E. destruct vs; [reflexivity|]. cbn [List.length] in Hc. lia.
  - intros E. unfold total. rewrite E. reflexivity.
Qed.

(** X16.  The categories of a style report are non-empty, distinct and
    among the seven that [runStyleEvaluation] fills: nothing is ever
    reported as bareExcept or multipleReturnTypes, although both have a
    weight. *)
Theorem style_categories_reported (code : string) :
  Forall (fun kv => snd kv <> [] /\
                    In (fst kv) ["namingConvention"; "missingDocstring"; "magicNumber";
                                 "lineTooLong"; "emptyExcept"; "mutableDefault";
                                 "unusedImport"])
         (st_violations (runStyleEvaluation code)) /\
  NoDup (map fst (st_violations (runStyleEvaluation code))) /\
  ~ In "bareExcept" (map fst (st_violations (runStyleEvaluation code))) /\
  ~ In "multipleReturnTypes" (map fst (st_violations (runStyleEvaluation code))).
Proof.
  assert (Hall : Forall (fun kv => snd kv <> [] /\
                    In (fst kv) ["namingConvention"; "missingDocstring"; "magicNumber";
                                 "lineTooLong"; "emptyExcept"; "mutableDefault";
                                 "unusedImport"])
         (st_violations (runStyleEvaluation code))).
  { unfold runStyleEvaluation. destruct (ast_parse code) as [tree|exc];
      cbn [st_violations]; [|constructor].
    apply Forall_forall. intros kv Hin. split.
    - pose proof (filter_nonempty
                    [ ("namingConvention", _checkNaming tree);
                      ("missingDocstring", _checkDocstrings tree);
                      ("magicNumber", _checkMagicNumbers tree);
                      ("lineTooLong", _checkLineLengths (splitlines code));
                      ("emptyExcept", _checkEmptyAndBareExcept tree);
                      ("mutableDefault", _checkMutableDefaults tree);
                      ("unusedImport", _checkUnusedImports tree code) ]) as Hne.
      rewrite Forall_forall in Hne. apply Hne. exact Hin.
    - apply filter_In in Hin. destruct Hin as [Hin _].
      apply (in_map fst) in Hin. exact Hin. }
  assert (Hnot : forall k,
             ~ In k ["namingConvention"; "missingDocstring"; "magicNumber";
                     "lineTooLong"; "emptyExcept"; "mutableDefault"; "unusedImport"] ->
             ~ In k (map fst (st_violations (runStyleEvaluation code)))).
  { intros k Hk Hin. apply in_map_iff in Hin. destruct Hin as (kv & <- & Hin).
    rewrite Forall_forall in Hall. apply Hk. apply (Hall kv Hin). }
  split; [exact Hall|]. split.
  - unfold runStyleEvaluation. destruct (ast_parse code) as [tree|exc];
      cbn [st_violations]; [|constructor].
    apply NoDup_keys_filter. cbn [map fst].
    repeat (constructor; [cbn [In]; intros Hin;
                          repeat (destruct Hin as [Hin|Hin]; [discriminate Hin|]);
                          exact Hin|]).
    constructor.
  - split; apply Hnot; cbn [In]; intros Hin;
      repeat (destruct Hin as [Hin|Hin]; [discriminate Hin|]); exact Hin.
Qed.

End StyleReports.

Lemma style_score_tracks_violations_witness :
  @ast_parse known_trees bare_except_text = Parsed bare_except_tree /\
  Z.max 0 (100 - 8 * st_totalViolations
                       (@runStyleEvaluation known_trees plain_builtins bare_except_text))
    <= st_score (@runStyleEvaluation known_trees plain_builtins bare_except_text)
    <= Z.max 0 (100 - st_totalViolations
                        (@runStyleEvaluation known_trees plain_builtins bare_except_text)) /\
  (st_score (@runStyleEvaluation known_trees plain_builtins bare_except_text) = 100
   <-> st_totalViolations
         (@runStyleEvaluation known_trees plain_builtins bare_except_text) = 0) /\
  (st_totalViolations (@runStyleEvaluation known_trees plain_builtins bare_except_text) = 0
   <-> st_violations (@runStyleEvaluation known_trees plain_builtins bare_except_text) = []).
Proof.
  assert (Hp : @ast_parse known_trees bare_except_text = Parsed bare_except_tree)
    by (vm_compute; reflexivity).
  split; [exact Hp|].
  exact (@style_score_tracks_violations known_trees plain_builtins bare_except_text
                                        bare_except_tree Hp).
Defined.

(* ================================================================== *)
(** * The security report *)
(* ================================================================== *)

Lemma deductions_by_severity (findings : list SecurityFinding) :
  sumZ (map (fun f => SEVERITY_DEDUCTIONS (severity f)) findings)
  = 30 * severityCount critical findings + 15 * severityCount high findings
    + 8 * severityCount medium findings + 3 * severityCount low findings.
Proof.
  unfold severityCount, sumZ.
  induction findings as [|f rest IH]; cbn [map fold_right filter]; [reflexivity|].
  rewrite IH. destruct (severity f); cbn [severity_eqb SEVERITY_DEDUCTIONS List.length];
    rewrite Nat2Z.inj_succ; lia.
Qed.

Lemma severityCount_none (s : Severity) (findings : list SecurityFinding) :
  Forall (fun f => severity f <> s) findings -> severityCount s findings = 0.
Proof.
  unfold severityCount. induction 1 as [|f rest Hf _ IH]; cbn [filter]; [reflexivity|].
  destruct (severity f), s; cbn [severity_eqb]; try exact IH; contradiction Hf; reflexivity.
Qed.

Lemma finding_deducts (f : SecurityFinding) (findings : list SecurityFinding) :
  In f findings ->
  security_computeScore findings <= 100 - SEVERITY_DEDUCTIONS (severity f).
Proof.
  intros Hin. unfold security_computeScore.
  assert (Hs : SEVERITY_DEDUCTIONS (severity f)
               <= sumZ (map (fun f => SEVERITY_DEDUCTIONS (severity f)) findings)).
  { induction findings as [|g rest IH]; [destruct Hin|].
    unfold sumZ in *. cbn [map fold_right].
    assert (Hrest : 0 <= fold_right Z.add 0
                           (map (fun f => SEVERITY_DEDUCTIONS (severity f)) rest)).
    { clear. induction rest as [|h rest IH]; cbn [map fold_right]; [lia|].
      destruct (severity h); cbn [SEVERITY_DEDUCTIONS]; lia. }
    destruct Hin as [<-|Hin]; [lia|].
    specialize (IH Hin). destruct (severity g); cbn [SEVERITY_DEDUCTIONS]; lia. }
  destruct (severity f); cbn [SEVERITY_DEDUCTIONS] in *; lia.
Qed.

Definition SECURITY_CATEGORIES : list string :=
  ["DangerousBuiltin"; "DangerousAPI"; "ShellInjection"; "AssertForSecurity";
   "HardcodedSecret"; "SQLInjection"].

Definition reported (f : SecurityFinding) : Prop :=
  severity f <> low /\ In (category f) SECURITY_CATEGORIES.

Lemma dangerous_call_reported (n : node) : Forall reported (dangerous_call n).
Proof.
  unfold dangerous_call.
  destruct (cls n); try constructor.
  destruct (attr "func" n) as [|func rest]; [constructor|].
  apply Forall_app. split.
  - destruct (cls func); try constructor.
    match goal with |- context [lookup ?id DANGEROUS] =>
      destruct (lookup id DANGEROUS) as [[sev desc]|] eqn:El end; [|constructor].
    constructor; [|constructor]. split; cbn [severity category].
    + unfold DANGEROUS in El. cbn [lookup] in El.
      repeat match type of El with
             | (if ?c then _ else _) = _ =>
                 destruct c; [injection El as <- _; intros E; discriminate E|]
             end.
      discriminate El.
    + cbn; auto.
  - destruct (cls func); try constructor.
    match goal with |- context [lookup_attr ?m ?a DANGEROUS_ATTRS] =>
      destruct (lookup_attr m a DANGEROUS_ATTRS) as [[sev desc]|] eqn:El end; [|constructor].
    constructor.
    + split; cbn [severity category]; [|cbn; auto].
      unfold DANGEROUS_ATTRS in El.
      match type of El with lookup_attr ?m _ _ = _ => destruct m end;
        cbn [lookup_attr] in El; [|discriminate El].
      repeat match type of El with
             | (if ?c then _ else _) = _ =>
                 destruct c; [injection El as <- _; intros E; discriminate E|]
             end.
      discriminate El.
    + match goal with |- Forall _ (if ?c then _ else _) => destruct c end; [|constructor].
      apply Forall_map. apply Forall_forall. intros kw _.
      split; cbn [severity category]; [intros E; discriminate E|cbn; auto 10].
Qed.

Lemma text_checks_reported (sourceCode : string) :
  Forall reported (_checkHardcodedSecrets sourceCode) /\
  Forall reported (_checkSqlInjection sourceCode).
Proof.
  split.
  - unfold _checkHardcodedSecrets. apply Forall_flat_map. apply Forall_forall.
    intros entry _. apply Forall_map. apply Forall_forall. intros start _.
    split; cbn [severity category]; [intros E; discriminate E|cbn; auto 10].
  - unfold _checkSqlInjection. apply Forall_map. apply Forall_forall. intros start _.
    split; cbn [severity category]; [intros E; discriminate E|cbn; auto 10].
Qed.

Section SecurityReports.

Context `{Parser}.

Lemma assert_finding_reported (n : node) : Forall reported (assert_finding n).
Proof.
  unfold assert_finding.
  destruct (cls n); try constructor.
  destruct (attr "test" n) as [|test rest]; [constructor|].
  destruct (ast_unparse test) as [text|]; [|constructor].
  destruct (existsb _ _); constructor; [|constructor].
  split; cbn [severity category]; [intros E; discriminate E|cbn; auto 10].
Qed.

Lemma findings_reported (code : string) :
  Forall reported (se_findings (runSecurityEvaluation code)).
Proof.
  unfold runSecurityEvaluation. destruct (ast_parse code) as [tree|exc];
    cbn [se_findings]; [|constructor].
  destruct (text_checks_reported code) as [Hs Hq].
  apply Forall_app. split; [|apply Forall_app; split; [|apply Forall_app; split; assumption]].
  - unfold _checkDangerousCalls. apply Forall_flat_map. apply Forall_forall.
    intros n _. apply dangerous_call_reported.
  - unfold _checkAssertForSecurity. apply Forall_flat_map. apply Forall_forall.
    intros n _. apply assert_finding_reported.
Qed.

(** X17.  The security score of a report is 100 less 30 for each critical,
    15 for each high and 8 for each medium finding, and not below 0; no
    check reports a finding of low severity, and every finding belongs to
    one of six categories. *)
Theorem security_score_by_severity (code : string) :
  se_score (runSecurityEvaluation code)
  = Z.max 0 (100 - (30 * severityCount critical (se_findings (runSecurityEvaluation code))
                    + 15 * severityCount high (se_findings (runSecurityEvaluation code))
                    + 8 * severityCount medium (se_findings (runSecurityEvaluation code)))) /\
  severityCount low (se_findings (runSecurityEvaluation code)) = 0 /\
  Forall (fun f => In (category f) SECURITY_CATEGORIES)
         (se_findings (runSecurityEvaluation code)).
Proof.
  pose proof (findings_reported code) as Hr.
  assert (Hlow : severityCount low (se_findings (runSecurityEvaluation code)) = 0).
  { apply severityCount_none. eapply Forall_impl; [|exact Hr]. intros f Hf. apply Hf. }
  split; [|split; [exact Hlow|]].
  - assert (Hs : se_score (runSecurityEvaluation code)
                 = security_computeScore (se_findings (runSecurityEvaluation code))).
    { unfold runSecurityEvaluation. destruct (ast_parse code); reflexivity. }
    rewrite Hs. unfold security_computeScore. rewrite deductions_by_severity, Hlow.
    f_equal. lia.
  - eapply Forall_impl; [|exact Hr]. intros f Hf. apply Hf.
Qed.

(** X18.  A call of eval or exec anywhere in a submission that parses is
    reported as a critical finding at the line of the call, and the
    security score is then at most 70. *)
Theorem eval_call_is_critical (code : string) (tree n func : node) (rest : list node)
        (id : string) :
  ast_parse code = Parsed tree ->
  In n (walk tree) ->
  cls n = Call ->
  attr "func" n = func :: rest ->
  cls func = Name id ->
  id = "eval" \/ id = "exec" ->
  In {| severity := critical; category := "DangerousBuiltin";
        description := id ++ "() executes arbitrary code. Never use on untrusted input.";
        line := lineno n |}
     (se_findings (runSecurityEvaluation code)) /\
  se_score (runSecurityEvaluation code) <= 70.
Proof.
  intros Hp Hn Hc Hf Hid Hname.
  set (f := {| severity := critical; category := "DangerousBuiltin";
               description := id ++ "() executes arbitrary code. Never use on untrusted input.";
               line := lineno n |}).
  assert (Hin : In f (se_findings (runSecurityEvaluation code))).
  { unfold runSecurityEvaluation. rewrite Hp. cbn [se_findings].
    apply in_or_app. left. unfold _checkDangerousCalls. apply in_flat_map.
    exists n. split; [exact Hn|].
    unfold dangerous_call. rewrite Hc, Hf, Hid. apply in_or_app. left.
    destruct Hname as [-> | ->]; left; reflexivity. }
  split; [exact Hin|].
  assert (Hs : se_score (runSecurityEvaluation code)
               = security_computeScore (se_findings (runSecurityEvaluation code))).
  { unfold runSecurityEvaluation. destruct (ast_parse code); reflexivity. }
  rewrite Hs. pose proof (finding_deducts f _ Hin) as Hd.
  cbn [f severity SEVERITY_DEDUCTIONS] in Hd. lia.
Qed.

End SecurityReports.

(** print(eval(x)) *)
Definition eval_text : string := "print(eval(x))" ++ nl.

Definition eval_call : node := call_node "args" "eval" [name_node "args" "x" Load 1] 1.

Definition eval_tree : node :=
  Node Module_ EmptyString 0 0
    [ Node Expr "body" 1 1 [call_node "value" "print" [eval_call] 1] ].

Definition eval_parser : Parser := table_parser [(eval_text, eval_tree)].

Lemma eval_call_is_critical_witness :
  @ast_parse eval_parser eval_text = Parsed eval_tree /\
  In eval_call (walk eval_tree) /\
  cls eval_call = Call /\
  attr "func" eval_call
  = name_node "func" "eval" Load 1 :: [] /\
  cls (name_node "func" "eval" Load 1) = Name "eval" /\
  ("eval" = "eval" \/ "eval" = "exec") /\
  In {| severity := critical; category := "DangerousBuiltin";
        description := "eval" ++ "() executes arbitrary code. Never use on untrusted input.";
        line := lineno eval_call |}
     (se_findings (@runSecurityEvaluation eval_parser eval_text)) /\
  se_score (@runSecurityEvaluation eval_parser eval_text) <= 70.
Proof.
  assert (Hp : @ast_parse eval_parser eval_text = Parsed eval_tree)
    by (vm_compute; reflexivity).
  assert (Hn : In eval_call (walk eval_tree))
    by (vm_compute; do 4 right; left; reflexivity).
  assert (Hc : cls eval_call = Call) by reflexivity.
  assert (Hf : attr "func" eval_call = name_node "func" "eval" Load 1 :: [])
    by (vm_compute; reflexivity).
  assert (Hid : cls (name_node "func" "eval" Load 1) = Name "eval") by reflexivity.
  assert (Hname : "eval" = "eval" \/ "eval" = "exec") by (left; reflexivity).
  split; [exact Hp|]. split; [exact Hn|]. split; [exact Hc|]. split; [exact Hf|].
  split; [exact Hid|]. split; [exact Hname|].
  exact (@eval_call_is_critical eval_parser eval_text eval_tree eval_call
           (name_node "func" "eval" Load 1) [] "eval" Hp Hn Hc Hf Hid Hname).
Defined.

(* ================================================================== *)
(** * The report: overall score, grade and recommendations *)
(* ================================================================== *)

(** X19.  Raising a dimension score never lowers the overall score: the
    weighted sums of two different inputs differ by at least 15
    hundredths, more than the floating-point evaluation can lose. *)
Theorem overall_score_monotone (C1 X1 S1 K1 C2 X2 S2 K2 : Z) :
  0 <= C1 <= C2 -> C2 <= 100 ->
  0 <= X1 <= X2 -> X2 <= 100 ->
  0 <= S1 <= S2 -> S2 <= 100 ->
  0 <= K1 <= K2 -> K2 <= 100 ->
  exists o1 o2,
    _computeOverallScore C1 X1 S1 K1 = Ok o1 /\
    _computeOverallScore C2 X2 S2 K2 = Ok o2 /\
    o1 <= o2.
Proof.
  intros HC HC' HX HX' HS HS' HK HK'.
  destruct (OverallFacts.overall_nearest C1 X1 S1 K1) as (o1 & E1 & N1); try lia.
  destruct (OverallFacts.overall_nearest C2 X2 S2 K2) as (o2 & E2 & N2); try lia.
  exists o1, o2. split; [exact E1|]. split; [exact E2|].
  destruct (Z.eq_dec C1 C2) as [EC|NC]; [destruct (Z.eq_dec X1 X2) as [EX|NX];
    [destruct (Z.eq_dec S1 S2) as [ES|NS]; [destruct (Z.eq_dec K1 K2) as [EK|NK]|]|]|].
  - subst. rewrite E1 in E2. injection E2 as ->. lia.
  - unfold nearest in N1, N2. lia.
  - unfold nearest in N1, N2. lia.
  - unfold nearest in N1, N2. lia.
  - unfold nearest in N1, N2. lia.
Qed.

Lemma overall_score_monotone_witness :
  0 <= 40 <= 90 /\ 90 <= 100 /\ 0 <= 80 <= 80 /\ 80 <= 100 /\
  0 <= 70 <= 100 /\ 100 <= 100 /\ 0 <= 100 <= 100 /\ 100 <= 100 /\
  exists o1 o2,
    _computeOverallScore 40 80 70 100 = Ok o1 /\
    _computeOverallScore 90 80 100 100 = Ok o2 /\
    o1 <= o2.
Proof.
  assert (HC : 0 <= 40 <= 90) by lia. assert (HC' : 90 <= 100) by lia.
  assert (HX : 0 <= 80 <= 80) by lia. assert (HX' : 80 <= 100) by lia.
  assert (HS : 0 <= 70 <= 100) by lia. assert (HS' : 100 <= 100) by lia.
  assert (HK : 0 <= 100 <= 100) by lia.
  split; [exact HC|]. split; [exact HC'|]. split; [exact HX|]. split; [exact HX'|].
  split; [exact HS|]. split; [exact HS'|]. split; [exact HK|]. split; [exact HS'|].
  exact (overall_score_monotone 40 80 70 100 90 80 100 100 HC HC' HX HX' HS HS' HK HS').
Defined.

Lemma firstGrade_table (s : Z) :
  0 <= s ->
  exists t,
    In (t, fst (_assignGrade s), snd (_assignGrade s)) GRADE_THRESHOLDS /\
    t <= s /\
    (forall t' g l, In (t', g, l) GRADE_THRESHOLDS -> t' <= s -> t' <= t).
Proof.
  intros Hs. unfold _assignGrade, GRADE_THRESHOLDS. cbn [firstGrade].
  destruct (Z.leb_spec 90 s);
    [|destruct (Z.leb_spec 80 s);
      [|destruct (Z.leb_spec 70 s);
        [|destruct (Z.leb_spec 60 s); [|destruct (Z.leb_spec 0 s); [|lia]]]]];
    cbn [fst snd];
    match goal with
    | |- exists t, In (t, ?g, _) _ /\ _ =>
        match g with
        | "A" => exists 90 | "B" => exists 80 | "C" => exists 70
        | "D" => exists 60 | "F" => exists 0
        end
    end;
    (split; [cbn [In]; auto 10|]); (split; [lia|]);
    intros t' g l Hin Ht; cbn [In] in Hin;
    repeat (destruct Hin as [Hin|Hin]; [injection Hin as <- _ _; lia|]);
    destruct Hin.
Qed.

(** X20.  The grade of a report built from scores between 0 and 100 is the
    row of the grade table with the highest threshold that the overall
    score reaches; the fallback label of [_assignGrade] is returned for
    negative scores only and so never appears in such a report. *)
Theorem report_grade_from_table (correctness : CorrectnessReport)
        (complexity : ComplexityReport) (style : StyleReport) (security : SecurityReport)
        (report : EvaluationReport) :
  0 <= cr_score correctness <= 100 ->
  0 <= cx_score complexity <= 100 ->
  0 <= st_score style <= 100 ->
  0 <= se_score security <= 100 ->
  buildReport correctness complexity style security = Ok report ->
  (exists t,
     In (t, grade report, gradeLabel report) GRADE_THRESHOLDS /\
     t <= overallScore report /\
     (forall t' g l, In (t', g, l) GRADE_THRESHOLDS -> t' <= overallScore report -> t' <= t)) /\
  gradeLabel report <> "Failing" /\
  (forall s, s < 0 -> _assignGrade s = ("F", "Failing")).
Proof.
  intros HC HX HS HK. unfold buildReport.
  destruct (Bounds.overall_range _ _ _ _ HC HX HS HK) as (o & Eo & Ho).
  rewrite Eo. cbn [bind].
  destruct (firstGrade_table o ltac:(lia)) as (t & Hin & Ht & Hmax).
  destruct (_assignGrade o) as [g l] eqn:Eg. cbn [fst snd] in Hin.
  intros E. injection E as <-. cbn [grade gradeLabel overallScore].
  split; [exists t; split; [exact Hin|split; [exact Ht|exact Hmax]]|]. split.
  - unfold GRADE_THRESHOLDS in Hin. cbn [In] in Hin.
    repeat (destruct Hin as [Hin|Hin]; [injection Hin as _ _ <-; intros E; discriminate E|]).
    destruct Hin.
  - intros s Hs. unfold _assignGrade, GRADE_THRESHOLDS. cbn [firstGrade].
    destruct (Z.leb_spec 90 s); [lia|]. destruct (Z.leb_spec 80 s); [lia|].
    destruct (Z.leb_spec 70 s); [lia|]. destruct (Z.leb_spec 60 s); [lia|].
    destruct (Z.leb_spec 0 s); [lia|]. reflexivity.
Qed.

Section UnparsableReports.

Context `{Sandbox} `{Builtins} `{Parser} `{ProblemStore}.

(** A report is returned for a body with both fields, the id of a stored
    problem and a text that is not blank, when the evaluators return; it
    is built from their results on the stripped text. *)
Lemma evaluateCode_evaluated (method : string) (body : PyValue) (report : EvaluationReport) :
  evaluateCode method body = Returns (Evaluated report) ->
  exists problemId code problem c x,
    stripped_field body "problemId" = Some problemId /\
    stripped_field body "code" = Some code /\
    nonempty code = true /\
    loadProblem problemId = Some problem /\
    runCorrectnessEvaluation code problem = Ok c /\
    runComplexityEvaluation code = Ok x /\
    buildReport c x (runStyleEvaluation code) (runSecurityEvaluation code) = Ok report.
Proof.
  unfold evaluateCode.
  destruct (String.eqb method "OPTIONS"); [intros E; discriminate E|].
  destruct (negb (truthy body)); [intros E; discriminate E|].
  destruct (stripped_field body "problemId") as [problemId|]; [|intros E; discriminate E].
  destruct (stripped_field body "code") as [code|]; [|intros E; discriminate E].
  destruct (negb (nonempty problemId)); [intros E; discriminate E|].
  destruct (nonempty code) eqn:Ecode; cbn [negb]; [|intros E; discriminate E].
  destruct (loadProblem problemId) as [problem|] eqn:Eload; [|intros E; discriminate E].
  destruct (runCorrectnessEvaluation code problem) as [c|] eqn:Ec; cbn [bind];
    [|intros E; discriminate E].
  destruct (runComplexityEvaluation code) as [x|] eqn:Ex; cbn [bind];
    [|intros E; discriminate E].
  destruct (buildReport c x (runStyleEvaluation code) (runSecurityEvaluation code))
    as [r|] eqn:Eb; [|intros E; discriminate E].
  intros E. injection E as <-.
  exists problemId, code, problem, c, x. conjuncts; reflexivity || assumption.
Qed.

(** X21.  A submission whose text, stripped as the route strips it, does
    not parse is graded D or F whatever its test runs return: complexity
    and style score 0 and security 100, so the overall score lies between
    15 and 65, and the grade is F unless the correctness score reaches
    89. *)
Theorem unparsable_submission_grade (method : string) (body : PyValue)
        (problemId code exc : string) (problem : Problem) (report : EvaluationReport) :
  stripped_field body "problemId" = Some problemId ->
  stripped_field body "code" = Some code ->
  loadProblem problemId = Some problem ->
  ast_parse code = SyntaxError exc ->
  Forall (fun tc => 0 < weightOf tc) (allTestCases problem) ->
  evaluateCode method body = Returns (Evaluated report) ->
  15 <= overallScore report <= 65 /\
  (grade report = "D" \/ grade report = "F") /\
  (cr_score (correctnessDimension report) < 89 -> grade report = "F").
Proof.
  intros Hid Hcode Hload Hp Hw Hr.
  destruct (evaluateCode_evaluated method body report Hr)
    as (problemId' & code' & problem' & c & x & Hid' & Hcode' & _ & Hload' & Ec & Ex & Eb).
  rewrite Hid in Hid'. injection Hid' as <-.
  rewrite Hcode in Hcode'. injection Hcode' as <-.
  rewrite Hload in Hload'. injection Hload' as <-.
  pose proof (correctness_score_range code problem c Hw Ec) as HC.
  revert Ex Eb. unfold runComplexityEvaluation, runStyleEvaluation, runSecurityEvaluation.
  rewrite Hp. intros Ex. injection Ex as <-.
  unfold buildReport. cbn [cx_score st_score se_score].
  destruct (OverallFacts.overall_nearest (cr_score c) 0 0 100) as (o & Eo & Hn); try lia.
  rewrite Eo. cbn [bind]. pose proof (assignGrade_thresholds o) as Hg.
  destruct (_assignGrade o) as [g l]. cbn [fst] in Hg.
  intros E. injection E as <-. cbn [overallScore grade correctnessDimension].
  unfold nearest in Hn.
  assert (Ho : 15 <= o <= 65) by lia.
  split; [exact Ho|].
  destruct (Z.leb_spec 90 o); [lia|]. destruct (Z.leb_spec 80 o); [lia|].
  destruct (Z.leb_spec 70 o); [lia|].
  destruct (Z.leb_spec 60 o); subst g.
  - split; [left; reflexivity|]. intros Hc. lia.
  - split; [right; reflexivity|]. intros _. reflexivity.
Qed.

End UnparsableReports.

Definition unparsable_run : EvaluationReport :=
  Eval vm_compute in
    match @evaluateCode syntax_error_runs plain_builtins known_trees
                        (one_problem "001" light_and_heavy) "POST"
                        (posted "001" secret_text) with
    | Returns (Evaluated report) => report
    | _ =>
        {| overallScore := 0; grade := EmptyString; gradeLabel := EmptyString;
           correctnessDimension :=
             {| cr_score := 0; cr_passed := 0; cr_total := 0; cr_testResults := [] |};
           complexityDimension :=
             {| cx_score := 0; cx_functions := []; cx_builtinHints := [];
                cx_summary := EmptyString; cx_warnings := [] |};
           styleDimension :=
             {| st_score := 0; st_violations := []; st_totalViolations := 0;
                st_summary := EmptyString |};
           securityDimension :=
             {| se_score := 0; se_findings := []; se_summary := EmptyString |} |}
    end.

Lemma unparsable_submission_grade_witness :
  stripped_field (posted "001" secret_text) "problemId" = Some "001" /\
  stripped_field (posted "001" secret_text) "code" = Some (strip secret_text) /\
  @loadProblem (one_problem "001" light_and_heavy) "001" = Some light_and_heavy /\
  @ast_parse known_trees (strip secret_text) = SyntaxError "invalid syntax" /\
  Forall (fun tc => 0 < weightOf tc) (allTestCases light_and_heavy) /\
  @evaluateCode syntax_error_runs plain_builtins known_trees
                (one_problem "001" light_and_heavy) "POST" (posted "001" secret_text)
  = Returns (Evaluated unparsable_run) /\
  15 <= overallScore unparsable_run <= 65 /\
  (grade unparsable_run = "D" \/ grade unparsable_run = "F") /\
  (cr_score (correctnessDimension unparsable_run) < 89 -> grade unparsable_run = "F").
Proof.
  assert (Hid : stripped_field (posted "001" secret_text) "problemId" = Some "001")
    by (vm_compute; reflexivity).
  assert (Hcode : stripped_field (posted "001" secret_text) "code" = Some (strip secret_text))
    by reflexivity.
  assert (Hload : @loadProblem (one_problem "001" light_and_heavy) "001"
                  = Some light_and_heavy) by reflexivity.
  assert (Hp : @ast_parse known_trees (strip secret_text) = SyntaxError "invalid syntax")
    by (vm_compute; reflexivity).
  assert (Hw : Forall (fun tc => 0 < weightOf tc) (allTestCases light_and_heavy))
    by (repeat constructor).
  assert (Hr : @evaluateCode syntax_error_runs plain_builtins known_trees
                             (one_problem "001" light_and_heavy) "POST"
                             (posted "001" secret_text)
               = Returns (Evaluated unparsable_run))
    by (vm_compute; reflexivity).
  split; [exact Hid|]. split; [exact Hcode|]. split; [exact Hload|]. split; [exact Hp|].
  split; [exact Hw|]. split; [exact Hr|].
  exact (@unparsable_submission_grade syntax_error_runs plain_builtins known_trees
           (one_problem "001" light_and_heavy) "POST" (posted "001" secret_text)
           "001" (strip secret_text) "invalid syntax" light_and_heavy unparsable_run
           Hid Hcode Hload Hp Hw Hr).
Defined.

Definition graded_correctness : CorrectnessReport :=
  {| cr_score := 90; cr_passed := 9; cr_total := 10; cr_testResults := [] |}.

Definition graded_complexity : ComplexityReport :=
  {| cx_score := 80; cx_functions := []; cx_builtinHints := [];
     cx_summary := EmptyString; cx_warnings := [] |}.

Definition graded_style : StyleReport :=
  {| st_score := 100; st_violations := []; st_totalViolations := 0;
     st_summary := EmptyString |}.

Definition graded_security : SecurityReport :=
  {| se_score := 100; se_findings := []; se_summary := EmptyString |}.

Definition graded_run : EvaluationReport :=
  {| overallScore := 91;
     grade := "A";
     gradeLabel := "Excellent — production-ready quality.";
     correctnessDimension := graded_correctness;
     complexityDimension := graded_complexity;
     styleDimension := graded_style;
     securityDimension := graded_security |}.

Lemma report_grade_from_table_witness :
  0 <= cr_score graded_correctness <= 100 /\
  0 <= cx_score graded_complexity <= 100 /\
  0 <= st_score graded_style <= 100 /\
  0 <= se_score graded_security <= 100 /\
  buildReport graded_correctness graded_complexity graded_style graded_security
  = Ok graded_run /\
  (exists t,
     In (t, grade graded_run, gradeLabel graded_run) GRADE_THRESHOLDS /\
     t <= overallScore graded_run /\
     (forall t' g l, In (t', g, l) GRADE_THRESHOLDS -> t' <= overallScore graded_run ->
                     t' <= t)) /\
  gradeLabel graded_run <> "Failing" /\
  (forall s, s < 0 -> _assignGrade s = ("F", "Failing")).
Proof.
  assert (HC : 0 <= cr_score graded_correctness <= 100) by (cbn; lia).
  assert (HX : 0 <= cx_score graded_complexity <= 100) by (cbn; lia).
  assert (HS : 0 <= st_score graded_style <= 100) by (cbn; lia).
  assert (HK : 0 <= se_score graded_security <= 100) by (cbn; lia).
  assert (Hr : buildReport graded_correctness graded_complexity graded_style
                           graded_security = Ok graded_run)
    by (vm_compute; reflexivity).
  split; [exact HC|]. split; [exact HX|]. split; [exact HS|]. split; [exact HK|].
  split; [exact Hr|].
  exact (report_grade_from_table _ _ _ _ graded_run HC HX HS HK Hr).
Defined.

(** [_buildRecommendations] of reportGenerator.py.  [None] stands for the
    IndexError of [styleViolations[category][0]] on a category that is
    present and empty. *)
Definition needs_fixing (t : TestResult) : bool :=
  existsb (py_eq (tr_status t)) [PyStr "fail"; PyStr "error"; PyStr "timeout"].

Definition urgent (f : SecurityFinding) : bool :=
  match severity f with
  | critical | high => true
  | medium | low => false
  end.

Definition highImpactCategories : list string :=
  ["emptyExcept"; "mutableDefault"; "bareExcept"; "missingDocstring"].

Fixpoint styleRecommendations (categories : list string)
         (styleViolations : list (string * list string)) : option (list string) :=
  match categories with
  | [] => Some []
  | category :: rest =>
      match lookup category styleViolations with
      | Some (firstViolation :: _) =>
          match styleRecommendations rest styleViolations with
          | Some more => Some (("[Style] " ++ firstViolation) :: more)
          | None => None
          end
      | Some [] => None
      | None => styleRecommendations rest styleViolations
      end
  end.

Definition fix_tests (failCount : nat) : string :=
  "Fix " ++ show_Z (Z.of_nat failCount)
    ++ " failing test case(s). Start with visible failures before tackling hidden edge cases.".

Definition _buildRecommendations (correctness : CorrectnessReport)
           (complexity : ComplexityReport) (style : StyleReport) (security : SecurityReport)
  : option (list string) :=
  let failedTests := filter needs_fixing (cr_testResults correctness) in
  let recommendations :=
    match failedTests with
    | [] => []
    | _ => [fix_tests (List.length failedTests)]
    end in
  let criticalFindings := filter urgent (se_findings security) in
  let recommendations :=
    List.app recommendations
      (map (fun finding => "[Security] " ++ description finding) (firstn 3 criticalFindings)) in
  let recommendations :=
    List.app recommendations
      (map (fun warning => "[Complexity] " ++ warning) (firstn 2 (cx_warnings complexity))) in
  match styleRecommendations highImpactCategories (st_violations style) with
  | Some styleLines => Some (firstn 8 (List.app recommendations styleLines))
  | None => None
  end.

Lemma styleRecommendations_fail (categories : list string)
      (styleViolations : list (string * list string)) :
  styleRecommendations categories styleViolations = None
  <-> exists category, In category categories /\ lookup category styleViolations = Some [].
Proof.
  induction categories as [|category rest IH]; cbn [styleRecommendations].
  - split; [intros E; discriminate E|intros (c & [] & _)].
  - destruct (lookup category styleViolations) as [[|firstViolation more]|] eqn:El.
    + split; [intros _; exists category; split; [left; reflexivity|exact El]|reflexivity].
    + destruct (styleRecommendations rest styleViolations) as [lines|].
      * split; [intros E; discriminate E|].
        intros (c & [<-|Hc] & Ec); [congruence|].
        assert (E : Some lines = None) by (apply IH; exists c; split; assumption).
        discriminate E.
      * split; [intros _|reflexivity].
        destruct (proj1 IH eq_refl) as (c & Hc & Ec).
        exists c. split; [right; exact Hc|exact Ec].
    + rewrite IH. split; intros (c & Hc & Ec).
      * exists c. split; [right; exact Hc|exact Ec].
      * destruct Hc as [<-|Hc]; [congruence|]. exists c. split; assumption.
Qed.

Lemma lookup_in {A : Type} (k : string) (d : list (string * A)) (v : A) :
  lookup k d = Some v -> In (k, v) d.
Proof.
  induction d as [|[k' v'] d IH]; cbn [lookup]; [intros E; discriminate E|].
  destruct (String.eqb_spec k k') as [->|_].
  - intros E. injection E as ->. left. reflexivity.
  - intros E. right. apply IH. exact E.
Qed.

(** X22.  [_buildRecommendations] fails, with the IndexError of taking the
    first violation, exactly when the style report holds one of the four
    high-impact categories with no violation in it; otherwise it returns
    at most 8 lines, the repair of failing tests first. *)
Theorem recommendations_fail_on_empty_category (correctness : CorrectnessReport)
        (complexity : ComplexityReport) (style : StyleReport) (security : SecurityReport) :
  (_buildRecommendations correctness complexity style security = None
   <-> exists category,
         In category highImpactCategories /\
         lookup category (st_violations style) = Some []) /\
  (forall lines,
     _buildRecommendations correctness complexity style security = Some lines ->
     (List.length lines <= 8)%nat /\
     (filter needs_fixing (cr_testResults correctness) <> [] ->
      exists rest,
        lines = fix_tests (List.length (filter needs_fixing (cr_testResults correctness)))
                  :: rest)).
Proof.
  unfold _buildRecommendations. split.
  - rewrite <- styleRecommendations_fail.
    destruct (styleRecommendations highImpactCategories (st_violations style));
      split; intros E; try discriminate E; reflexivity.
  - intros lines.
    destruct (styleRecommendations highImpactCategories (st_violations style))
      as [styleLines|]; [|intros E; discriminate E].
    intros E. split.
    + match type of E with Some (firstn 8 ?l) = _ => set (every := l) in E end.
      assert (El : lines = firstn 8 every) by congruence.
      rewrite El. apply firstn_le_length.
    + intros Hf. destruct (filter needs_fixing (cr_testResults correctness)) as [|t ts];
        [contradiction Hf; reflexivity|].
      cbn [List.app firstn] in E. injection E as <-. eexists. reflexivity.
Qed.

Section Recommendations.

Context `{Parser} `{Builtins}.

(** X23.  On the style report of [runStyleEvaluation], whatever the other
    three reports, [_buildRecommendations] returns: an empty category is
    never kept, and bareExcept is never one of the categories, so at
    most three style lines are added.  With no failing test, no
    critical or high finding, no complexity warning and none of the
    categories, nothing is recommended. *)
Theorem recommendations_of_style_report (code : string) (correctness : CorrectnessReport)
        (complexity : ComplexityReport) (security : SecurityReport) :
  exists lines,
    _buildRecommendations correctness complexity (runStyleEvaluation code) security
    = Some lines /\
    (List.length lines <= 8)%nat /\
    lookup "bareExcept" (st_violations (runStyleEvaluation code)) = None /\
    (filter needs_fixing (cr_testResults correctness) = [] ->
     filter urgent (se_findings security) = [] ->
     cx_warnings complexity = [] ->
     (forall category, In category highImpactCategories ->
                       lookup category (st_violations (runStyleEvaluation code)) = None) ->
     lines = []).
Proof.
  assert (Hne : forall category,
             lookup category (st_violations (runStyleEvaluation code)) <> Some []).
  { intros category El. apply lookup_in in El.
    unfold runStyleEvaluation in El. destruct (ast_parse code) as [tree|exc];
      cbn [st_violations] in El; [|destruct El].
    apply filter_In in El. destruct El as [_ El]. discriminate El. }
  assert (Hbare : lookup "bareExcept" (st_violations (runStyleEvaluation code)) = None).
  { destruct (lookup "bareExcept" (st_violations (runStyleEvaluation code))) as [vs|] eqn:El;
      [|reflexivity].
    apply lookup_in in El. unfold runStyleEvaluation in El.
    destruct (ast_parse code) as [tree|exc]; cbn [st_violations] in El; [|destruct El].
    apply filter_In in El. destruct El as [El _]. cbn [In] in El.
    repeat (destruct El as [El|El]; [discriminate El|]). destruct El. }
  destruct (_buildRecommendations correctness complexity (runStyleEvaluation code) security)
    as [lines|] eqn:Eb.
  - exists lines. split; [reflexivity|].
    unfold _buildRecommendations in Eb.
    destruct (styleRecommendations highImpactCategories
                (st_violations (runStyleEvaluation code))) as [styleLines|] eqn:Es;
      [|discriminate Eb].
    split; [|split; [exact Hbare|]].
    + match type of Eb with Some (firstn 8 ?l) = _ => set (every := l) in Eb end.
      assert (El : lines = firstn 8 every) by congruence.
      rewrite El. apply firstn_le_length.
    + intros Hf Hu Hw Hs. rewrite Hf, Hu, Hw in Eb. cbn [firstn map List.app] in Eb.
      unfold highImpactCategories in Es, Hs. cbn [styleRecommendations] in Es.
      rewrite (Hs "emptyExcept"), (Hs "mutableDefault"), (Hs "bareExcept"),
        (Hs "missingDocstring") in Es by (cbn [In]; auto 10).
      injection Es as <-. cbn [firstn] in Eb. injection Eb as <-. reflexivity.
  - exfalso. unfold _buildRecommendations in Eb.
    destruct (styleRecommendations highImpactCategories
                (st_violations (runStyleEvaluation code))) as [styleLines|] eqn:Es;
      [discriminate Eb|].
    apply styleRecommendations_fail in Es. destruct Es as (category & _ & El).
    exact (Hne category El).
Qed.

End Recommendations.

(* ================================================================== *)
(** * The comparison of a returned value with the expected one *)
(* ================================================================== *)

Lemma PyValue_induction (P : PyValue -> Prop) :
  P PyNone ->
  (forall b, P (PyBool b)) ->
  (forall z, P (PyInt z)) ->
  (forall f, P (PyFloat f)) ->
  (forall s, P (PyStr s)) ->
  (forall items, Forall P items -> P (PyList items)) ->
  (forall entries, Forall (fun kv => P (snd kv)) entries -> P (PyDict entries)) ->
  forall v, P v.
Proof.
  intros HN HB HZ HF HS HL HD. fix IH 1. intros [|b|z|f|s|items|entries].
  - exact HN.
  - apply HB.
  - apply HZ.
  - apply HF.
  - apply HS.
  - apply HL. induction items as [|v items IHitems]; constructor; [apply IH|exact IHitems].
  - apply HD. induction entries as [|[k v] entries IHentries]; constructor;
      [apply IH|exact IHentries].
Qed.

Fixpoint distinct (keys : list string) : bool :=
  match keys with
  | [] => true
  | k :: rest => negb (mem_str k rest) && distinct rest
  end.

(** Values that [==] relates to themselves: no NaN at any depth, and no
    key twice in a dict. *)
Fixpoint comparable (v : PyValue) : bool :=
  match v with
  | PyFloat Binary64.NaN => false
  | PyList items => forallb comparable items
  | PyDict entries =>
      forallb (fun kv => comparable (snd kv)) entries && distinct (map fst entries)
  | _ => true
  end.

Definition finite_or_no_float (v : PyValue) : bool :=
  match v with
  | PyFloat (Binary64.Fin _) => true
  | PyFloat _ => false
  | _ => true
  end.

Lemma lookup_distinct {A : Type} (k : string) (v : A) (d : list (string * A)) :
  distinct (map fst d) = true -> In (k, v) d -> lookup k d = Some v.
Proof.
  induction d as [|[k' v'] d IH]; cbn [map fst distinct lookup In]; [intros _ []|].
  intros Hd Hin. apply andb_prop in Hd. destruct Hd as [Hk Hd].
  destruct Hin as [E|Hin].
  - injection E as -> ->. rewrite String.eqb_refl. reflexivity.
  - destruct (String.eqb_spec k k') as [->|_]; [|apply IH; assumption].
    apply negb_true_iff in Hk. exfalso.
    assert (Hm : mem_str k' (map fst d) = true); [|congruence].
    unfold mem_str. apply existsb_exists. exists k'. split; [|apply String.eqb_refl].
    apply in_map_iff. exists (k', v). split; [reflexivity|exact Hin].
Qed.

Lemma py_eq_refl (v : PyValue) : comparable v = true -> py_eq v v = true.
Proof.
  induction v as [|b|z|f|s|items IH|entries IH] using PyValue_induction;
    cbn [comparable]; intros Hc.
  - reflexivity.
  - destruct b; reflexivity.
  - apply Z.eqb_refl.
  - destruct f; [apply Z.eqb_refl|apply Bool.eqb_reflx|discriminate Hc].
  - apply String.eqb_refl.
  - cbn [py_eq]. induction IH as [|v items Hv _ IHitems]; [reflexivity|].
    cbn [forallb] in Hc. apply andb_prop in Hc. destruct Hc as [Hcv Hci].
    rewrite (Hv Hcv). cbn [andb]. apply IHitems. exact Hci.
  - apply andb_prop in Hc. destruct Hc as [Hc Hd].
    cbn [py_eq]. rewrite Nat.eqb_refl. cbn [andb].
    assert (Hsub : forall part, incl part entries ->
              (fix each (d : list (string * PyValue)) : bool :=
                 match d with
                 | [] => true
                 | (k, v) :: d' =>
                     match lookup k entries with
                     | Some w => py_eq v w
                     | None => false
                     end && each d'
                 end) part = true).
    { induction part as [|[k v] part IHpart]; intros Hincl; [reflexivity|].
      assert (Hin : In (k, v) entries) by (apply Hincl; left; reflexivity).
      rewrite (lookup_distinct k v entries Hd Hin).
      rewrite Forall_forall in IH. rewrite forallb_forall in Hc.
      pose proof (IH (k, v) Hin (Hc (k, v) Hin)) as Hv. cbn [snd] in Hv.
      rewrite Hv. cbn [andb].
      apply IHpart. intros kv Hkv. apply Hincl. right. exact Hkv. }
    apply Hsub. apply incl_refl.
Qed.

Lemma strings_comparable (l : list string) : comparable (PyList (map PyStr l)) = true.
Proof. cbn [comparable]. induction l; cbn [map forallb comparable]; [reflexivity|exact IHl]. Qed.

Lemma within_tolerance_of_itself (u : Z) :
  Binary64.flt (Binary64.fabs (Binary64.fsub (Binary64.Fin u) (Binary64.Fin u)))
               (Binary64.lit 1 1000000) = true.
Proof.
  unfold Binary64.fsub, Binary64.fneg, Binary64.fadd.
  replace (u + - u) with 0 by lia. vm_compute. reflexivity.
Qed.

Lemma beyond_tolerance (x : Binary64.float) (s : bool) (y : Binary64.float) :
  Binary64.flt (Binary64.fabs (Binary64.fsub x (Binary64.Inf s))) y = false /\
  Binary64.flt (Binary64.fabs (Binary64.fsub x Binary64.NaN)) y = false.
Proof.
  split.
  - destruct x as [u|s'|]; cbn [Binary64.fsub Binary64.fneg Binary64.fadd Binary64.fabs].
    + destruct y; reflexivity.
    + destruct (Bool.eqb s' (negb s)); destruct y; reflexivity.
    + reflexivity.
  - destruct x; reflexivity.
Qed.

Section ValuesMatch.

Context `{Builtins}.

(** X24.  A returned value that is the expected one passes, with ordered
    or unordered comparison, provided the expected value holds no NaN and
    no key twice and is not itself an infinite float. *)
Theorem expected_value_matches_itself (v : PyValue) (ordered : bool) :
  comparable v = true ->
  finite_or_no_float v = true ->
  (forall l sl, py_sorted l = Some sl -> incl sl l) ->
  _valuesMatch v v ordered = Ok true.
Proof.
  intros Hc Hf Hsorted. unfold _valuesMatch.
  destruct v as [|b|z|f|s|items|entries]; cbn [is_none isinstance_float orb].
  - reflexivity.
  - rewrite (py_eq_refl (PyBool b) Hc). reflexivity.
  - rewrite (py_eq_refl (PyInt z) Hc). reflexivity.
  - destruct f as [u| |]; try discriminate Hf.
    cbn [py_float bind]. rewrite within_tolerance_of_itself. reflexivity.
  - rewrite (py_eq_refl (PyStr s) Hc). reflexivity.
  - destruct ordered; cbn [negb].
    + rewrite (py_eq_refl (PyList items) Hc). reflexivity.
    + destruct (py_sorted items) as [sl|] eqn:Es.
      * rewrite py_eq_refl; [reflexivity|].
        cbn [comparable] in *. apply forallb_forall. intros x Hx.
        rewrite forallb_forall in Hc. apply Hc. apply (Hsorted items sl Es). exact Hx.
      * rewrite (py_eq_refl _ (strings_comparable _)). reflexivity.
  - rewrite (py_eq_refl (PyDict entries) Hc). reflexivity.
Qed.

(** X25.  An expected value that is an infinite float or NaN is matched by
    nothing, not even by itself: the comparison answers no, or raises
    OverflowError on an int too large for a float. *)
Theorem non_finite_expected_never_matches (actual : PyValue) (s ordered : bool) :
  (_valuesMatch actual (PyFloat (Binary64.Inf s)) ordered = Ok false \/
   _valuesMatch actual (PyFloat (Binary64.Inf s)) ordered = Raise OverflowError) /\
  (_valuesMatch actual (PyFloat Binary64.NaN) ordered = Ok false \/
   _valuesMatch actual (PyFloat Binary64.NaN) ordered = Raise OverflowError) /\
  _valuesMatch (PyFloat (Binary64.Inf s)) (PyFloat (Binary64.Inf s)) ordered = Ok false.
Proof.
  assert (Hgen : forall f, (f = Binary64.Inf s \/ f = Binary64.NaN) ->
            _valuesMatch actual (PyFloat f) ordered = Ok false \/
            _valuesMatch actual (PyFloat f) ordered = Raise OverflowError).
  { intros f Hf. unfold _valuesMatch. cbn [is_none isinstance_float orb].
    destruct (py_float actual) as [a|e] eqn:Ea; cbn [bind py_float].
    - left. destruct Hf as [-> | ->].
      + rewrite (proj1 (beyond_tolerance a s _)). reflexivity.
      + rewrite (proj2 (beyond_tolerance a s _)). reflexivity.
    - destruct (py_float_raises actual e Ea) as [-> | [-> | ->]]; auto. }
  split; [apply Hgen; left; reflexivity|]. split; [apply Hgen; right; reflexivity|].
  unfold _valuesMatch. cbn [is_none isinstance_float orb py_float bind].
  rewrite (proj1 (beyond_tolerance (Binary64.Inf s) s _)). reflexivity.
Qed.

End ValuesMatch.

Definition nested_value : PyValue :=
  PyList [PyInt 1; PyFloat (Binary64.Fin Binary64.unit); PyDict [("a", PyNone); ("b", PyStr "x")]].

Lemma expected_value_matches_itself_witness :
  comparable nested_value = true /\
  finite_or_no_float nested_value = true /\
  (forall l sl, @py_sorted plain_builtins l = Some sl -> incl sl l) /\
  @_valuesMatch plain_builtins nested_value nested_value false = Ok true.
Proof.
  assert (Hc : comparable nested_value = true) by reflexivity.
  assert (Hf : finite_or_no_float nested_value = true) by reflexivity.
  assert (Hs : forall l sl, @py_sorted plain_builtins l = Some sl -> incl sl l)
    by (intros l sl E; discriminate E).
  split; [exact Hc|]. split; [exact Hf|]. split; [exact Hs|].
  exact (@expected_value_matches_itself plain_builtins nested_value false Hc Hf Hs).
Defined.

(* ================================================================== *)
(** * Lines reported by the checks on the text *)
(* ================================================================== *)

Fixpoint newlines (s : string) : Z :=
  match s with
  | EmptyString => 0
  | String c s' => (if Ascii.eqb "010"%char c then 1 else 0) + newlines s'
  end.

Lemma count_newlines (s : string) : count nl s = newlines s.
Proof.
  unfold count, nl.
  assert (Hf : forall s fuel, (String.length s < fuel)%nat ->
            count_from fuel (String "010"%char EmptyString) s = newlines s).
  { clear s. induction s as [|c s IH]; intros fuel Hlt;
      (destruct fuel as [|fuel]; [cbn in Hlt; lia|]); cbn [count_from after_prefix newlines].
    - reflexivity.
    - cbn [String.length] in Hlt. destruct (Ascii.eqb "010"%char c);
        rewrite IH by lia; reflexivity. }
  apply Hf. lia.
Qed.

Lemma newlines_nonneg (s : string) : 0 <= newlines s.
Proof.
  induction s as [|c s IH]; cbn [newlines]; [lia|].
  destruct (Ascii.eqb "010"%char c); lia.
Qed.

Lemma newlines_take (k : nat) (s : string) : 0 <= newlines (take k s) <= newlines s.
Proof.
  unfold take. revert k. induction s as [|c s IH]; intros k.
  - destruct k; cbn; lia.
  - pose proof (newlines_nonneg s).
    destruct k as [|k]; cbn [substring newlines].
    + destruct (Ascii.eqb "010"%char c); lia.
    + specialize (IH k). destruct (Ascii.eqb "010"%char c); lia.
Qed.

Lemma line_at_range (sourceCode : string) (start : nat) :
  1 <= line_at sourceCode start <= count nl sourceCode + 1.
Proof.
  unfold line_at. rewrite !count_newlines.
  pose proof (newlines_take start sourceCode). lia.
Qed.

(** X26.  Every finding of the two checks on the text points at a line of
    the text, between 1 and the number of its line feeds plus 1; a secret
    is always critical and a formatted SQL query always high. *)
Theorem text_findings_point_into_the_text (sourceCode : string) :
  Forall (fun f => severity f = critical /\ category f = "HardcodedSecret" /\
                   1 <= line f <= count nl sourceCode + 1)
         (_checkHardcodedSecrets sourceCode) /\
  Forall (fun f => severity f = high /\ category f = "SQLInjection" /\
                   1 <= line f <= count nl sourceCode + 1)
         (_checkSqlInjection sourceCode).
Proof.
  split.
  - unfold _checkHardcodedSecrets. apply Forall_flat_map. apply Forall_forall.
    intros entry _. apply Forall_map. apply Forall_forall. intros start _.
    cbn [severity category line]. split; [reflexivity|]. split; [reflexivity|].
    apply line_at_range.
  - unfold _checkSqlInjection. apply Forall_map. apply Forall_forall. intros start _.
    cbn [severity category line]. split; [reflexivity|]. split; [reflexivity|].
    apply line_at_range.
Qed.

(* ================================================================== *)
(** * Agreement with the primitive floats of the kernel

    On the literals and on operations of the kind the evaluators perform,
    [Binary64] computes the double that the kernel's IEEE 754 binary64
    arithmetic computes. *)
(* ================================================================== *)

Module KernelFloats.

(** The double held by a primitive float of the kernel. *)
Definition of_prim (x : PrimFloat.float) : Binary64.float :=
  match FloatOps.Prim2SF x with
  | SpecFloat.S754_zero _ => Binary64.Fin 0
  | SpecFloat.S754_finite s m e =>
      Binary64.Fin ((if s then -1 else 1) * Z.pos m * 2 ^ (e + 1074))
  | SpecFloat.S754_infinity s => Binary64.Inf s
  | SpecFloat.S754_nan => Binary64.NaN
  end.

Definition prim (z : Z) : PrimFloat.float := PrimFloat.of_uint63 (Uint63.of_Z z).

Example literals_agree :
  Binary64.lit 50 100 = of_prim (PrimFloat.div (prim 50) (prim 100)) /\
  Binary64.lit 20 100 = of_prim (PrimFloat.div (prim 20) (prim 100)) /\
  Binary64.lit 15 100 = of_prim (PrimFloat.div (prim 15) (prim 100)) /\
  Binary64.lit 1 1000000 = of_prim (PrimFloat.div (prim 1) (prim 1000000)).
Proof. conjuncts; vm_compute; reflexivity. Qed.

Example quotient_agrees :
  Binary64.int_truediv 29 100 = Ok (of_prim (PrimFloat.div (prim 29) (prim 100))) /\
  Binary64.int_truediv 2 3 = Ok (of_prim (PrimFloat.div (prim 2) (prim 3))).
Proof. conjuncts; vm_compute; reflexivity. Qed.

Example product_agrees :
  Binary64.fmul (of_prim (PrimFloat.div (prim 29) (prim 100))) (of_prim (prim 100))
  = of_prim (PrimFloat.mul (PrimFloat.div (prim 29) (prim 100)) (prim 100)) /\
  Binary64.fmul (of_prim (prim 9)) (Binary64.lit 15 100)
  = of_prim (PrimFloat.mul (prim 9) (PrimFloat.div (prim 15) (prim 100))).
Proof. conjuncts; vm_compute; reflexivity. Qed.

Example sum_agrees :
  Binary64.fadd (Binary64.lit 15 100) (Binary64.fmul (of_prim (prim 9)) (Binary64.lit 15 100))
  = of_prim (PrimFloat.add (PrimFloat.div (prim 15) (prim 100))
                           (PrimFloat.mul (prim 9) (PrimFloat.div (prim 15) (prim 100)))).
Proof. vm_compute. reflexivity. Qed.

End KernelFloats.
